(** * vmkite: the Buildkite job source and the vSphere session / VM builder

    A shallow embedding of the two Go packages of the repository:

    - package [buildkite] (job listing, completion check and the decoder of
      agent query rules), and
    - package [vsphere] (session keepalive, lazily cached finder, and the
      construction of the virtual machine config spec).

    Go functions returning [(T, error)] are embedded as functions into
    [result T]; a nil-pointer dereference or a failed type assertion is the
    outcome [Panic].  Calls that leave the process (the Buildkite REST API,
    the vSphere control plane) are answered by a record of oracles, and the
    vSphere side threads an explicit state holding the session fields and
    the trace of everything the code did (log lines and remote calls). *)

From Stdlib Require Import ZArith String Ascii List Bool DecimalString Lia.
From stdpp Require Import base option list strings gmap fin_maps.
Import ListNotations.
Open Scope string_scope.
Open Scope Z_scope.
Set Warnings "-register-all".

(** ** Shared Go vocabulary *)

(** A Go error value.  [errors_New] stands for an error made on the spot by
    [errors.New] / [fmt.Errorf], in this repository or in the vendored
    library code that runs in-process; [Remote] wraps an error handed back
    by a call to an external service. *)
Inductive VimFault :=
| NotAuthenticated
| OtherFault (name : string).

Inductive remote_error :=
| SoapFault (fault : VimFault)
| TransportError (msg : string).

Inductive error :=
| errors_New (msg : string)
| Remote (e : remote_error).

(** Outcome of a Go function of type [func(...) (T, error)]: the pair
    [(v, nil)] is [Ok v], the pair [(zero, err)] is [Err err]. *)
Inductive result (A : Type) :=
| Ok (a : A)
| Err (e : error)
| Panic (why : string).
Arguments Ok {A} a.
Arguments Err {A} e.
Arguments Panic {A} why.

Definition nil_deref : string := "invalid memory address or nil pointer dereference".

(** [*p] for a pointer field. *)
Definition deref {A} (p : option A) : result A :=
  match p with
  | Some a => Ok a
  | None => Panic nil_deref
  end.

Definition rbind {A B} (r : result A) (k : A -> result B) : result B :=
  match r with
  | Ok a => k a
  | Err e => Err e
  | Panic w => Panic w
  end.

(** One call of a package's [debugf]: the format and its arguments. *)
Inductive LogArg :=
| ArgString (s : string)
| ArgError (e : error)
| ArgObject.

Record LogLine := { log_prefix : string; log_format : string; log_args : list LogArg }.

(** [strings.Index(s, sep)] for a one-byte separator, returned as the text
    before and after the first occurrence. *)
Fixpoint cut (sep : ascii) (s : string) : option (string * string) :=
  match s with
  | EmptyString => None
  | String c rest =>
      if Ascii.eqb c sep then Some (EmptyString, rest)
      else match cut sep rest with
           | Some (pre, post) => Some (String c pre, post)
           | None => None
           end
  end.

(** The loop of [strings.SplitN] once [n] is positive: at most [n] further
    cuts, the last element being the unsplit remainder. *)
Fixpoint splitLoop (sep : ascii) (s : string) (n : nat) : list string :=
  match n with
  | O => [s]
  | S n' =>
      match cut sep s with
      | Some (pre, post) => pre :: splitLoop sep post n'
      | None => [s]
      end
  end.

(** [strings.SplitN(s, sep, n)] for a one-byte separator and [n >= 0]. *)
Definition SplitN (s : string) (sep : ascii) (n : nat) : list string :=
  match n with
  | O => []
  | S k => splitLoop sep s (Nat.min k (String.length s))
  end.

(** [strconv.Itoa]. *)
Definition Itoa (i : Z) : string := NilZero.string_of_int (Z.to_int i).

(** ** go-buildkite: the fields of the client library that the package
    reads; pointer fields are options. *)
Module gobuildkite.

Record Pipeline := { Slug : option string }.

Record Job := {
  JobID : option string;
  State : option string;
  AgentQueryRules : list string
}.

Record Build := {
  Number : option Z;
  BuildPipeline : option Pipeline;
  Jobs : list Job
}.

Record BuildsListOptions := { OptState : list string }.

(** [buildkite.Client]: the two REST calls the package makes,
    [Builds.ListByOrg] and [Builds.Get]. *)
Record Client := {
  Builds_ListByOrg : string -> BuildsListOptions -> result (list Build);
  Builds_Get : string -> string -> string -> result Build
}.

(** [buildkite.NewTokenConfig]: the transport that authenticates with an
    API token; an empty token is refused. *)
Record TokenAuthTransport := { APIToken : string; Debug : bool }.

Definition NewTokenConfig (apiToken : string) (debug : bool) : result TokenAuthTransport :=
  if String.eqb apiToken "" then Err (errors_New "Invalid token, empty string supplied")
  else Ok {| APIToken := apiToken; Debug := debug |}.

End gobuildkite.

(** ** Package buildkite *)
Module Buildkite.
Import gobuildkite.

Record Session := { Org : string; client : Client }.

(** [NewSession]; [NewClient] is [buildkite.NewClient] on the HTTP client
    of the token transport: the REST endpoint as seen with that token. *)
Definition NewSession (NewClient : TokenAuthTransport -> Client) (org apiToken : string)
  : result Session :=
  rbind (NewTokenConfig apiToken false) (fun config =>
  Ok {| Org := org; client := NewClient config |}).

Record VmkiteMetadata := { VMDK : string; GuestID : string }.

Record VmkiteJob := {
  ID : string;
  BuildNumber : string;
  Pipeline : string;
  Metadata : VmkiteMetadata
}.

Definition debugf (format : string) (args : list LogArg) : LogLine :=
  {| log_prefix := "[buildkite] "; log_format := format; log_args := args |}.

(** Body of the [for _, r := range rules] loop of [parseAgentQueryRules]. *)
Definition parseRule (metadata : VmkiteMetadata) (r : string) : VmkiteMetadata :=
  match SplitN r "="%char 2 with
  | [key; value] =>
      if String.eqb key "vmkite-vmdk" then
        {| VMDK := value; GuestID := GuestID metadata |}
      else if String.eqb key "vmkite-guestid" then
        {| VMDK := VMDK metadata; GuestID := value |}
      else metadata
  | _ => metadata
  end.

Definition parseAgentQueryRules (rules : list string) : VmkiteMetadata :=
  fold_left parseRule rules {| VMDK := ""; GuestID := "" |}.

(** The inner loop of [VmkiteJobs]: the jobs of one build, appended to
    [jobs]. *)
Fixpoint appendBuildJobs (build : Build) (bjobs : list Job) (jobs : list VmkiteJob)
  : result (list VmkiteJob) :=
  match bjobs with
  | [] => Ok jobs
  | job :: rest =>
      let metadata := parseAgentQueryRules (AgentQueryRules job) in
      if negb (String.eqb (GuestID metadata) "") && negb (String.eqb (VMDK metadata) "") then
        rbind (deref (JobID job)) (fun id =>
        rbind (deref (Number build)) (fun number =>
        rbind (deref (BuildPipeline build)) (fun pipeline =>
        rbind (deref (Slug pipeline)) (fun slug =>
        appendBuildJobs build rest
          (jobs ++ [{| ID := id; BuildNumber := Itoa number;
                       Pipeline := slug; Metadata := metadata |}])))))
      else appendBuildJobs build rest jobs
  end.

(** The outer loop of [VmkiteJobs]. *)
Fixpoint appendBuilds (builds : list Build) (jobs : list VmkiteJob)
  : result (list VmkiteJob) :=
  match builds with
  | [] => Ok jobs
  | build :: rest =>
      rbind (appendBuildJobs build (Jobs build) jobs) (appendBuilds rest)
  end.

Definition VmkiteJobs (bk : Session) : list LogLine * result (list VmkiteJob) :=
  ([debugf "Builds.ListByOrg(%s, ...)" [ArgString (Org bk)]],
   rbind (Builds_ListByOrg (client bk) (Org bk)
            {| OptState := ["scheduled"; "running"] |})
         (fun builds => appendBuilds builds [])).

(** The loop of [IsFinished] over the jobs of the re-fetched build. *)
Fixpoint scanJobs (bjobs : list Job) (job : VmkiteJob) : result bool :=
  match bjobs with
  | [] => Ok false
  | buildJob :: rest =>
      rbind (deref (JobID buildJob)) (fun id =>
      if String.eqb id (ID job) then
        rbind (deref (State buildJob)) (fun state =>
        if String.eqb state "scheduled" || String.eqb state "running"
        then Ok false
        else Ok true)
      else scanJobs rest job)
  end.

Definition IsFinished (bk : Session) (job : VmkiteJob) : list LogLine * result bool :=
  ([debugf "Builds.Get(%s, %s, %s)"
      [ArgString (Org bk); ArgString (Pipeline job); ArgString (BuildNumber job)]],
   rbind (Builds_Get (client bk) (Org bk) (Pipeline job) (BuildNumber job))
         (fun build => scanJobs (Jobs build) job)).

End Buildkite.

(** ** Package buildkite, earlier revision

    The first revision of the file kept in the repository: a session
    holds the API token and makes its client on every listing, and a job
    carries only the disk image, decoded by [vmdkFromAgentQueryRules]. *)
Module BuildkiteEarlier.
Import gobuildkite.

Record Session := { ApiToken : string; Org : string }.

Record VmkiteJob := { ID : string; VMDK : string }.

Definition debugf (format : string) (args : list LogArg) : LogLine :=
  {| log_prefix := "[buildkite] "; log_format := format; log_args := args |}.

Fixpoint vmdkFromAgentQueryRules (rules : list string) : string :=
  match rules with
  | [] => ""
  | r :: rest =>
      match SplitN r "="%char 2 with
      | [key; value] =>
          if String.eqb key "vmkite-vmdk" then value
          else vmdkFromAgentQueryRules rest
      | _ => vmdkFromAgentQueryRules rest
      end
  end.

(** The inner loop of [VmkiteJobs]. *)
Fixpoint appendBuildJobs (bjobs : list Job) (jobs : list VmkiteJob) : result (list VmkiteJob) :=
  match bjobs with
  | [] => Ok jobs
  | job :: rest =>
      let vmdk := vmdkFromAgentQueryRules (AgentQueryRules job) in
      if negb (String.eqb vmdk "") then
        rbind (deref (JobID job)) (fun id =>
        appendBuildJobs rest (jobs ++ [{| ID := id; VMDK := vmdk |}]))
      else appendBuildJobs rest jobs
  end.

(** The outer loop of [VmkiteJobs]. *)
Fixpoint appendBuilds (builds : list Build) (jobs : list VmkiteJob) : result (list VmkiteJob) :=
  match builds with
  | [] => Ok jobs
  | build :: rest => rbind (appendBuildJobs (Jobs build) jobs) (appendBuilds rest)
  end.

(** [VmkiteJobs]; the log line is written only once the token has been
    accepted. *)
Definition VmkiteJobs (NewClient : TokenAuthTransport -> Client) (bk : Session)
  : list LogLine * result (list VmkiteJob) :=
  match NewTokenConfig (ApiToken bk) false with
  | Ok config =>
      let client := NewClient config in
      let buildListOptions := {| OptState := ["scheduled"; "running"] |} in
      ([debugf "Builds.ListByOrg(%s, ...)" [ArgString (Org bk)]],
       rbind (Builds_ListByOrg client (Org bk) buildListOptions)
             (fun builds => appendBuilds builds []))
  | Err err => ([], Err err)
  | Panic why => ([], Panic why)
  end.

End BuildkiteEarlier.

(** ** govmomi: vim25/types

    The part of the vendored vSphere data model that package [vsphere]
    builds.  Struct embedding is a record field; an interface value is a
    constructor of the matching inductive type. *)
Module types.

Definition wrap32 (z : Z) : Z := (z + 2 ^ 31) mod 2 ^ 32 - 2 ^ 31.

Record ManagedObjectReference := { Type_ : string; Value : string }.

Inductive VirtualDiskFlatVer2BackingInfo :=
  mkFlatVer2 (FileName : string) (Datastore : option ManagedObjectReference)
             (DiskMode : string) (ThinProvisioned : option bool)
             (Parent : option VirtualDiskFlatVer2BackingInfo).

Definition FileName b := match b with mkFlatVer2 f _ _ _ _ => f end.
Definition Datastore b := match b with mkFlatVer2 _ d _ _ _ => d end.
Definition DiskMode b := match b with mkFlatVer2 _ _ m _ _ => m end.
Definition ThinProvisioned b := match b with mkFlatVer2 _ _ _ t _ => t end.
Definition Parent b := match b with mkFlatVer2 _ _ _ _ p => p end.

Inductive BaseVirtualDeviceBackingInfo :=
| VirtualEthernetCardNetworkBackingInfo (deviceName : string)
| VirtualEthernetCardDistributedVirtualPortBackingInfo (switchUuid portgroupKey : string)
| DiskFlatVer2 (b : VirtualDiskFlatVer2BackingInfo).

Record VirtualDevice := {
  Key : Z;
  Backing : option BaseVirtualDeviceBackingInfo;
  ControllerKey : Z;
  UnitNumber : option Z
}.

Definition zeroVirtualDevice : VirtualDevice :=
  {| Key := 0; Backing := None; ControllerKey := 0; UnitNumber := None |}.

Record VirtualController := {
  controllerDevice : VirtualDevice;
  BusNumber : Z;
  Device : list Z
}.

Definition zeroVirtualController : VirtualController :=
  {| controllerDevice := zeroVirtualDevice; BusNumber := 0; Device := [] |}.

Record VirtualSCSIController := {
  scsiController : VirtualController;
  SharedBus : string;
  ScsiCtlrUnitNumber : Z
}.

Record VirtualEthernetCard := {
  cardDevice : VirtualDevice;
  AddressType : string
}.

Record VirtualDisk := {
  diskDevice : VirtualDevice;
  CapacityInKB : Z
}.

Record VirtualUSBController := {
  usbController : VirtualController;
  AutoConnectDevices : option bool;
  EhciEnabled : option bool
}.

Inductive EthernetCardType := E1000 | E1000e | Vmxnet2 | Vmxnet3 | PCNet32 | SriovEthernetCard.
Inductive SCSIControllerType := LsiLogic | BusLogic | ParaVirtualSCSI | LsiLogicSAS.

Inductive BaseVirtualDevice :=
| EthernetCard (t : EthernetCardType) (c : VirtualEthernetCard)
| SCSIController (t : SCSIControllerType) (c : VirtualSCSIController)
| IDEController (c : VirtualController)
| USBController (c : VirtualUSBController)
| Disk (d : VirtualDisk)
| OtherDevice (typeName : string) (d : VirtualDevice).

Definition GetVirtualDevice (device : BaseVirtualDevice) : VirtualDevice :=
  match device with
  | EthernetCard _ c => cardDevice c
  | SCSIController _ c => controllerDevice (scsiController c)
  | IDEController c => controllerDevice c
  | USBController c => controllerDevice (usbController c)
  | Disk d => diskDevice d
  | OtherDevice _ d => d
  end.

Definition VirtualDeviceConfigSpecOperationAdd : string := "add".
Definition VirtualDeviceConfigSpecFileOperationCreate : string := "create".
Definition VirtualDiskModePersistent : string := "persistent".
Definition VirtualDiskModeIndependent_nonpersistent : string := "independent_nonpersistent".
Definition VirtualEthernetCardMacTypeGenerated : string := "generated".
Definition VirtualSCSISharingNoSharing : string := "noSharing".

Record VirtualDeviceConfigSpec := {
  Operation : string;
  FileOperation : string;
  SpecDevice : BaseVirtualDevice
}.

Record OptionValue := { OptKey : string; OptValue : string }.

Record VirtualMachineFileInfo := { VmPathName : string }.

Record VirtualMachineConfigSpec := {
  DeviceChange : list VirtualDeviceConfigSpec;
  ExtraConfig : list OptionValue;
  Files : option VirtualMachineFileInfo;
  GuestId : string;
  MemoryMB : Z;
  Name : string;
  NestedHVEnabled : option bool;
  NumCPUs : Z;
  NumCoresPerSocket : Z;
  VirtualICH7MPresent : option bool;
  VirtualSMCPresent : option bool
}.

End types.

(** ** govmomi: object (VirtualDeviceList and the inventory handles) *)
Module object.
Import types.

Abbreviation VirtualDeviceList := (list BaseVirtualDevice).

Record Datacenter := { DatacenterRef : ManagedObjectReference }.
Record Folder := { FolderRef : ManagedObjectReference; InventoryPath : string }.
Record DatacenterFolders := { VmFolder : Folder }.
Record Datastore := { DatastoreRef : ManagedObjectReference; Datastore_Name : string }.
Record Network := { NetworkRef : ManagedObjectReference }.
Record ClusterComputeResource := { ClusterRef : ManagedObjectReference }.
Record ResourcePool := { PoolRef : ManagedObjectReference }.
Record Task := { TaskRef : ManagedObjectReference }.
Record VirtualMachine := { VMRef : ManagedObjectReference; VMName : string }.

(** [filepath.Ext]: the suffix from the last dot of the last path
    element, empty when there is none. *)
Fixpoint hasDotOrSeparator (s : string) : bool :=
  match s with
  | EmptyString => false
  | String c rest =>
      Ascii.eqb c "."%char || Ascii.eqb c "/"%char || hasDotOrSeparator rest
  end.

Fixpoint Ext (path : string) : string :=
  match path with
  | EmptyString => EmptyString
  | String c rest =>
      if hasDotOrSeparator rest then Ext rest
      else if Ascii.eqb c "."%char then path
      else EmptyString
  end.

(** [Datastore.Path]: the path in [[datastore] path] form. *)
Definition Datastore_Path (d : Datastore) (path : string) : string :=
  let s := "[" ++ Datastore_Name d ++ "]" in
  if String.eqb path "" then s else s ++ " " ++ path.

(** [VirtualDeviceList.NewKey]. *)
Definition NewKey (l : VirtualDeviceList) : Z :=
  wrap32 (fold_left (fun key device =>
                       let d := GetVirtualDevice device in
                       if Key d <? key then Key d else key) l (-200) - 1).

Definition isSCSIController (device : BaseVirtualDevice) : bool :=
  match device with SCSIController _ _ => true | _ => false end.

(** [SCSIControllerTypes]. *)
Definition SCSIControllerTypes : VirtualDeviceList :=
  map (fun t => SCSIController t
                  {| scsiController :=
                       {| controllerDevice := zeroVirtualDevice; BusNumber := -1; Device := [] |};
                     SharedBus := VirtualSCSISharingNoSharing;
                     ScsiCtlrUnitNumber := 0 |})
      [LsiLogic; BusLogic; ParaVirtualSCSI; LsiLogicSAS].

Definition scsiTypeName (t : SCSIControllerType) : string :=
  match t with
  | LsiLogic => "lsilogic"
  | BusLogic => "buslogic"
  | ParaVirtualSCSI => "pvscsi"
  | LsiLogicSAS => "lsilogic-sas"
  end.

Definition scsiBusNumbers : list Z := [0; 1; 2; 3].

Fixpoint insertSorted (n : Z) (l : list Z) : list Z :=
  match l with
  | [] => [n]
  | m :: rest => if n <=? m then n :: l else m :: insertSorted n rest
  end.

Fixpoint firstFreeBus (candidates used : list Z) : Z :=
  match candidates with
  | [] => -1
  | n :: candidates' =>
      match used with
      | [] => n
      | u :: used' => if n =? u then firstFreeBus candidates' used' else n
      end
  end.

(** [VirtualDeviceList.newSCSIBusNumber]. *)
Definition newSCSIBusNumber (l : VirtualDeviceList) : Z :=
  let used :=
    fold_right (fun device acc =>
                  match device with
                  | SCSIController _ c =>
                      let num := BusNumber (scsiController c) in
                      if 0 <=? num then insertSorted num acc else acc
                  | _ => acc
                  end) [] l in
  firstFreeBus scsiBusNumbers used.

(** [VirtualDeviceList.CreateSCSIController]. *)
Definition CreateSCSIController (l : VirtualDeviceList) (name : string)
  : result BaseVirtualDevice :=
  let name :=
    if String.eqb name "" || String.eqb name "scsi" then
      match SCSIControllerTypes with
      | SCSIController t _ :: _ => scsiTypeName t
      | _ => name
      end
    else if String.eqb name "virtualscsi" then "pvscsi"
    else name in
  let found :=
    List.filter (fun device =>
                   match device with
                   | SCSIController t _ => String.eqb (scsiTypeName t) name
                   | _ => false
                   end) SCSIControllerTypes in
  match found with
  | [] => Err (errors_New ("unknown SCSI controller type '" ++ name ++ "'"))
  | SCSIController t c :: _ =>
      Ok (SCSIController t
            {| scsiController :=
                 {| controllerDevice :=
                      {| Key := NewKey l;
                         Backing := Backing (controllerDevice (scsiController c));
                         ControllerKey := ControllerKey (controllerDevice (scsiController c));
                         UnitNumber := UnitNumber (controllerDevice (scsiController c)) |};
                    BusNumber := newSCSIBusNumber l;
                    Device := Device (scsiController c) |};
               SharedBus := SharedBus c;
               ScsiCtlrUnitNumber := 7 |})
  | _ :: _ => Err (errors_New ("invalid SCSI controller type '" ++ name ++ "'"))
  end.

(** [EthernetCardTypes]: every card type, with key -1. *)
Definition EthernetCardTypes : VirtualDeviceList :=
  map (fun t => EthernetCard t
                  {| cardDevice :=
                       {| Key := -1; Backing := None; ControllerKey := 0; UnitNumber := None |};
                     AddressType := "" |})
      [E1000; E1000e; Vmxnet2; Vmxnet3; PCNet32; SriovEthernetCard].

Definition ethernetTypeName (t : EthernetCardType) : string :=
  match t with
  | E1000 => "e1000"
  | E1000e => "e1000e"
  | Vmxnet2 => "vmxnet2"
  | Vmxnet3 => "vmxnet3"
  | PCNet32 => "pcnet32"
  | SriovEthernetCard => "sriov"
  end.

(** [VirtualDeviceList.CreateEthernetCard]. *)
Definition CreateEthernetCard (name : string) (backing : BaseVirtualDeviceBackingInfo)
  : result BaseVirtualDevice :=
  let name :=
    if String.eqb name "" then
      match EthernetCardTypes with
      | EthernetCard t _ :: _ => ethernetTypeName t
      | _ => name
      end
    else name in
  let found :=
    List.filter (fun device =>
                   match device with
                   | EthernetCard t _ => String.eqb (ethernetTypeName t) name
                   | _ => false
                   end) EthernetCardTypes in
  match found with
  | [] => Err (errors_New ("unknown ethernet card type '" ++ name ++ "'"))
  | EthernetCard t c :: _ =>
      Ok (EthernetCard t
            {| cardDevice :=
                 {| Key := Key (cardDevice c);
                    Backing := Some backing;
                    ControllerKey := ControllerKey (cardDevice c);
                    UnitNumber := UnitNumber (cardDevice c) |};
               AddressType := AddressType c |})
  | _ :: _ => Err (errors_New ("invalid ethernet card type '" ++ name ++ "'"))
  end.

(** [VirtualDeviceList.PickController] asked for a SCSI controller: the
    first SCSI controller of the list with fewer than 15 devices. *)
Fixpoint PickSCSIController (l : VirtualDeviceList) : option VirtualSCSIController :=
  match l with
  | [] => None
  | SCSIController _ c :: rest =>
      if (length (Device (scsiController c)) <? 15)%nat then Some c
      else PickSCSIController rest
  | _ :: rest => PickSCSIController rest
  end.

(** [VirtualDeviceList.FindDiskController("scsi")], which forwards to
    [FindSCSIController("")]. *)
Definition FindDiskController_scsi (l : VirtualDeviceList) : result VirtualSCSIController :=
  match PickSCSIController l with
  | None => Err (errors_New "no available SCSI controller")
  | Some c => Ok c
  end.

(** [units[i] = true] on the 30-slot table of [newUnitNumber]. *)
Definition markUnit (units : list bool) (i : Z) : result (list bool) :=
  if (0 <=? i) && (i <? Z.of_nat (length units))
  then Ok (<[Z.to_nat i := true]> units)
  else Panic "index out of range".

Fixpoint markUnits (key : Z) (l : VirtualDeviceList) (units : list bool)
  : result (list bool) :=
  match l with
  | [] => Ok units
  | device :: rest =>
      let d := GetVirtualDevice device in
      match UnitNumber d with
      | Some u =>
          if ControllerKey d =? key
          then rbind (markUnit units u) (markUnits key rest)
          else markUnits key rest units
      | None => markUnits key rest units
      end
  end.

Fixpoint firstUnused (units : list bool) (unit : Z) : Z :=
  match units with
  | [] => -1
  | used :: rest => if used then firstUnused rest (unit + 1) else unit
  end.

(** [VirtualDeviceList.newUnitNumber] for a SCSI controller, which sits
    on its own bus at [ScsiCtlrUnitNumber]. *)
Definition newUnitNumber (l : VirtualDeviceList) (c : VirtualSCSIController) : result Z :=
  rbind (markUnit (repeat false 30) (ScsiCtlrUnitNumber c)) (fun units =>
  rbind (markUnits (Key (controllerDevice (scsiController c))) l units) (fun units =>
  Ok (firstUnused units 0))).

(** [VirtualDeviceList.AssignController]. *)
Definition AssignController (l : VirtualDeviceList) (d : VirtualDevice)
    (c : VirtualSCSIController) : result VirtualDevice :=
  rbind (newUnitNumber l c) (fun unit =>
  Ok {| Key := if Key d =? 0 then -1 else Key d;
        Backing := Backing d;
        ControllerKey := Key (controllerDevice (scsiController c));
        UnitNumber := Some unit |}).

(** [VirtualDeviceList.CreateDisk]. *)
Definition CreateDisk (l : VirtualDeviceList) (c : VirtualSCSIController)
    (ds : ManagedObjectReference) (name : string) : result VirtualDisk :=
  let name :=
    if (0 <? String.length name)%nat && negb (String.eqb (Ext name) ".vmdk")
    then name ++ ".vmdk" else name in
  let device :=
    {| Key := 0;
       Backing := Some (DiskFlatVer2
                          (mkFlatVer2 name (Some ds) VirtualDiskModePersistent
                                      (Some true) None));
       ControllerKey := 0;
       UnitNumber := None |} in
  rbind (AssignController l device c) (fun device =>
  Ok {| diskDevice := device; CapacityInKB := 0 |}).

(** [VirtualDeviceList.ConfigSpec] for the operation [add]: one spec per
    device; a disk of capacity 0 that is not a child disk is an existing
    disk and gets no file operation. *)
Definition ConfigSpec_add (l : VirtualDeviceList) : result (list VirtualDeviceConfigSpec) :=
  Ok (map (fun device =>
             {| Operation := VirtualDeviceConfigSpecOperationAdd;
                FileOperation :=
                  match device with
                  | Disk disk =>
                      if CapacityInKB disk =? 0 then
                        match Backing (diskDevice disk) with
                        | Some (DiskFlatVer2 b) =>
                            match Parent b with
                            | Some _ => VirtualDeviceConfigSpecFileOperationCreate
                            | None => ""
                            end
                        | _ => ""
                        end
                      else VirtualDeviceConfigSpecFileOperationCreate
                  | _ => ""
                  end;
                SpecDevice := device |}) l).

End object.

(** ** Package vsphere *)
Module Vsphere.
Import types object.

(** [keepAliveDuration], in seconds. *)
Definition keepAliveDuration : Z := 30.

Record ConnectionParams := {
  Host : string;
  User : string;
  Pass : string;
  Insecure : bool
}.

(** [govmomi.Client]: the SOAP endpoint it talks to, the pinned API
    version, and the keepalive round tripper: after [KeepAliveIdle]
    seconds without traffic it runs the handler that [connect] gave it,
    which is [keepAliveHandler] below closed over the connection
    parameters [KeepAliveFor]. *)
Record Client := {
  ClientURL : string;
  ClientInsecure : bool;
  ClientVersion : string;
  KeepAliveIdle : Z;
  KeepAliveFor : ConnectionParams
}.

(** [find.Finder]. *)
Record Finder := {
  FinderClient : Client;
  FinderAll : bool;
  FinderDatacenter : option Datacenter
}.

Definition NewFinder (c : Client) (all : bool) : Finder :=
  {| FinderClient := c; FinderAll := all; FinderDatacenter := None |}.

Definition SetDatacenter (f : Finder) (dc : Datacenter) : Finder :=
  {| FinderClient := FinderClient f; FinderAll := FinderAll f; FinderDatacenter := Some dc |}.

(** [Session]; the context is not modelled. *)
Record Session := {
  client : option Client;
  datacenter : option Datacenter;
  finder : option Finder
}.

Record VirtualMachineCreationParams := {
  BuildkiteAgentToken : string;
  ClusterPath : string;
  VirtualMachinePath : string;
  DatastoreName : string;
  GuestID : string;
  MemoryMB : Z;
  Name : string;
  NetworkLabel : string;
  NumCPUs : Z;
  NumCoresPerSocket : Z;
  SrcDiskDataStore : string;
  SrcDiskPath : string;
  GuestInfo : option (gmap string string)
}.

(** The [VirtualMachine] handle of the package (declared in a sibling
    file): the managed object and its name. *)
Record VirtualMachine := { mo : object.VirtualMachine; VMName : string }.

(** Everything the package does that leaves the process. *)
Inductive Call :=
| Call_NewClient (url : string) (insecure : bool)
| Call_Login (user pass : string)
| Call_GetCurrentTime
| Call_DefaultDatacenter (f : Finder)
| Call_Network (f : Finder) (path : string)
| Call_EthernetCardBackingInfo (n : Network)
| Call_Datastore (f : Finder) (name : string)
| Call_Folders (dc : Datacenter)
| Call_ClusterComputeResource (f : Finder) (path : string)
| Call_ResourcePool (c : ClusterComputeResource)
| Call_CreateVM (folder : Folder) (spec : VirtualMachineConfigSpec) (pool : ResourcePool)
| Call_TaskWait (t : Task)
| Call_VirtualMachine (f : Finder) (path : string).

Inductive Event :=
| Logged (line : LogLine)
| Called (c : Call).

(** The world outside the package.  Every remote call is answered from
    the history of what happened so far, so the control plane may answer
    the same question differently at different times.  [rangeOrder] is
    the order in which the Go runtime ranges over a map: some
    enumeration of its entries. *)
Record World := {
  url_Parse : string -> option error;
  vim25_NewClient : list Event -> string -> bool -> remote_error + unit;
  Login : list Event -> string -> string -> remote_error + unit;
  GetCurrentTime : list Event -> remote_error + unit;
  DefaultDatacenter : list Event -> Finder -> remote_error + Datacenter;
  FindNetwork : list Event -> Finder -> string -> remote_error + Network;
  EthernetCardBackingInfo :
    list Event -> Network -> remote_error + BaseVirtualDeviceBackingInfo;
  FindDatastore : list Event -> Finder -> string -> remote_error + Datastore;
  Folders : list Event -> Datacenter -> remote_error + DatacenterFolders;
  FindClusterComputeResource :
    list Event -> Finder -> string -> remote_error + ClusterComputeResource;
  ClusterResourcePool : list Event -> ClusterComputeResource -> remote_error + ResourcePool;
  Folder_CreateVM :
    list Event -> Folder -> VirtualMachineConfigSpec -> ResourcePool -> remote_error + Task;
  Task_Wait : list Event -> Task -> remote_error + unit;
  FindVirtualMachine : list Event -> Finder -> string -> remote_error + object.VirtualMachine;
  rangeOrder : list Event -> gmap string string -> list (string * string);
  rangeOrder_perm : forall h m, rangeOrder h m ≡ₚ map_to_list m
}.

(** The state threaded through the methods of a session. *)
Record State := { sess : Session; trace : list Event }.

Definition M (A : Type) : Type := State -> result A * State.

Definition ret {A} (a : A) : M A := fun st => (Ok a, st).

Definition fail {A} (e : error) : M A := fun st => (Err e, st).

Definition bind {A B} (m : M A) (k : A -> M B) : M B :=
  fun st =>
    match m st with
    | (Ok a, st') => k a st'
    | (Err e, st') => (Err e, st')
    | (Panic w, st') => (Panic w, st')
    end.

Notation "x <- c1 ;; c2" := (bind c1 (fun x => c2))
  (at level 20, c1 at level 99, c2 at level 200, right associativity).
Notation "c1 ;;; c2" := (bind c1 (fun _ => c2))
  (at level 100, c2 at level 200, right associativity).

(** [v, err := m] followed by a test of [err] instead of a return. *)
Definition try {A} (m : M A) : M (error + A) :=
  fun st =>
    match m st with
    | (Ok a, st') => (Ok (inr a), st')
    | (Err e, st') => (Ok (inl e), st')
    | (Panic w, st') => (Panic w, st')
    end.

Definition liftR {A} (r : result A) : M A := fun st => (r, st).

Definition getSession : M Session := fun st => (Ok (sess st), st).

Definition putSession (vs : Session) : M unit :=
  fun st => (Ok tt, {| sess := vs; trace := trace st |}).

Definition emit (e : Event) : M unit :=
  fun st => (Ok tt, {| sess := sess st; trace := trace st ++ [e] |}).

Definition debugf (format : string) (args : list LogArg) : M unit :=
  emit (Logged {| log_prefix := "[vsphere] "; log_format := format; log_args := args |}).

(** A remote call: it is answered from the history before it, and it is
    recorded. *)
Definition call {A} (c : Call) (answer : list Event -> remote_error + A) : M A :=
  fun st =>
    let st' := {| sess := sess st; trace := trace st ++ [Called c] |} in
    match answer (trace st) with
    | inr a => (Ok a, st')
    | inl e => (Err (Remote e), st')
    end.

Definition IsSoapFault (err : error) : bool :=
  match err with Remote (SoapFault _) => true | _ => false end.

Definition isNotAuthenticated (err : error) : bool :=
  if IsSoapFault err then
    match err with
    | Remote (SoapFault NotAuthenticated) => true
    | _ => false
    end
  else false.

Section WithWorld.
Variable w : World.

(** The closure [login] of [connect]: [s.client.Login(ctx, u.User)],
    where [u.User] holds the user and password of the connection
    parameters. *)
Definition login (cp : ConnectionParams) : M unit :=
  vs <- getSession ;;
  liftR (deref (client vs)) ;;;
  call (Call_Login (User cp) (Pass cp)) (fun h => Login w h (User cp) (Pass cp)).

(** The function that [connect] hands to [session.KeepAliveHandler]. *)
Definition keepAliveHandler (cp : ConnectionParams) : M unit :=
  r <- try (call Call_GetCurrentTime (GetCurrentTime w)) ;;
  match r with
  | inr _ => ret tt
  | inl err =>
      debugf "session keepalive error: %s" [ArgError err] ;;;
      (if isNotAuthenticated err then
         r' <- try (login cp) ;;
         match r' with
         | inl err' =>
             debugf "session keepalive failed to re-authenticate: %s" [ArgError err']
         | inr _ => debugf "session keepalive re-authenticated" []
         end
       else ret tt) ;;;
      ret tt
  end.

Definition connect (cp : ConnectionParams) : M unit :=
  let u := "https://" ++ Host cp ++ "/sdk" in
  match url_Parse w u with
  | Some err => fail err
  | None =>
      call (Call_NewClient u (Insecure cp))
           (fun h => vim25_NewClient w h u (Insecure cp)) ;;;
      vs <- getSession ;;
      putSession {| client := Some {| ClientURL := u;
                                      ClientInsecure := Insecure cp;
                                      ClientVersion := "6.0";
                                      KeepAliveIdle := keepAliveDuration;
                                      KeepAliveFor := cp |};
                    datacenter := datacenter vs;
                    finder := finder vs |} ;;;
      login cp
  end.

(** [NewSession]: [connect] run on a fresh session; the session is the
    one in the final state, the error is the result. *)
Definition NewSession (history : list Event) (cp : ConnectionParams) : result unit * State :=
  connect cp {| sess := {| client := None; datacenter := None; finder := None |};
                trace := history |}.

Definition getFinder : M Finder :=
  vs <- getSession ;;
  match finder vs with
  | None =>
      debugf "find.NewFinder()" [] ;;;
      c <- liftR (deref (client vs)) ;;
      let finder0 := NewFinder c true in
      debugf "finder.DefaultDatacenter()" [] ;;;
      dc <- call (Call_DefaultDatacenter finder0) (fun h => DefaultDatacenter w h finder0) ;;
      debugf "finder.SetDatacenter(%v)" [ArgObject] ;;;
      let finder1 := SetDatacenter finder0 dc in
      putSession {| client := client vs; datacenter := Some dc; finder := Some finder1 |} ;;;
      ret finder1
  | Some f => ret f
  end.

Definition vmFolder : M Folder :=
  vs <- getSession ;;
  match datacenter vs with
  | None => fail (errors_New "datacenter not loaded")
  | Some dc =>
      dcFolders <- call (Call_Folders dc) (fun h => Folders w h dc) ;;
      ret (VmFolder dcFolders)
  end.

Definition VirtualMachine_ (path : string) : M VirtualMachine :=
  finder <- getFinder ;;
  debugf "finder.VirtualMachine(%v)" [ArgString path] ;;;
  vm <- call (Call_VirtualMachine finder path) (fun h => FindVirtualMachine w h finder path) ;;
  ret {| mo := vm; VMName := object.VMName vm |}.

Definition addEthernet (devices : VirtualDeviceList) (label : string) : M VirtualDeviceList :=
  finder <- getFinder ;;
  let path := "*" ++ label in
  debugf "finder.Network(%s)" [ArgString path] ;;;
  network <- call (Call_Network finder path) (fun h => FindNetwork w h finder path) ;;
  backing <- call (Call_EthernetCardBackingInfo network)
                  (fun h => EthernetCardBackingInfo w h network) ;;
  device <- liftR (CreateEthernetCard "vmxnet3" backing) ;;
  match device with
  | EthernetCard t card =>
      let card := {| cardDevice := cardDevice card;
                     AddressType := VirtualEthernetCardMacTypeGenerated |} in
      ret (devices ++ [EthernetCard t card])%list
  | _ => liftR (Panic "interface conversion: not a BaseVirtualEthernetCard")
  end.

Definition addSCSI (devices : VirtualDeviceList) : M VirtualDeviceList :=
  scsi <- liftR (CreateSCSIController SCSIControllerTypes "scsi") ;;
  ret (devices ++ [scsi])%list.

Definition addDisk (devices : VirtualDeviceList) (params : VirtualMachineCreationParams)
  : M VirtualDeviceList :=
  finder <- getFinder ;;
  debugf "finder.Datastore(%s)" [ArgString (SrcDiskDataStore params)] ;;;
  diskDatastore <- call (Call_Datastore finder (SrcDiskDataStore params))
                        (fun h => FindDatastore w h finder (SrcDiskDataStore params)) ;;
  controller <- liftR (FindDiskController_scsi devices) ;;
  disk <- liftR (CreateDisk devices controller (DatastoreRef diskDatastore)
                            (Datastore_Path diskDatastore (SrcDiskPath params))) ;;
  match Backing (diskDevice disk) with
  | Some (DiskFlatVer2 backing) =>
      let backing := mkFlatVer2 (FileName backing) (types.Datastore backing)
                                (DiskMode backing) (Some true) (Parent backing) in
      let backing := mkFlatVer2 (FileName backing) (types.Datastore backing)
                                VirtualDiskModeIndependent_nonpersistent
                                (ThinProvisioned backing) (Parent backing) in
      let disk := {| diskDevice := {| Key := Key (diskDevice disk);
                                      Backing := Some (DiskFlatVer2 backing);
                                      ControllerKey := ControllerKey (diskDevice disk);
                                      UnitNumber := UnitNumber (diskDevice disk) |};
                     CapacityInKB := CapacityInKB disk |} in
      ret (devices ++ [Disk disk])%list
  | _ => liftR (Panic "interface conversion: not a *VirtualDiskFlatVer2BackingInfo")
  end.

Definition addUSB (devices : VirtualDeviceList) : M VirtualDeviceList :=
  let t := true in
  let usb := USBController {| usbController := zeroVirtualController;
                              AutoConnectDevices := Some t;
                              EhciEnabled := Some t |} in
  ret (devices ++ [usb])%list.

(** The loop [for key, val := range params.GuestInfo] of
    [createConfigSpec], over the entries in the order the runtime
    yields them. *)
Fixpoint appendGuestInfo (entries : list (string * string)) (extraConfig : list OptionValue)
  : M (list OptionValue) :=
  match entries with
  | [] => ret extraConfig
  | (key, val) :: rest =>
      debugf "setting guestinfo.%s=%q" [ArgString key; ArgString val] ;;;
      appendGuestInfo rest
        (extraConfig ++ [{| OptKey := ("guestinfo." ++ key)%string; OptValue := val |}])%list
  end.

Definition createConfigSpec (params : VirtualMachineCreationParams)
  : M VirtualMachineConfigSpec :=
  devices <- addEthernet [] (NetworkLabel params) ;;
  devices <- addSCSI devices ;;
  devices <- addDisk devices params ;;
  devices <- addUSB devices ;;
  deviceChange <- liftR (ConfigSpec_add devices) ;;
  let extraConfig :=
    [ {| OptKey := "guestinfo.vmkite-buildkite-agent-token";
         OptValue := BuildkiteAgentToken params |};
      {| OptKey := "guestinfo.vmkite-name"; OptValue := Name params |};
      {| OptKey := "guestinfo.vmkite-vmdk"; OptValue := SrcDiskPath params |} ] in
  extraConfig <-
    match GuestInfo params with
    | Some guestInfo =>
        (fun st => appendGuestInfo (rangeOrder w (trace st) guestInfo) extraConfig st)
    | None => ret extraConfig
    end ;;
  let extraConfig :=
    (extraConfig ++ [{| OptKey := "ethernet0.pciSlotNumber"; OptValue := "32" |}])%list in
  finder <- getFinder ;;
  debugf "finder.Datastore(%s)" [ArgString (DatastoreName params)] ;;;
  ds <- call (Call_Datastore finder (DatastoreName params))
             (fun h => FindDatastore w h finder (DatastoreName params)) ;;
  let fileInfo := {| VmPathName := "[" ++ Datastore_Name ds ++ "]" |} in
  let t := true in
  ret {| DeviceChange := deviceChange;
         ExtraConfig := extraConfig;
         Files := Some fileInfo;
         GuestId := GuestID params;
         types.MemoryMB := MemoryMB params;
         types.Name := Name params;
         NestedHVEnabled := Some t;
         types.NumCPUs := NumCPUs params;
         types.NumCoresPerSocket := NumCoresPerSocket params;
         VirtualICH7MPresent := Some t;
         VirtualSMCPresent := Some t |}.

Definition CreateVM (params : VirtualMachineCreationParams) : M VirtualMachine :=
  finder <- getFinder ;;
  folder <- vmFolder ;;
  debugf "finder.ClusterComputeResource(%s)" [ArgString (ClusterPath params)] ;;;
  cluster <- call (Call_ClusterComputeResource finder (ClusterPath params))
                  (fun h => FindClusterComputeResource w h finder (ClusterPath params)) ;;
  debugf "cluster.ResourcePool()" [] ;;;
  resourcePool <- call (Call_ResourcePool cluster) (fun h => ClusterResourcePool w h cluster) ;;
  configSpec <- createConfigSpec params ;;
  debugf "folder.CreateVM %s on %s" [ArgString (Name params); ArgObject] ;;;
  task <- call (Call_CreateVM folder configSpec resourcePool)
               (fun h => Folder_CreateVM w h folder configSpec resourcePool) ;;
  debugf "waiting for CreateVM %v" [ArgObject] ;;;
  call (Call_TaskWait task) (fun h => Task_Wait w h task) ;;;
  vm <- VirtualMachine_ (InventoryPath folder ++ "/" ++ Name params) ;;
  ret vm.

End WithWorld.

End Vsphere.

(** ** Statement vocabulary *)

(** [hasByte c s]: the byte [c] occurs in [s]. *)
Fixpoint hasByte (c : ascii) (s : string) : bool :=
  match s with
  | EmptyString => false
  | String c' rest => Ascii.eqb c' c || hasByte c rest
  end.

Module BuildkiteSpec.
Import gobuildkite Buildkite.

(** The value a single rule gives to [key], if the rule is [key=value]. *)
Definition ruleValue (key : string) (r : string) : option string :=
  match SplitN r "="%char 2 with
  | [k; v] => if String.eqb k key then Some v else None
  | _ => None
  end.

(** The values given to [key] by a sequence of rules, in order. *)
Definition ruleValues (key : string) (rules : list string) : list string :=
  omap (ruleValue key) rules.

(** First-occurrence and last-occurrence decoding of [key]; the empty
    string when no rule gives it a value. *)
Definition firstValue (key : string) (rules : list string) : string :=
  default "" (head (ruleValues key rules)).

Definition lastValue (key : string) (rules : list string) : string :=
  default "" (last (ruleValues key rules)).

(** Both intent fields are populated. *)
Definition complete (m : VmkiteMetadata) : bool :=
  negb (String.eqb (GuestID m) "") && negb (String.eqb (VMDK m) "").

(** The metadata decoded from a listed job. *)
Definition decode (job : Job) : VmkiteMetadata :=
  parseAgentQueryRules (AgentQueryRules job).

(** The builds and jobs of a well-formed answer carry every field that
    [VmkiteJobs] dereferences. *)
Definition populated (build : Build) : Prop :=
  (exists n, Number build = Some n) /\
  (exists p slug, BuildPipeline build = Some p /\ Slug p = Some slug) /\
  Forall (fun job => exists id, JobID job = Some id) (Jobs build).

(** The build job carries an identifier other than that of [job]. *)
Definition otherJob (job : VmkiteJob) (bj : Job) : Prop :=
  exists id, JobID bj = Some id /\ id <> ID job.

(** Sample data. *)
Definition sampleJob (id : string) (state : string) (rules : list string) : Job :=
  {| JobID := Some id; State := Some state; AgentQueryRules := rules |}.

Definition sampleBuild : Build :=
  {| Number := Some 17;
     BuildPipeline := Some {| Slug := Some "macos" |};
     Jobs := [ sampleJob "j1" "scheduled"
                 ["vmkite-vmdk=/images/macos.vmdk"; "vmkite-guestid=darwin19_64Guest";
                  "other=ignored"];
               sampleJob "j2" "passed" ["vmkite-vmdk=/images/macos.vmdk"] ] |}.

Definition sampleSession : Session :=
  {| Org := "acme";
     client := {| Builds_ListByOrg := fun _ _ => Ok [sampleBuild];
                  Builds_Get := fun _ _ _ => Ok sampleBuild |} |}.

Definition sampleVmkiteJob (id : string) : VmkiteJob :=
  {| ID := id; BuildNumber := "17"; Pipeline := "macos";
     Metadata := {| VMDK := "/images/macos.vmdk"; GuestID := "darwin19_64Guest" |} |}.

End BuildkiteSpec.

Module VsphereSpec.
Import types object Vsphere.

(** The session caches the finder and the datacenter together: a session
    with a finder has a datacenter. *)
Definition cachedTogether (vs : Session) : Prop :=
  finder vs <> None -> datacenter vs <> None.

(** The session can produce a finder: one is cached, or there is a
    client to make one with. *)
Definition ready (st : State) : Prop :=
  finder (sess st) <> None \/ client (sess st) <> None.

(** The states a caller of the package can bring a session to. *)
Inductive reachable (w : World) : State -> Prop :=
| reach_NewSession history cp :
    reachable w (snd (NewSession w history cp))
| reach_keepAlive st cp :
    reachable w st -> reachable w (snd (keepAliveHandler w cp st))
| reach_VirtualMachine st path :
    reachable w st -> reachable w (snd (VirtualMachine_ w path st))
| reach_CreateVM st params :
    reachable w st -> reachable w (snd (CreateVM w params st))
| reach_later st events :
    reachable w st -> reachable w {| sess := sess st; trace := trace st ++ events |}.

(** Every topology lookup of [createConfigSpec] succeeds, whenever it is
    made. *)
Definition lookupsSucceed (w : World) : Prop :=
  (forall h f, exists dc, DefaultDatacenter w h f = inr dc) /\
  (forall h f path, exists n, FindNetwork w h f path = inr n) /\
  (forall h n, exists b, EthernetCardBackingInfo w h n = inr b) /\
  (forall h f name, exists ds, FindDatastore w h f name = inr ds).

(** The controller that [addSCSI] appends. *)
Definition newSCSIController : VirtualSCSIController :=
  {| scsiController :=
       {| controllerDevice := {| Key := -201; Backing := None;
                                 ControllerKey := 0; UnitNumber := None |};
          BusNumber := 0;
          Device := [] |};
     SharedBus := "noSharing";
     ScsiCtlrUnitNumber := 7 |}.

(** The card that [addEthernet] appends, and the controller that
    [addUSB] appends. *)
Definition newEthernetCard (backing : BaseVirtualDeviceBackingInfo) : VirtualEthernetCard :=
  {| cardDevice := {| Key := -1; Backing := Some backing;
                      ControllerKey := 0; UnitNumber := None |};
     AddressType := "generated" |}.

Definition newUSBController : VirtualUSBController :=
  {| usbController := zeroVirtualController;
     AutoConnectDevices := Some true;
     EhciEnabled := Some true |}.

(** The disk is attached to controller [c], thin-provisioned and in
    independent_nonpersistent mode. *)
Definition attachedDisk (c : VirtualSCSIController) (disk : VirtualDisk) : Prop :=
  ControllerKey (diskDevice disk) = Key (controllerDevice (scsiController c)) /\
  exists backing,
    Backing (diskDevice disk) = Some (DiskFlatVer2 backing) /\
    ThinProvisioned backing = Some true /\
    DiskMode backing = "independent_nonpersistent".

(** The device list of a new machine: network adapter, SCSI controller,
    disk, USB controller. *)
Definition builtDevices (backing : BaseVirtualDeviceBackingInfo) (disk : VirtualDisk)
  : VirtualDeviceList :=
  [ EthernetCard Vmxnet3 (newEthernetCard backing);
    SCSIController LsiLogic newSCSIController;
    Disk disk;
    USBController newUSBController ].

(** The error of the first branch of [vmFolder]. *)
Definition datacenterNotLoaded : error := errors_New "datacenter not loaded".

(** No SCSI controller occurs in the device list. *)
Definition noSCSIController (devices : VirtualDeviceList) : Prop :=
  Forall (fun device => isSCSIController device = false) devices.

Definition logLine (format : string) (args : list LogArg) : Event :=
  Logged {| log_prefix := "[vsphere] "; log_format := format; log_args := args |}.

(** The three fixed guest properties, and the property made from one
    entry of [GuestInfo]. *)
Definition fixedExtraConfig (params : VirtualMachineCreationParams) : list OptionValue :=
  [ {| OptKey := "guestinfo.vmkite-buildkite-agent-token";
       OptValue := BuildkiteAgentToken params |};
    {| OptKey := "guestinfo.vmkite-name"; OptValue := Name params |};
    {| OptKey := "guestinfo.vmkite-vmdk"; OptValue := SrcDiskPath params |} ].

Definition guestInfoOption (entry : string * string) : OptionValue :=
  {| OptKey := "guestinfo." ++ fst entry; OptValue := snd entry |}.

Definition pciSlotOption : OptionValue :=
  {| OptKey := "ethernet0.pciSlotNumber"; OptValue := "32" |}.

Definition guestInfoEntries (params : VirtualMachineCreationParams) : list (string * string) :=
  match GuestInfo params with
  | Some m => map_to_list m
  | None => []
  end.

(** The number of entries of [GuestInfo]; a nil map has none. *)
Definition guestInfoSize (params : VirtualMachineCreationParams) : nat :=
  match GuestInfo params with
  | Some m => size m
  | None => 0
  end.

(** The number of properties with key [key]. *)
Definition countKey (key : string) (extraConfig : list OptionValue) : nat :=
  length (List.filter (fun o => String.eqb (OptKey o) key) extraConfig).

(** What [createConfigSpec] builds for [params]. *)
Definition builtFor (params : VirtualMachineCreationParams) (cs : VirtualMachineConfigSpec)
  : Prop :=
  exists backing disk entries,
    map SpecDevice (DeviceChange cs) = builtDevices backing disk /\
    Forall (fun spec => Operation spec = "add") (DeviceChange cs) /\
    attachedDisk newSCSIController disk /\
    entries ≡ₚ guestInfoEntries params /\
    ExtraConfig cs
      = (fixedExtraConfig params ++ map guestInfoOption entries ++ [pciSlotOption])%list.

(** Sample data: a control plane that answers every lookup, with a
    given answer to the keepalive probe and to login. *)
Definition ref (t v : string) : ManagedObjectReference := {| Type_ := t; Value := v |}.

Definition sampleWorld (probe login : remote_error + unit)
    (dc : remote_error + Datacenter) : World :=
  {| url_Parse := fun _ => None;
     vim25_NewClient := fun _ _ _ => inr tt;
     Login := fun _ _ _ => login;
     GetCurrentTime := fun _ => probe;
     DefaultDatacenter := fun _ _ => dc;
     FindNetwork := fun _ _ _ => inr {| NetworkRef := ref "Network" "network-7" |};
     EthernetCardBackingInfo :=
       fun _ _ => inr (VirtualEthernetCardNetworkBackingInfo "VM Network");
     FindDatastore :=
       fun _ _ name => inr {| DatastoreRef := ref "Datastore" "datastore-3";
                              Datastore_Name := name |};
     Folders :=
       fun _ _ => inr {| VmFolder := {| FolderRef := ref "Folder" "group-v3";
                                        InventoryPath := "/dc/vm" |} |};
     FindClusterComputeResource := fun _ _ _ => inr {| ClusterRef := ref "Cluster" "domain-c9" |};
     ClusterResourcePool := fun _ _ => inr {| PoolRef := ref "ResourcePool" "resgroup-8" |};
     Folder_CreateVM := fun _ _ _ _ => inr {| TaskRef := ref "Task" "task-1" |};
     Task_Wait := fun _ _ => inr tt;
     FindVirtualMachine :=
       fun _ _ path => inr {| VMRef := ref "VirtualMachine" "vm-42"; object.VMName := path |};
     rangeOrder := fun _ m => map_to_list m;
     rangeOrder_perm := fun _ m => reflexivity (map_to_list m) |}.

Definition sampleDatacenter : Datacenter := {| DatacenterRef := ref "Datacenter" "datacenter-2" |}.

Definition calmWorld : World := sampleWorld (inr tt) (inr tt) (inr sampleDatacenter).

Definition expiredWorld : World :=
  sampleWorld (inl (SoapFault NotAuthenticated)) (inr tt) (inr sampleDatacenter).

Definition lockedOutWorld : World :=
  sampleWorld (inl (SoapFault NotAuthenticated)) (inl (SoapFault (OtherFault "InvalidLogin")))
              (inr sampleDatacenter).

Definition flakyWorld : World :=
  sampleWorld (inl (TransportError "connection reset")) (inr tt) (inr sampleDatacenter).


Definition sampleConnection : ConnectionParams :=
  {| Host := "vcenter.example"; User := "builder"; Pass := "secret"; Insecure := true |}.

Definition sampleParams : VirtualMachineCreationParams :=
  {| BuildkiteAgentToken := "token";
     ClusterPath := "/dc/host/cluster";
     VirtualMachinePath := "";
     DatastoreName := "vms";
     GuestID := "darwin19_64Guest";
     MemoryMB := 4096;
     Name := "vmkite-1";
     NetworkLabel := "builds";
     NumCPUs := 4;
     NumCoresPerSocket := 1;
     SrcDiskDataStore := "images";
     SrcDiskPath := "/vol/base.vmdk";
     GuestInfo := Some {[ "color" := "blue" ]} |}.

(** The session right after [NewSession] against the sample worlds, and
    after a first call of [getFinder]. *)
Definition connected (w : World) : State := snd (NewSession w [] sampleConnection).

Definition cached (w : World) : State := snd (getFinder w (connected w)).

Definition sampleClient : Client :=
  {| ClientURL := "https://vcenter.example/sdk";
     ClientInsecure := true;
     ClientVersion := "6.0";
     KeepAliveIdle := 30;
     KeepAliveFor := sampleConnection |}.

Definition sampleFinder : Finder :=
  {| FinderClient := sampleClient; FinderAll := true;
     FinderDatacenter := Some sampleDatacenter |}.

End VsphereSpec.

(** ** Statement vocabulary for the job source beyond the listed claims *)
Module BuildkiteMoreSpec.
Import gobuildkite Buildkite BuildkiteSpec.

(** The rule gives no value to either recognized key. *)
Definition foreign (r : string) : Prop :=
  ruleValue "vmkite-vmdk" r = None /\ ruleValue "vmkite-guestid" r = None.

(** At most one rule gives [key] a value. *)
Definition atMostOnce (key : string) (rules : list string) : Prop :=
  (length (ruleValues key rules) <= 1)%nat.

(** The job that [VmkiteJobs] makes of a build job, when every pointer it
    dereferences is set. *)
Definition vmkiteJobOf (build : Build) (job : Job) : option VmkiteJob :=
  match JobID job, Number build, BuildPipeline build with
  | Some id, Some number, Some pipeline =>
      match Slug pipeline with
      | Some slug =>
          Some {| ID := id; BuildNumber := Itoa number; Pipeline := slug;
                  Metadata := decode job |}
      | None => None
      end
  | _, _, _ => None
  end.

(** The jobs of a build that carry complete metadata, as [VmkiteJob]s. *)
Definition listedOf (build : Build) : list VmkiteJob :=
  omap (fun job => if complete (decode job) then vmkiteJobOf build job else None)
       (Jobs build).

(** Every job of the build with complete metadata has its pointers set. *)
Definition listable (build : Build) : Prop :=
  Forall (fun job => complete (decode job) = true -> is_Some (vmkiteJobOf build job))
         (Jobs build).

(** The state of a job that is still to run or running. *)
Definition active (state : string) : bool :=
  String.eqb state "scheduled" || String.eqb state "running".

(** Every job of the build carries an identifier. *)
Definition identified (build : Build) : Prop :=
  Forall (fun job => is_Some (JobID job)) (Jobs build).

(** The identifier and disk image of a listed job, in either revision. *)
Definition laterPair (j : VmkiteJob) : string * string := (ID j, VMDK (Metadata j)).

Definition earlierPair (j : BuildkiteEarlier.VmkiteJob) : string * string :=
  (BuildkiteEarlier.ID j, BuildkiteEarlier.VMDK j).

(** A token transport turned into a client that lists [sampleBuild]. *)
Definition sampleNewClient (config : TokenAuthTransport) : Client :=
  {| Builds_ListByOrg := fun _ _ => Ok [sampleBuild];
     Builds_Get := fun _ _ _ => Ok sampleBuild |}.

End BuildkiteMoreSpec.

(** ** Statement vocabulary for the session beyond the listed claims *)
Module VsphereMoreSpec.
Import types object Vsphere VsphereSpec.

(** The event is the resolution of the default datacenter. *)
Definition isResolve (e : Event) : bool :=
  match e with
  | Called (Call_DefaultDatacenter _) => true
  | _ => false
  end.

(** How often the default datacenter has been resolved. *)
Definition resolutions (events : list Event) : nat :=
  length (List.filter isResolve events).

(** The cached finder is the one made on the session's client and scoped
    to the session's datacenter. *)
Definition scoped (vs : Session) : Prop :=
  forall f, finder vs = Some f ->
    exists c dc,
      client vs = Some c /\ datacenter vs = Some dc /\
      f = SetDatacenter (NewFinder c true) dc.

(** The states of a session whose [NewSession] returned without error. *)
Inductive live (w : World) : State -> Prop :=
| live_NewSession history cp :
    fst (NewSession w history cp) = Ok tt -> live w (snd (NewSession w history cp))
| live_keepAlive st cp :
    live w st -> live w (snd (keepAliveHandler w cp st))
| live_VirtualMachine st path :
    live w st -> live w (snd (VirtualMachine_ w path st))
| live_CreateVM st params :
    live w st -> live w (snd (CreateVM w params st))
| live_later st events :
    live w st -> live w {| sess := sess st; trace := trace st ++ events |}.

(** A session without a finder has no datacenter either. *)
Definition nothingCached (vs : Session) : Prop :=
  finder vs = None -> datacenter vs = None.

(** The session before [connect]. *)
Definition freshSession : Session :=
  {| client := None; datacenter := None; finder := None |}.

(** The client that [connect] makes for the connection parameters. *)
Definition clientFor (cp : ConnectionParams) : Client :=
  {| ClientURL := "https://" ++ Host cp ++ "/sdk";
     ClientInsecure := Insecure cp;
     ClientVersion := "6.0";
     KeepAliveIdle := 30;
     KeepAliveFor := cp |}.

(** Every remote call of [CreateVM] succeeds, whenever it is made. *)
Definition allSucceed (w : World) : Prop :=
  lookupsSucceed w /\
  (forall h dc, exists folders, Folders w h dc = inr folders) /\
  (forall h f path, exists c, FindClusterComputeResource w h f path = inr c) /\
  (forall h c, exists pool, ClusterResourcePool w h c = inr pool) /\
  (forall h folder spec pool, exists task, Folder_CreateVM w h folder spec pool = inr task) /\
  (forall h task, Task_Wait w h task = inr tt) /\
  (forall h f path, exists vm, FindVirtualMachine w h f path = inr vm).

(** The outcome is a value or an error reported by the control plane:
    neither a panic nor an error made in-process. *)
Definition valueOrRemoteError {A} (r : result A) : Prop :=
  (exists a, r = Ok a) \/ (exists e, r = Err (Remote e)).

(** The scalar part of the config spec for [params], with its files on
    the datastore [ds]. *)
Definition configuredFor (params : VirtualMachineCreationParams) (ds : Datastore)
    (cs : VirtualMachineConfigSpec) : Prop :=
  GuestId cs = GuestID params /\
  types.MemoryMB cs = MemoryMB params /\
  types.Name cs = Name params /\
  types.NumCPUs cs = NumCPUs params /\
  types.NumCoresPerSocket cs = NumCoresPerSocket params /\
  NestedHVEnabled cs = Some true /\
  VirtualICH7MPresent cs = Some true /\
  VirtualSMCPresent cs = Some true /\
  Files cs = Some {| VmPathName := "[" ++ Datastore_Name ds ++ "]" |}.

(** The session fields and the number of resolutions are those of [st0]. *)
Definition unchangedSince (st0 st : State) : Prop :=
  sess st = sess st0 /\ resolutions (trace st) = resolutions (trace st0).

(** The file name [CreateDisk] gives a disk: the name with .vmdk appended
    unless it is empty or has that extension already. *)
Definition vmdkName (name : string) : string :=
  if (0 <? String.length name)%nat && negb (String.eqb (Ext name) ".vmdk")
  then name ++ ".vmdk" else name.

(** The disk that [addDisk] appends after the new card and controller:
    the first unit of the new controller, backed by the source disk on the
    datastore [src]. *)
Definition builtDisk (src : Datastore) (params : VirtualMachineCreationParams) : VirtualDisk :=
  {| diskDevice :=
       {| Key := -1;
          Backing := Some (DiskFlatVer2
                             (mkFlatVer2 (vmdkName (Datastore_Path src (SrcDiskPath params)))
                                         (Some (DatastoreRef src))
                                         "independent_nonpersistent" (Some true) None));
          ControllerKey := -201;
          UnitNumber := Some 0 |};
     CapacityInKB := 0 |}.

(** The devices of the config spec come from the lookups for [params]:
    the card is backed by the network found under the wildcard path of the
    network label, the disk lies on the datastore found for the source
    disk, and the scalar part is that for [params] with its files on the
    datastore found for the machine. *)
Definition sourcedFor (w : World) (params : VirtualMachineCreationParams)
    (cs : VirtualMachineConfigSpec) : Prop :=
  exists network backing src ds hN hB hS hD fN fS fD,
    FindNetwork w hN fN ("*" ++ NetworkLabel params) = inr network /\
    EthernetCardBackingInfo w hB network = inr backing /\
    FindDatastore w hS fS (SrcDiskDataStore params) = inr src /\
    FindDatastore w hD fD (DatastoreName params) = inr ds /\
    map SpecDevice (DeviceChange cs) = builtDevices backing (builtDisk src params) /\
    configuredFor params ds cs.

(** The handle is that of a machine created for [params]: a config spec
    built for [params] was submitted to the VM folder of a datacenter with
    the resource pool of the cluster found at the cluster path, the task
    was waited for and succeeded, and the handle is the machine then found
    at the folder's path followed by the machine's name. *)
Definition createdFor (w : World) (params : VirtualMachineCreationParams)
    (vm : VirtualMachine) : Prop :=
  exists dc folders cluster pool cs task hF hC hP hS hW hV fC fV,
    Folders w hF dc = inr folders /\
    FindClusterComputeResource w hC fC (ClusterPath params) = inr cluster /\
    ClusterResourcePool w hP cluster = inr pool /\
    builtFor params cs /\
    types.Name cs = Name params /\
    Folder_CreateVM w hS (VmFolder folders) cs pool = inr task /\
    Task_Wait w hW task = inr tt /\
    FindVirtualMachine w hV fV (InventoryPath (VmFolder folders) ++ "/" ++ Name params)
      = inr (mo vm) /\
    VMName vm = object.VMName (mo vm).

End VsphereMoreSpec.

(** ** Facts about the string helpers *)

Example SplitN_ex1 : SplitN "a=b=c" "="%char 2 = ["a"; "b=c"].
Proof. reflexivity. Qed.
Example SplitN_ex2 : SplitN "abc" "="%char 2 = ["abc"].
Proof. reflexivity. Qed.
Example SplitN_ex3 : SplitN "" "="%char 2 = [""].
Proof. reflexivity. Qed.
Example Itoa_ex : Itoa 42 = "42" /\ Itoa 0 = "0" /\ Itoa (-7) = "-7".
Proof. repeat split; reflexivity. Qed.
Example parse_ex :
  Buildkite.parseAgentQueryRules ["vmkite-vmdk=a"; "x"; "vmkite-guestid=g=1"; "vmkite-vmdk=b"]
  = {| Buildkite.VMDK := "b"; Buildkite.GuestID := "g=1" |}.
Proof. reflexivity. Qed.

Lemma cut_app (sep : ascii) (k v : string) :
  hasByte sep k = false -> cut sep (k ++ String sep v) = Some (k, v).
Proof.
  induction k as [|c k IH]; simpl; intros H.
  - now rewrite Ascii.eqb_refl.
  - apply orb_false_iff in H as [Hc Hk].
    rewrite Hc, (IH Hk). reflexivity.
Qed.


Lemma cut_Some_inv (sep : ascii) (s k v : string) :
  cut sep s = Some (k, v) -> s = k ++ String sep v /\ hasByte sep k = false.
Proof.
  revert k; induction s as [|c s IH]; simpl; intros k H; [discriminate|].
  destruct (Ascii.eqb c sep) eqn:Hc.
  - apply Ascii.eqb_eq in Hc. inversion H; subst. split; reflexivity.
  - destruct (cut sep s) as [[pre post]|] eqn:Hcut; [|discriminate].
    inversion H; subst.
    destruct (IH pre eq_refl) as [-> Hpre].
    split; [reflexivity|]. simpl. now rewrite Hc, Hpre.
Qed.

Lemma SplitN_2 (s : string) (sep : ascii) :
  SplitN s sep 2 = match cut sep s with
                   | Some (k, v) => [k; v]
                   | None => [s]
                   end.
Proof.
  unfold SplitN. destruct s as [|c s]; [reflexivity|].
  change (Nat.min 1 (String.length (String c s))) with 1%nat.
  cbn [splitLoop]. destruct (cut sep (String c s)) as [[k v]|]; reflexivity.
Qed.

Lemma SplitN_2_app (k v : string) (sep : ascii) :
  hasByte sep k = false -> SplitN (k ++ String sep v) sep 2 = [k; v].
Proof. intros H. now rewrite SplitN_2, cut_app. Qed.


(** ** Package buildkite: the decoder of agent query rules *)
Module BuildkiteProofs.
Import gobuildkite Buildkite BuildkiteSpec.

Lemma eqb_neq_false (a b : string) : a <> b -> String.eqb a b = false.
Proof. intros H. now apply String.eqb_neq. Qed.

(** One rule, seen through the value it gives to each recognized key. *)
Lemma parseRule_fields (m : VmkiteMetadata) (r : string) :
  VMDK (parseRule m r) = default (VMDK m) (ruleValue "vmkite-vmdk" r) /\
  GuestID (parseRule m r) = default (GuestID m) (ruleValue "vmkite-guestid" r).
Proof.
  unfold parseRule, ruleValue. rewrite SplitN_2.
  destruct (cut "=" r) as [[k v]|]; [|split; reflexivity].
  destruct (String.eqb k "vmkite-vmdk") eqn:Hk.
  - apply String.eqb_eq in Hk; subst k. split; reflexivity.
  - destruct (String.eqb k "vmkite-guestid"); split; reflexivity.
Qed.

Lemma default_last_cons {A} (d x : A) (l : list A) :
  default d (last (x :: l)) = default x (last l).
Proof.
  revert d x; induction l as [|y l IH]; intros d x; [reflexivity|].
  change (last (x :: y :: l)) with (last (y :: l)).
  now rewrite (IH d y), (IH x y).
Qed.

Lemma ruleValues_cons (key r : string) (rules : list string) :
  ruleValues key (r :: rules)
    = match ruleValue key r with
      | Some v => v :: ruleValues key rules
      | None => ruleValues key rules
      end.
Proof. reflexivity. Qed.

Lemma fold_parseRule_fields (rules : list string) (m : VmkiteMetadata) :
  VMDK (fold_left parseRule rules m)
    = default (VMDK m) (last (ruleValues "vmkite-vmdk" rules)) /\
  GuestID (fold_left parseRule rules m)
    = default (GuestID m) (last (ruleValues "vmkite-guestid" rules)).
Proof.
  revert m; induction rules as [|r rules IH]; intros m; [split; reflexivity|].
  cbn [fold_left]. destruct (IH (parseRule m r)) as [IHv IHg].
  destruct (parseRule_fields m r) as [Hv Hg].
  rewrite IHv, IHg, Hv, Hg, !ruleValues_cons.
  split.
  - destruct (ruleValue "vmkite-vmdk" r);
      [now rewrite default_last_cons|reflexivity].
  - destruct (ruleValue "vmkite-guestid" r);
      [now rewrite default_last_cons|reflexivity].
Qed.

(** A rule that gives no value to either recognized key changes nothing. *)
Lemma parseRule_ignored (m : VmkiteMetadata) (r : string) :
  ruleValue "vmkite-vmdk" r = None -> ruleValue "vmkite-guestid" r = None ->
  parseRule m r = m.
Proof.
  intros Hv Hg. destruct (parseRule_fields m r) as [H1 H2].
  rewrite Hv in H1. rewrite Hg in H2. simpl in H1, H2.
  destruct (parseRule m r), m; simpl in *; congruence.
Qed.

(** C3 as stated fails: with two rules for the same key the decoder
    keeps the second value, not the first. *)
Lemma C3_first_occurrence_refuted :
  VMDK (parseAgentQueryRules ["vmkite-vmdk=a"; "vmkite-vmdk=b"])
    <> firstValue "vmkite-vmdk" ["vmkite-vmdk=a"; "vmkite-vmdk=b"].
Proof. vm_compute. discriminate. Qed.

(** C3 (amended): for every sequence of agent query rules, the decoded
    value of a recognized key (vmkite-vmdk or vmkite-guestid) is the value
    of the last rule in the sequence whose key matches, and the empty
    string when no rule matches; on duplicate keys the last occurrence
    wins. *)
Theorem C3_last_occurrence_wins (rules : list string) :
  VMDK (parseAgentQueryRules rules) = lastValue "vmkite-vmdk" rules /\
  GuestID (parseAgentQueryRules rules) = lastValue "vmkite-guestid" rules.
Proof. unfold parseAgentQueryRules, lastValue. apply fold_parseRule_fields. Qed.



(** *** VmkiteJobs *)

Lemma complete_true (m : VmkiteMetadata) :
  complete m = true <-> VMDK m <> "" /\ GuestID m <> "".
Proof.
  unfold complete. rewrite andb_true_iff, !negb_true_iff, !String.eqb_neq. tauto.
Qed.

Lemma rbind_Ok_inv {A B} (r : result A) (k : A -> result B) (b : B) :
  rbind r k = Ok b -> exists a, r = Ok a /\ k a = Ok b.
Proof. destruct r; simpl; intros H; [eauto|discriminate..]. Qed.

Lemma appendBuildJobs_Ok (build : Build) (bjobs : list Job) (jobs out : list VmkiteJob) :
  appendBuildJobs build bjobs jobs = Ok out ->
  exists new, out = (jobs ++ new)%list /\
              map Metadata new = List.filter complete (map decode bjobs).
Proof.
  revert jobs; induction bjobs as [|job rest IH]; intros jobs H.
  - inversion H; subst. exists []. now rewrite app_nil_r.
  - cbn [appendBuildJobs] in H. cbn [map List.filter].
    change (parseAgentQueryRules (AgentQueryRules job)) with (decode job) in H.
    change (negb (String.eqb (GuestID (decode job)) "") &&
            negb (String.eqb (VMDK (decode job)) "")) with (complete (decode job)) in H.
    destruct (complete (decode job)).
    + apply rbind_Ok_inv in H as (id & _ & H).
      apply rbind_Ok_inv in H as (number & _ & H).
      apply rbind_Ok_inv in H as (pipeline & _ & H).
      apply rbind_Ok_inv in H as (slug & _ & H).
      apply IH in H as (new & -> & Hnew).
      eexists (_ :: new). rewrite <- app_assoc. split; [reflexivity|].
      cbn [map Metadata]. now rewrite Hnew.
    + now apply IH.
Qed.

Lemma appendBuilds_Ok (builds : list Build) (jobs out : list VmkiteJob) :
  appendBuilds builds jobs = Ok out ->
  exists new, out = (jobs ++ new)%list /\
              map Metadata new = List.filter complete (map decode (flat_map Jobs builds)).
Proof.
  revert jobs; induction builds as [|build rest IH]; intros jobs H.
  - inversion H; subst. exists []. now rewrite app_nil_r.
  - cbn [appendBuilds] in H. apply rbind_Ok_inv in H as (mid & Hmid & H).
    apply appendBuildJobs_Ok in Hmid as (new1 & -> & Hnew1).
    apply IH in H as (new2 & -> & Hnew2).
    exists (new1 ++ new2)%list. rewrite <- app_assoc. split; [reflexivity|].
    cbn [flat_map]. now rewrite !map_app, List.filter_app, Hnew1, Hnew2.
Qed.

Lemma appendBuildJobs_returns (build : Build) (bjobs : list Job) (jobs : list VmkiteJob) :
  (exists n, Number build = Some n) ->
  (exists p slug, BuildPipeline build = Some p /\ Slug p = Some slug) ->
  Forall (fun job => exists id, JobID job = Some id) bjobs ->
  exists out, appendBuildJobs build bjobs jobs = Ok out.
Proof.
  intros [n Hn] (p & slug & Hp & Hslug) Hjobs. revert jobs.
  induction Hjobs as [|job rest [id Hid] _ IH]; intros jobs; [now exists jobs|].
  cbn [appendBuildJobs].
  destruct (_ && _); [|apply IH].
  rewrite Hid, Hn, Hp. cbn [deref rbind]. rewrite Hslug. cbn [deref rbind]. apply IH.
Qed.

(** [VmkiteJobs] returns a list whenever the listing succeeds with
    populated builds. *)
Lemma VmkiteJobs_returns (bk : Session) (builds : list Build) :
  Builds_ListByOrg (client bk) (Org bk) {| OptState := ["scheduled"; "running"] |} = Ok builds ->
  Forall populated builds ->
  exists jobs, snd (VmkiteJobs bk) = Ok jobs.
Proof.
  intros Hlist Hpop. unfold VmkiteJobs. cbn [snd]. rewrite Hlist. cbn [rbind].
  clear Hlist. generalize (@nil VmkiteJob) as jobs.
  induction Hpop as [|build rest (Hn & Hp & Hj) _ IH]; intros jobs; [now exists jobs|].
  cbn [appendBuilds].
  destruct (appendBuildJobs_returns build (Jobs build) jobs Hn Hp Hj) as [mid ->].
  cbn [rbind]. apply IH.
Qed.

(** C1: every job in the list returned by a successful [VmkiteJobs] has
    both intent fields non-empty, and the returned jobs are exactly the
    listed jobs whose decoded metadata is complete, in order: a job whose
    decoded metadata lacks either field is left out. *)
Theorem C1_returned_jobs_are_complete (bk : Session) (jobs : list VmkiteJob) :
  snd (VmkiteJobs bk) = Ok jobs ->
  Forall (fun j => VMDK (Metadata j) <> "" /\ GuestID (Metadata j) <> "") jobs /\
  exists builds,
    Builds_ListByOrg (client bk) (Org bk) {| OptState := ["scheduled"; "running"] |}
      = Ok builds /\
    map Metadata jobs = List.filter complete (map decode (flat_map Jobs builds)).
Proof.
  unfold VmkiteJobs. cbn [snd]. intros H.
  apply rbind_Ok_inv in H as (builds & Hlist & H).
  apply appendBuilds_Ok in H as (new & -> & Hnew). cbn [app] in *.
  split; [|now exists builds].
  assert (Hall : Forall (fun m => complete m = true) (map Metadata new)).
  { rewrite Hnew. apply List.Forall_forall. intros m Hm.
    now apply List.filter_In in Hm. }
  clear Hnew. induction new as [|j new IH]; [constructor|].
  cbn [map] in Hall. inversion Hall; subst.
  constructor; [now apply complete_true|now apply IH].
Qed.

Lemma C1_returned_jobs_are_complete_witness :
  snd (VmkiteJobs sampleSession) = Ok [sampleVmkiteJob "j1"] /\
  Forall (fun j => VMDK (Metadata j) <> "" /\ GuestID (Metadata j) <> "")
         [sampleVmkiteJob "j1"].
Proof.
  split; [reflexivity|].
  exact (proj1 (C1_returned_jobs_are_complete sampleSession [sampleVmkiteJob "j1"] eq_refl)).
Defined.

(** *** IsFinished *)

Lemma scanJobs_skip (job : VmkiteJob) (pre rest : list Job) :
  Forall (otherJob job) pre -> scanJobs (pre ++ rest) job = scanJobs rest job.
Proof.
  induction 1 as [|bj pre (id & Hid & Hne) _ IH]; [reflexivity|].
  cbn [app scanJobs]. rewrite Hid. cbn [deref rbind].
  now rewrite (eqb_neq_false _ _ Hne).
Qed.

(** C4: when the build is re-fetched successfully, [IsFinished] answers
    from the first job of the build whose ID matches: false when that
    job is in state scheduled or running, true when it is in any other
    state; and it answers false, with no error, when no job of the build
    has a matching ID. *)
Theorem C4_IsFinished (bk : Session) (job : VmkiteJob) (build : Build) :
  Builds_Get (client bk) (Org bk) (Pipeline job) (BuildNumber job) = Ok build ->
  (forall pre bj post state,
      Jobs build = (pre ++ bj :: post)%list ->
      Forall (otherJob job) pre ->
      JobID bj = Some (ID job) ->
      State bj = Some state ->
      (state = "scheduled" \/ state = "running" -> snd (IsFinished bk job) = Ok false) /\
      (state <> "scheduled" -> state <> "running" -> snd (IsFinished bk job) = Ok true)) /\
  (Forall (otherJob job) (Jobs build) -> snd (IsFinished bk job) = Ok false).
Proof.
  intros Hget. unfold IsFinished. cbn [snd]. rewrite Hget. cbn [rbind]. split.
  - intros pre bj post state -> Hpre Hid Hstate.
    rewrite (scanJobs_skip job pre _ Hpre). cbn [scanJobs].
    rewrite Hid. cbn [deref rbind]. rewrite String.eqb_refl, Hstate. cbn [deref rbind].
    split.
    + intros [-> | ->]; reflexivity.
    + intros H1 H2. now rewrite (eqb_neq_false _ _ H1), (eqb_neq_false _ _ H2).
  - intros Hall. rewrite <- (app_nil_r (Jobs build)).
    now rewrite (scanJobs_skip job _ [] Hall).
Qed.

Lemma C4_IsFinished_witness :
  snd (IsFinished sampleSession (sampleVmkiteJob "j1")) = Ok false /\
  snd (IsFinished sampleSession (sampleVmkiteJob "j2")) = Ok true /\
  snd (IsFinished sampleSession (sampleVmkiteJob "j3")) = Ok false.
Proof.
  assert (Hne : forall a b : string, String.eqb a b = false -> a <> b)
    by (intros a b; apply String.eqb_neq).
  split; [|split].
  - destruct (C4_IsFinished sampleSession (sampleVmkiteJob "j1") sampleBuild eq_refl)
      as [Hfound _].
    refine (proj1 (Hfound [] _ _ "scheduled" eq_refl _ eq_refl eq_refl) _);
      [constructor|now left].
  - destruct (C4_IsFinished sampleSession (sampleVmkiteJob "j2") sampleBuild eq_refl)
      as [Hfound _].
    refine (proj2 (Hfound [_] _ [] "passed" eq_refl _ eq_refl eq_refl) _ _).
    + repeat constructor. exists "j1". split; [reflexivity|now apply Hne].
    + now apply Hne.
    + now apply Hne.
  - destruct (C4_IsFinished sampleSession (sampleVmkiteJob "j3") sampleBuild eq_refl)
      as [_ Habsent].
    apply Habsent. repeat constructor.
    + exists "j1". split; [reflexivity|now apply Hne].
    + exists "j2". split; [reflexivity|now apply Hne].
Defined.

End BuildkiteProofs.

(** ** Package vsphere *)
Module VsphereProofs.
Import types object Vsphere VsphereSpec.

(** *** Running the monad *)

Lemma bind_Ok_inv {A B} (m : M A) (k : A -> M B) st b st' :
  bind m k st = (Ok b, st') ->
  exists a st1, m st = (Ok a, st1) /\ k a st1 = (Ok b, st').
Proof.
  unfold bind. destruct (m st) as [[a|e|p] st1]; intros H; try discriminate. eauto.
Qed.

Lemma bind_run_Ok {A B} (m : M A) (k : A -> M B) st a st1 :
  m st = (Ok a, st1) -> bind m k st = k a st1.
Proof. unfold bind. now intros ->. Qed.

Lemma bind_run_Err {A B} (m : M A) (k : A -> M B) st e st1 :
  m st = (Err e, st1) -> bind m k st = (Err e, st1).
Proof. unfold bind. now intros ->. Qed.

Lemma run_Ok {A} (m : M A) st a :
  fst (m st) = Ok a -> m st = (Ok a, snd (m st)).
Proof. destruct (m st) as [r st']. cbn. now intros ->. Qed.

Lemma call_Ok_inv {A} (c : Call) (answer : list Event -> remote_error + A) st a st' :
  call c answer st = (Ok a, st') ->
  answer (trace st) = inr a /\ st' = {| sess := sess st; trace := trace st ++ [Called c] |}.
Proof.
  unfold call. destruct (answer (trace st)); intros H; inversion H; subst. now split.
Qed.

Lemma call_run {A} (c : Call) (answer : list Event -> remote_error + A) st a :
  answer (trace st) = inr a ->
  call c answer st = (Ok a, {| sess := sess st; trace := trace st ++ [Called c] |}).
Proof. unfold call. now intros ->. Qed.

Lemma liftR_Ok_inv {A} (r : result A) st a st' :
  liftR r st = (Ok a, st') -> r = Ok a /\ st' = st.
Proof. unfold liftR. intros H; inversion H; subst. now split. Qed.

Lemma debugf_run format args st :
  debugf format args st
    = (Ok tt, {| sess := sess st; trace := trace st ++ [logLine format args] |}).
Proof. reflexivity. Qed.

(** A specification of a computation: from a state satisfying [P], the
    outcome and the final state satisfy [Q]. *)
Definition triple {A} (P : State -> Prop) (m : M A) (Q : result A -> State -> Prop) : Prop :=
  forall st, P st -> Q (fst (m st)) (snd (m st)).

Lemma triple_bind {A B} (P : State -> Prop) (Q1 : result A -> State -> Prop)
    (Q : result B -> State -> Prop) (m : M A) (k : A -> M B) :
  triple P m Q1 ->
  (forall a, triple (Q1 (Ok a)) (k a) Q) ->
  (forall e st, Q1 (Err e) st -> Q (Err e) st) ->
  (forall p st, Q1 (Panic p) st -> Q (Panic p) st) ->
  triple P (bind m k) Q.
Proof.
  intros Hm Hk He Hp st HP. specialize (Hm st HP). unfold bind.
  destruct (m st) as [[a|e|p] st1]; cbn [fst snd] in *.
  - now apply Hk.
  - now apply He.
  - now apply Hp.
Qed.

Lemma triple_weaken {A} (P P' : State -> Prop) (Q Q' : result A -> State -> Prop) (m : M A) :
  triple P m Q -> (forall st, P' st -> P st) -> (forall r st, Q r st -> Q' r st) ->
  triple P' m Q'.
Proof. intros H HP HQ st Hst. apply HQ, H, HP, Hst. Qed.

(** *** getFinder *)

Lemma getFinder_cached (w : World) st f :
  finder (sess st) = Some f -> getFinder w st = (Ok f, st).
Proof. unfold getFinder, bind, getSession. now intros ->. Qed.

(** What a first call does: two log lines, the resolution of the default
    datacenter by a new finder, and on success a third log line and the
    caching of both. *)
Lemma getFinder_fresh (w : World) st c :
  finder (sess st) = None -> client (sess st) = Some c ->
  let h := (trace st ++ [logLine "find.NewFinder()" []]
                     ++ [logLine "finder.DefaultDatacenter()" []])%list in
  getFinder w st =
    match DefaultDatacenter w h (NewFinder c true) with
    | inr dc =>
        (Ok (SetDatacenter (NewFinder c true) dc),
         {| sess := {| client := Some c; datacenter := Some dc;
                       finder := Some (SetDatacenter (NewFinder c true) dc) |};
            trace := (h ++ [Called (Call_DefaultDatacenter (NewFinder c true))]
                        ++ [logLine "finder.SetDatacenter(%v)" [ArgObject]])%list |})
    | inl e =>
        (Err (Remote e),
         {| sess := sess st;
            trace := (h ++ [Called (Call_DefaultDatacenter (NewFinder c true))])%list |})
    end.
Proof.
  intros Hf Hc h. unfold getFinder, bind, getSession. rewrite Hf.
  unfold debugf, emit, liftR, call. cbn [sess trace]. rewrite Hc. cbn [deref].
  subst h. rewrite <- !app_assoc. cbn [app].
  destruct (DefaultDatacenter w _ _); cbn [sess trace]; rewrite <- ?app_assoc; reflexivity.
Qed.

Lemma getFinder_no_client (w : World) st :
  finder (sess st) = None -> client (sess st) = None ->
  fst (getFinder w st) = Panic nil_deref.
Proof.
  intros Hf Hc. unfold getFinder, bind, getSession. rewrite Hf.
  unfold debugf, emit, liftR. cbn [sess trace fst]. now rewrite Hc.
Qed.

(** After a successful call both fields are cached, and the finder
    returned is the cached one. *)
Lemma getFinder_Ok_inv (w : World) st f st1 :
  cachedTogether (sess st) ->
  getFinder w st = (Ok f, st1) ->
  finder (sess st1) = Some f /\ exists dc, datacenter (sess st1) = Some dc.
Proof.
  intros Hwf H. destruct (finder (sess st)) as [f0|] eqn:Hf.
  - rewrite (getFinder_cached w st f0 Hf) in H. inversion H; subst.
    split; [assumption|].
    destruct (datacenter (sess st1)) as [dc|] eqn:Hdc; [eauto|].
    exfalso. apply Hwf; [congruence|assumption].
  - destruct (client (sess st)) as [c|] eqn:Hc.
    + rewrite (getFinder_fresh w st c Hf Hc) in H.
      destruct (DefaultDatacenter w _ _) as [e|dc]; inversion H; subst.
      cbn [sess finder datacenter]. eauto.
    + pose proof (getFinder_no_client w st Hf Hc) as Hp.
      rewrite H in Hp. discriminate.
Qed.

Lemma getFinder_cachedTogether (w : World) st :
  cachedTogether (sess st) -> cachedTogether (sess (snd (getFinder w st))).
Proof.
  intros Hwf. destruct (finder (sess st)) as [f0|] eqn:Hf.
  - now rewrite (getFinder_cached w st f0 Hf).
  - destruct (client (sess st)) as [c|] eqn:Hc.
    + rewrite (getFinder_fresh w st c Hf Hc).
      destruct (DefaultDatacenter w _ _) as [e|dc]; cbn [snd sess]; [assumption|].
      intros _. discriminate.
    + unfold getFinder, bind, getSession. rewrite Hf.
      unfold debugf, emit, liftR. cbn [sess trace]. rewrite Hc. cbn [deref snd sess].
      assumption.
Qed.




(** *** The keepalive handler *)

Lemma isNotAuthenticated_true (err : error) :
  isNotAuthenticated err = true <-> err = Remote (SoapFault NotAuthenticated).
Proof.
  split; [|now intros ->].
  destruct err as [msg|[[|name]|msg]]; cbn; intros H; try discriminate. reflexivity.
Qed.

(** C7: the keepalive handler never returns an error.  On a session
    whose client is set (as [connect] does before its first login, hence
    before the handler can run), the handler probes with GetCurrentTime;
    on success it returns nil and does nothing else; on a failure
    classified as NotAuthenticated it logs the failure, logs in again with
    the user and password of the connection parameters, logs the outcome
    of that login, and returns nil either way; on any other failure it
    logs the failure and returns nil without logging in.  The session
    fields are never touched. *)
Theorem C7_keepalive_never_fails (w : World) (cp : ConnectionParams) (st : State)
    (c : Client) :
  client (sess st) = Some c ->
  fst (keepAliveHandler w cp st) = Ok tt /\
  sess (snd (keepAliveHandler w cp st)) = sess st /\
  trace (snd (keepAliveHandler w cp st)) =
    (trace st ++
     Called Call_GetCurrentTime ::
     match GetCurrentTime w (trace st) with
     | inr _ => []
     | inl e =>
         let failure := logLine "session keepalive error: %s" [ArgError (Remote e)] in
         failure ::
         if isNotAuthenticated (Remote e) then
           [ Called (Call_Login (User cp) (Pass cp));
             match Login w (trace st ++ [Called Call_GetCurrentTime; failure])
                         (User cp) (Pass cp) with
             | inl e' =>
                 logLine "session keepalive failed to re-authenticate: %s"
                         [ArgError (Remote e')]
             | inr _ => logLine "session keepalive re-authenticated" []
             end ]
         else []
     end)%list.
Proof.
  intros Hc. unfold keepAliveHandler, bind, try, call. cbn [sess trace].
  destruct (GetCurrentTime w (trace st)) as [e|[]]; [|now cbn].
  unfold debugf, emit. cbn [sess trace].
  destruct (isNotAuthenticated (Remote e)).
  - unfold login, bind, getSession, liftR, call. cbn [sess trace]. rewrite Hc. cbn [deref].
    rewrite <- !app_assoc. cbn [app].
    destruct (Login w _ _ _) as [e'|[]]; cbn [fst snd sess trace ret];
      rewrite <- !app_assoc; cbn [app]; auto.
  - cbn [fst snd sess trace ret]. rewrite <- !app_assoc. cbn [app]. auto.
Qed.

Lemma C7_keepalive_never_fails_witness :
  fst (keepAliveHandler expiredWorld sampleConnection (connected expiredWorld)) = Ok tt /\
  fst (keepAliveHandler lockedOutWorld sampleConnection (connected lockedOutWorld)) = Ok tt /\
  fst (keepAliveHandler flakyWorld sampleConnection (connected flakyWorld)) = Ok tt /\
  fst (keepAliveHandler calmWorld sampleConnection (connected calmWorld)) = Ok tt.
Proof.
  split; [|split; [|split]].
  - exact (proj1 (C7_keepalive_never_fails expiredWorld sampleConnection
                    (connected expiredWorld) sampleClient eq_refl)).
  - exact (proj1 (C7_keepalive_never_fails lockedOutWorld sampleConnection
                    (connected lockedOutWorld) sampleClient eq_refl)).
  - exact (proj1 (C7_keepalive_never_fails flakyWorld sampleConnection
                    (connected flakyWorld) sampleClient eq_refl)).
  - exact (proj1 (C7_keepalive_never_fails calmWorld sampleConnection
                    (connected calmWorld) sampleClient eq_refl)).
Defined.

(** *** Computations that keep the cache invariant and never report
    "datacenter not loaded" *)

Definition quietFrom {A} (P : State -> Prop) (m : M A) : Prop :=
  triple P m (fun r st => cachedTogether (sess st) /\ r <> Err datacenterNotLoaded).

Definition quiet {A} (m : M A) : Prop :=
  quietFrom (fun st => cachedTogether (sess st)) m.

Lemma quiet_ret {A} (a : A) : quiet (ret a).
Proof. intros st H. cbn. split; [assumption|discriminate]. Qed.

Lemma quiet_bind {A B} (m : M A) (k : A -> M B) :
  quiet m -> (forall a, quiet (k a)) -> quiet (bind m k).
Proof.
  intros Hm Hk. apply (triple_bind _ _ _ m k Hm).
  - intros a st [Hwf _]. now apply Hk.
  - intros e st [Hwf He]. split; [assumption|]. intros Heq. apply He. congruence.
  - intros p st [Hwf _]. split; [assumption|discriminate].
Qed.

Lemma quiet_debugf format args : quiet (debugf format args).
Proof. intros st H. cbn. split; [assumption|discriminate]. Qed.

Lemma quiet_call {A} (c : Call) (answer : list Event -> remote_error + A) :
  quiet (call c answer).
Proof.
  intros st H. unfold call. destruct (answer (trace st)); cbn; (split; [assumption|discriminate]).
Qed.

Lemma quiet_liftR {A} (r : result A) : r <> Err datacenterNotLoaded -> quiet (liftR r).
Proof. intros Hr st H. cbn. now split. Qed.

Lemma quiet_try {A} (m : M A) : quiet m -> quiet (try m).
Proof.
  intros Hm st H. specialize (Hm st H). unfold try.
  destruct (m st) as [[a|e|p] st1]; cbn in *; (split; [tauto|discriminate]).
Qed.

Lemma quiet_with_trace {A} (m : list Event -> M A) :
  (forall h, quiet (m h)) -> quiet (fun st => m (trace st) st).
Proof. intros Hm st H. exact (Hm (trace st) st H). Qed.

Lemma getFinder_not_local_error (w : World) st msg :
  fst (getFinder w st) <> Err (errors_New msg).
Proof.
  destruct (finder (sess st)) as [f0|] eqn:Hf.
  - rewrite (getFinder_cached w st f0 Hf). discriminate.
  - destruct (client (sess st)) as [c|] eqn:Hc.
    + rewrite (getFinder_fresh w st c Hf Hc).
      destruct (DefaultDatacenter w _ _); discriminate.
    + rewrite (getFinder_no_client w st Hf Hc). discriminate.
Qed.

Lemma quiet_getFinder (w : World) : quiet (getFinder w).
Proof.
  intros st H. split; [now apply getFinder_cachedTogether|apply getFinder_not_local_error].
Qed.

Ltac quiet_steps :=
  repeat first
    [ apply quiet_ret
    | apply quiet_debugf
    | apply quiet_call
    | apply quiet_getFinder
    | apply quiet_bind; [|intro] ].

(** The in-process helpers of the device list. *)
Lemma CreateEthernetCard_vmxnet3 (backing : BaseVirtualDeviceBackingInfo) :
  CreateEthernetCard "vmxnet3" backing
    = Ok (EthernetCard Vmxnet3
            {| cardDevice := {| Key := -1; Backing := Some backing;
                                ControllerKey := 0; UnitNumber := None |};
               AddressType := "" |}).
Proof. reflexivity. Qed.

Lemma CreateSCSIController_scsi :
  CreateSCSIController SCSIControllerTypes "scsi" = Ok (SCSIController LsiLogic newSCSIController).
Proof. reflexivity. Qed.

Lemma markUnit_not_Err units i e : markUnit units i <> Err e.
Proof. unfold markUnit. destruct (_ && _); discriminate. Qed.

Lemma markUnits_not_Err key l units e : markUnits key l units <> Err e.
Proof.
  revert units; induction l as [|device rest IH]; intros units; cbn [markUnits]; [discriminate|].
  destruct (UnitNumber (GetVirtualDevice device)) as [u|]; [|apply IH].
  destruct (ControllerKey (GetVirtualDevice device) =? key); [|apply IH].
  destruct (markUnit units u) as [units'|e'|p] eqn:Hm; cbn [rbind];
    [apply IH| |discriminate].
  now apply markUnit_not_Err in Hm.
Qed.

Lemma CreateDisk_not_Err l c ds name e : CreateDisk l c ds name <> Err e.
Proof.
  unfold CreateDisk, AssignController, newUnitNumber.
  destruct (markUnit (repeat false 30) (ScsiCtlrUnitNumber c)) as [units|e'|p] eqn:H1;
    cbn [rbind]; [| |discriminate].
  - destruct (markUnits _ l units) as [units'|e'|p] eqn:H2; cbn [rbind]; try discriminate.
    now apply markUnits_not_Err in H2.
  - now apply markUnit_not_Err in H1.
Qed.

Section Quiet.
Variable w : World.

Lemma quiet_addEthernet devices label : quiet (addEthernet w devices label).
Proof.
  unfold addEthernet. quiet_steps.
Qed.

Lemma quiet_addSCSI devices : quiet (addSCSI devices).
Proof.
  unfold addSCSI. quiet_steps.
Qed.

Lemma quiet_addDisk devices params : quiet (addDisk w devices params).
Proof.
  unfold addDisk. quiet_steps.
  - apply quiet_liftR. unfold FindDiskController_scsi.
    destruct (PickSCSIController devices); discriminate.
  - apply quiet_liftR. apply CreateDisk_not_Err.
  - match goal with |- quiet (match ?d with _ => _ end) => destruct d as [[| |]|] end;
      first [apply quiet_ret | apply quiet_liftR; discriminate].
Qed.

Lemma quiet_addUSB devices : quiet (addUSB devices).
Proof. unfold addUSB. apply quiet_ret. Qed.

Lemma quiet_appendGuestInfo entries extraConfig :
  quiet (appendGuestInfo entries extraConfig).
Proof.
  revert extraConfig; induction entries as [|[key val] rest IH]; intros extraConfig;
    cbn [appendGuestInfo]; [apply quiet_ret|].
  apply quiet_bind; [apply quiet_debugf|intros _; apply IH].
Qed.

Lemma quiet_createConfigSpec params : quiet (createConfigSpec w params).
Proof.
  unfold createConfigSpec.
  apply quiet_bind; [apply quiet_addEthernet|intros devices1].
  apply quiet_bind; [apply quiet_addSCSI|intros devices2].
  apply quiet_bind; [apply quiet_addDisk|intros devices3].
  apply quiet_bind; [apply quiet_addUSB|intros devices4].
  apply quiet_bind; [apply quiet_liftR; discriminate|intros deviceChange].
  apply quiet_bind.
  - destruct (GuestInfo params) as [guestInfo|]; [|apply quiet_ret].
    apply (quiet_with_trace (fun h => appendGuestInfo (rangeOrder w h guestInfo) _)).
    intros h. apply quiet_appendGuestInfo.
  - intros extraConfig. quiet_steps.
Qed.

Lemma quiet_VirtualMachine path : quiet (VirtualMachine_ w path).
Proof. unfold VirtualMachine_. quiet_steps. Qed.

(** With a datacenter in the session, [vmFolder] is the folder lookup. *)
Lemma vmFolder_loaded st dc :
  datacenter (sess st) = Some dc ->
  vmFolder w st =
    (match Folders w (trace st) dc with
     | inr dcFolders => Ok (VmFolder dcFolders)
     | inl e => Err (Remote e)
     end,
     {| sess := sess st; trace := trace st ++ [Called (Call_Folders dc)] |}).
Proof.
  intros Hdc. unfold vmFolder, bind, getSession. rewrite Hdc.
  unfold call. destruct (Folders w (trace st) dc); reflexivity.
Qed.

Lemma quiet_CreateVM params : quiet (CreateVM w params).
Proof.
  unfold CreateVM.
  apply (triple_bind _
           (fun r st => cachedTogether (sess st) /\ r <> Err datacenterNotLoaded /\
                        forall f, r = Ok f -> exists dc, datacenter (sess st) = Some dc)).
  - intros st Hwf. destruct (quiet_getFinder w st Hwf) as [H1 H2].
    split; [assumption|]. split; [assumption|].
    intros f Hf. destruct (getFinder w st) as [r st1] eqn:Hrun. cbn [fst snd] in *.
    subst r. now destruct (getFinder_Ok_inv w st f st1 Hwf Hrun).
  - intros finder.
    apply (triple_bind _
             (fun r st => cachedTogether (sess st) /\ r <> Err datacenterNotLoaded)).
    + intros st (Hwf & _ & Hdc). destruct (Hdc finder eq_refl) as [dc Hdc'].
      rewrite (vmFolder_loaded st dc Hdc'). cbn [fst snd sess].
      split; [assumption|]. destruct (Folders w (trace st) dc); discriminate.
    + intros folder.
      apply (triple_weaken (fun st => cachedTogether (sess st)) _
                           (fun r st => cachedTogether (sess st) /\
                                        r <> Err datacenterNotLoaded));
        [|tauto|tauto].
      change (quiet (debugf "finder.ClusterComputeResource(%s)" [ArgString (ClusterPath params)] ;;;
                     cluster <- call (Call_ClusterComputeResource finder (ClusterPath params))
                       (fun h => FindClusterComputeResource w h finder (ClusterPath params)) ;;
                     debugf "cluster.ResourcePool()" [] ;;;
                     resourcePool <- call (Call_ResourcePool cluster)
                       (fun h => ClusterResourcePool w h cluster) ;;
                     configSpec <- createConfigSpec w params ;;
                     debugf "folder.CreateVM %s on %s" [ArgString (Name params); ArgObject] ;;;
                     task <- call (Call_CreateVM folder configSpec resourcePool)
                       (fun h => Folder_CreateVM w h folder configSpec resourcePool) ;;
                     debugf "waiting for CreateVM %v" [ArgObject] ;;;
                     call (Call_TaskWait task) (fun h => Task_Wait w h task) ;;;
                     vm <- VirtualMachine_ w (InventoryPath folder ++ "/" ++ Name params) ;;
                     ret vm)).
      repeat first
        [ apply quiet_ret | apply quiet_debugf | apply quiet_call
        | apply quiet_createConfigSpec | apply quiet_VirtualMachine
        | apply quiet_bind; [|intro] ].
    + intros e st [Hwf He]. split; [assumption|]. intros Heq. apply He. congruence.
    + intros p st [Hwf _]. split; [assumption|discriminate].
  - intros e st (Hwf & He & _). split; [assumption|]. intros Heq. apply He. congruence.
  - intros p st (Hwf & _). split; [assumption|discriminate].
Qed.

End Quiet.

(** *** The cache invariant holds in every reachable state *)

Lemma NewSession_no_finder (w : World) history cp :
  finder (sess (snd (NewSession w history cp))) = None.
Proof.
  unfold NewSession, connect. destruct (url_Parse w _); [reflexivity|].
  unfold bind, call. cbn [sess trace].
  destruct (vim25_NewClient w _ _ _); [reflexivity|].
  unfold getSession, putSession, login, bind, getSession, liftR, call. cbn [sess trace client deref].
  destruct (Login w _ _ _); reflexivity.
Qed.

(** The handler that a connected session carries is the one for the
    parameters it was connected with. *)
Lemma NewSession_handler (w : World) history cp c :
  client (sess (snd (NewSession w history cp))) = Some c -> KeepAliveFor c = cp.
Proof.
  unfold NewSession, connect. destruct (url_Parse w _); [discriminate|].
  unfold bind, call. cbn [sess trace].
  destruct (vim25_NewClient w _ _ _); [discriminate|].
  unfold getSession, putSession, login, bind, getSession, liftR, call. cbn [sess trace client deref].
  destruct (Login w _ _ _); cbn [snd sess client]; intros H; now inversion H.
Qed.

Lemma keepAliveHandler_sess (w : World) cp st :
  sess (snd (keepAliveHandler w cp st)) = sess st.
Proof.
  unfold keepAliveHandler, bind, try, call. cbn [sess trace].
  destruct (GetCurrentTime w (trace st)) as [e|[]]; [|reflexivity].
  unfold debugf, emit. cbn [sess trace].
  destruct (isNotAuthenticated (Remote e)); [|reflexivity].
  unfold login, bind, getSession, liftR, call. cbn [sess trace].
  destruct (client (sess st)); cbn [deref]; [|reflexivity].
  destruct (Login w _ _ _) as [e'|[]]; reflexivity.
Qed.

Lemma reachable_cachedTogether (w : World) st :
  reachable w st -> cachedTogether (sess st).
Proof.
  induction 1 as [history cp|st cp _ IH|st path _ IH|st params _ IH|st events _ IH].
  - intros Hf. now rewrite NewSession_no_finder in Hf.
  - now rewrite keepAliveHandler_sess.
  - exact (proj1 (quiet_VirtualMachine w path st IH)).
  - exact (proj1 (quiet_CreateVM w params st IH)).
  - exact IH.
Qed.

(** C10: in any session that caches the finder and the datacenter
    together (every session a caller can reach does), a successful
    [getFinder] leaves a datacenter in the session, so the [vmFolder]
    that follows it takes the folder lookup and can fail only with the
    error of that lookup; and [CreateVM] never returns the error
    "datacenter not loaded". *)
Theorem C10_datacenter_loaded_in_CreateVM (w : World)
    (params : VirtualMachineCreationParams) (st : State) :
  cachedTogether (sess st) ->
  (forall f st1,
      getFinder w st = (Ok f, st1) ->
      exists dc,
        datacenter (sess st1) = Some dc /\
        vmFolder w st1 =
          (match Folders w (trace st1) dc with
           | inr dcFolders => Ok (VmFolder dcFolders)
           | inl e => Err (Remote e)
           end,
           {| sess := sess st1; trace := trace st1 ++ [Called (Call_Folders dc)] |})) /\
  fst (CreateVM w params st) <> Err datacenterNotLoaded.
Proof.
  intros Hwf. split.
  - intros f st1 Hrun.
    destruct (getFinder_Ok_inv w st f st1 Hwf Hrun) as [_ [dc Hdc]].
    exists dc. split; [assumption|now apply vmFolder_loaded].
  - exact (proj2 (quiet_CreateVM w params st Hwf)).
Qed.

Lemma C10_datacenter_loaded_in_CreateVM_witness :
  cachedTogether (sess (connected calmWorld)) /\
  datacenter (sess (cached calmWorld)) = Some sampleDatacenter /\
  fst (CreateVM calmWorld sampleParams (connected calmWorld)) <> Err datacenterNotLoaded.
Proof.
  assert (Hwf : cachedTogether (sess (connected calmWorld)))
    by (intros Hf; exfalso; apply Hf; reflexivity).
  split; [exact Hwf|]. split; [reflexivity|].
  exact (proj2 (C10_datacenter_loaded_in_CreateVM calmWorld sampleParams
                  (connected calmWorld) Hwf)).
Defined.

(** *** What a computation performs

    From a ready state, [m] ends in a ready state; it returns a value
    whenever [S] holds; and any value it returns satisfies [R]. *)

Definition performs {A} (S : Prop) (m : M A) (R : A -> Prop) : Prop :=
  triple ready m
    (fun r st => ready st /\ (S -> exists a, r = Ok a) /\ (forall a, r = Ok a -> R a)).

Lemma performs_bind {A B} (S : Prop) (m : M A) (k : A -> M B)
    (R1 : A -> Prop) (R : B -> Prop) :
  performs S m R1 -> (forall a, R1 a -> performs S (k a) R) -> performs S (bind m k) R.
Proof.
  intros Hm Hk st Hst. destruct (Hm st Hst) as (Hready & Hsome & HR1). unfold bind.
  destruct (m st) as [[a|e|p] st1]; cbn [fst snd] in *.
  - apply (Hk a (HR1 a eq_refl) st1 Hready).
  - split; [assumption|]. split; [|discriminate].
    intros HS. destruct (Hsome HS) as [a Ha]. discriminate.
  - split; [assumption|]. split; [|discriminate].
    intros HS. destruct (Hsome HS) as [a Ha]. discriminate.
Qed.

Lemma performs_weaken {A} (S S' : Prop) (m : M A) (R R' : A -> Prop) :
  performs S m R -> (S' -> S) -> (forall a, R a -> R' a) -> performs S' m R'.
Proof.
  intros Hm HS HR st Hst. destruct (Hm st Hst) as (Hready & Hsome & HR1).
  split; [assumption|]. split; [auto|]. intros a Ha. auto.
Qed.

Lemma performs_ret {A} (S : Prop) (a : A) (R : A -> Prop) : R a -> performs S (ret a) R.
Proof.
  intros HR st Hst. cbn. split; [assumption|]. split; [eauto|].
  intros a' Ha. now inversion Ha; subst.
Qed.

Lemma performs_debugf (S : Prop) format args :
  performs S (debugf format args) (fun _ => True).
Proof. intros st Hst. cbn. split; [assumption|]. split; eauto. Qed.

Lemma performs_call {A} (S : Prop) (c : Call) (answer : list Event -> remote_error + A) :
  (S -> forall h, exists a, answer h = inr a) ->
  performs S (call c answer) (fun _ => True).
Proof.
  intros Hans st Hst. unfold call.
  destruct (answer (trace st)) as [e|a] eqn:Ha; cbn; (split; [assumption|]); split; eauto.
  intros HS. destruct (Hans HS (trace st)) as [a Ha']. congruence.
Qed.

Lemma performs_liftR {A} (S : Prop) (r : result A) (R : A -> Prop) :
  (S -> exists a, r = Ok a) -> (forall a, r = Ok a -> R a) -> performs S (liftR r) R.
Proof. intros Hsome HR st Hst. cbn. auto. Qed.

Lemma performs_with_trace {A} (S : Prop) (m : list Event -> M A) (R : A -> Prop) :
  (forall h, performs S (m h) R) -> performs S (fun st => m (trace st) st) R.
Proof. intros Hm st Hst. exact (Hm (trace st) st Hst). Qed.

Lemma performs_getFinder (w : World) :
  performs (lookupsSucceed w) (getFinder w) (fun _ => True).
Proof.
  intros st Hst. destruct (finder (sess st)) as [f0|] eqn:Hf.
  - rewrite (getFinder_cached w st f0 Hf). cbn. split; [assumption|]. split; eauto.
  - destruct (client (sess st)) as [c|] eqn:Hc.
    + rewrite (getFinder_fresh w st c Hf Hc). cbn zeta.
      destruct (DefaultDatacenter w _ _) as [e|dc] eqn:Hdc; cbn [fst snd].
      * split; [assumption|]. split; [|discriminate].
        intros (Hdcs & _). destruct (Hdcs (trace st ++ [logLine "find.NewFinder()" []] ++
                                           [logLine "finder.DefaultDatacenter()" []])%list
                                          (NewFinder c true)) as [dc Hdc'].
        congruence.
      * split; [left; discriminate|]. split; eauto.
    + destruct Hst as [Hst|Hst]; congruence.
Qed.

(** Without a finder and without a client, [getFinder] panics. *)
Lemma getFinder_not_ready (w : World) st :
  ~ ready st -> exists st1, getFinder w st = (Panic nil_deref, st1).
Proof.
  intros Hn.
  assert (Hf : finder (sess st) = None).
  { destruct (finder (sess st)) eqn:E; [|reflexivity]. exfalso. apply Hn. left. congruence. }
  assert (Hc : client (sess st) = None).
  { destruct (client (sess st)) eqn:E; [|reflexivity]. exfalso. apply Hn. right. congruence. }
  pose proof (getFinder_no_client w st Hf Hc) as Hp.
  destruct (getFinder w st) as [r st1]. cbn in Hp. subst r. eauto.
Qed.

Lemma ready_dec st : ready st \/ ~ ready st.
Proof.
  unfold ready. destruct (finder (sess st)); [left; left; discriminate|].
  destruct (client (sess st)); [left; right; discriminate|].
  right. intros [H|H]; now apply H.
Qed.

(** *** The steps of createConfigSpec *)

Lemma PickSCSIController_Some devices c :
  PickSCSIController devices = Some c ->
  exists t, In (SCSIController t c) devices.
Proof.
  induction devices as [|device rest IH]; cbn [PickSCSIController]; [discriminate|].
  destruct device as [t' c'|t' c'|c'|c'|d'|n' d'];
    try (intros H; destruct (IH H) as [t Ht]; exists t; now right).
  destruct (_ <? _)%nat.
  - intros H; inversion H; subst. exists t'. now left.
  - intros H; destruct (IH H) as [t Ht]; exists t; now right.
Qed.

Lemma PickSCSIController_none devices :
  noSCSIController devices -> PickSCSIController devices = None.
Proof.
  induction 1 as [|device rest Hd _ IH]; [reflexivity|].
  destruct device; cbn [PickSCSIController]; try assumption. discriminate.
Qed.

Lemma CreateDisk_Ok_inv l c ds name disk :
  CreateDisk l c ds name = Ok disk ->
  ControllerKey (diskDevice disk) = Key (controllerDevice (scsiController c)) /\
  exists fileName,
    Backing (diskDevice disk)
      = Some (DiskFlatVer2 (mkFlatVer2 fileName (Some ds) "persistent" (Some true) None)).
Proof.
  unfold CreateDisk, AssignController.
  destruct (newUnitNumber l c) as [u|e|p]; cbn [rbind]; intros H; inversion H; subst.
  cbn. eauto.
Qed.

Lemma CreateDisk_returns l c ds name u :
  newUnitNumber l c = Ok u -> exists disk, CreateDisk l c ds name = Ok disk.
Proof. unfold CreateDisk, AssignController. intros ->. cbn [rbind]. eauto. Qed.

Section Steps.
Variable w : World.

Lemma addEthernet_performs devices label :
  performs (lookupsSucceed w) (addEthernet w devices label)
    (fun ds => exists backing,
         ds = (devices ++ [EthernetCard Vmxnet3 (newEthernetCard backing)])%list).
Proof.
  unfold addEthernet.
  eapply performs_bind; [apply performs_getFinder|intros finder _].
  eapply performs_bind; [apply performs_debugf|intros _ _].
  eapply performs_bind;
    [apply performs_call; intros (_ & Hnet & _) h; apply Hnet|intros network _].
  eapply performs_bind;
    [apply performs_call; intros (_ & _ & Hback & _) h; apply Hback|intros backing _].
  eapply performs_bind.
  { apply (performs_liftR _ _
             (fun device => CreateEthernetCard "vmxnet3" backing = Ok device)); [|auto].
    intros _. rewrite CreateEthernetCard_vmxnet3. eauto. }
  intros device Hdevice. rewrite CreateEthernetCard_vmxnet3 in Hdevice.
  inversion Hdevice; subst device.
  apply performs_ret. now exists backing.
Qed.

Lemma addSCSI_performs (S : Prop) devices :
  performs S (addSCSI devices)
    (fun ds => ds = (devices ++ [SCSIController LsiLogic newSCSIController])%list).
Proof.
  unfold addSCSI.
  eapply performs_bind.
  { apply (performs_liftR _ _
             (fun device => CreateSCSIController SCSIControllerTypes "scsi" = Ok device));
      [|auto].
    intros _. rewrite CreateSCSIController_scsi. eauto. }
  intros device Hdevice. rewrite CreateSCSIController_scsi in Hdevice.
  inversion Hdevice; subst device.
  now apply performs_ret.
Qed.

Lemma addDisk_performs devices params :
  performs (lookupsSucceed w /\
            exists c u, PickSCSIController devices = Some c /\ newUnitNumber devices c = Ok u)
    (addDisk w devices params)
    (fun ds => exists c disk,
         PickSCSIController devices = Some c /\
         ds = (devices ++ [Disk disk])%list /\
         attachedDisk c disk).
Proof.
  unfold addDisk.
  eapply performs_bind;
    [apply (performs_weaken _ _ _ _ (fun _ => True) (performs_getFinder w)); tauto
    |intros finder _].
  eapply performs_bind; [apply performs_debugf|intros _ _].
  eapply performs_bind;
    [apply performs_call; intros ((_ & _ & _ & Hds) & _) h; apply Hds|intros diskDatastore _].
  eapply performs_bind.
  { apply (performs_liftR _ _ (fun c => PickSCSIController devices = Some c)).
    - intros (_ & c & u & Hc & _). unfold FindDiskController_scsi. rewrite Hc. eauto.
    - unfold FindDiskController_scsi. intros c.
      destruct (PickSCSIController devices); intros H; inversion H; now subst. }
  intros controller Hpick.
  eapply performs_bind.
  { apply (performs_liftR _ _
             (fun disk => CreateDisk devices controller (DatastoreRef diskDatastore)
                            (Datastore_Path diskDatastore (SrcDiskPath params)) = Ok disk)).
    - intros (_ & c & u & Hc & Hu). rewrite Hc in Hpick. inversion Hpick; subst c.
      now apply (CreateDisk_returns _ _ _ _ u).
    - auto. }
  intros disk Hdisk. apply CreateDisk_Ok_inv in Hdisk as (Hkey & fileName & Hbacking).
  rewrite Hbacking. apply performs_ret.
  eexists controller, _. split; [assumption|]. split; [reflexivity|].
  split; [exact Hkey|]. eexists. split; [reflexivity|]. split; reflexivity.
Qed.

Lemma addUSB_performs (S : Prop) devices :
  performs S (addUSB devices)
    (fun ds => ds = (devices ++ [USBController newUSBController])%list).
Proof. unfold addUSB. now apply performs_ret. Qed.

Lemma appendGuestInfo_performs (S : Prop) entries extraConfig :
  performs S (appendGuestInfo entries extraConfig)
    (fun out => out = (extraConfig ++ map guestInfoOption entries)%list).
Proof.
  revert extraConfig; induction entries as [|[key val] rest IH]; intros extraConfig;
    cbn [appendGuestInfo].
  - apply performs_ret. now rewrite app_nil_r.
  - eapply performs_bind; [apply performs_debugf|intros _ _].
    eapply performs_weaken; [apply IH|tauto|].
    intros out ->. rewrite <- app_assoc. reflexivity.
Qed.

End Steps.

Lemma ConfigSpec_add_Ok_inv devices deviceChange :
  ConfigSpec_add devices = Ok deviceChange ->
  map SpecDevice deviceChange = devices /\
  Forall (fun spec => Operation spec = "add") deviceChange.
Proof.
  unfold ConfigSpec_add. intros H; inversion H; subst. clear H. split.
  - rewrite map_map. cbn [SpecDevice]. apply map_id.
  - apply List.Forall_forall. intros spec Hin. apply List.in_map_iff in Hin as (d & <- & _).
    reflexivity.
Qed.

Lemma createConfigSpec_performs (w : World) params :
  performs (lookupsSucceed w) (createConfigSpec w params) (builtFor params).
Proof.
  unfold createConfigSpec.
  eapply performs_bind; [apply addEthernet_performs|intros devices1 [backing ->]].
  eapply performs_bind; [apply addSCSI_performs|intros devices2 ->].
  cbn [app].
  eapply performs_bind.
  { eapply performs_weaken; [apply addDisk_performs| |intros ds Hds; exact Hds].
    intros Hw. split; [assumption|].
    exists newSCSIController, 0. split; reflexivity. }
  intros devices3 (c & disk & Hpick & -> & Hdisk).
  cbn in Hpick. inversion Hpick; subst c. cbn [app].
  eapply performs_bind; [apply addUSB_performs|intros devices4 ->].
  cbn [app].
  eapply performs_bind.
  { apply (performs_liftR _ _ (fun deviceChange =>
                                 ConfigSpec_add (builtDevices backing disk) = Ok deviceChange));
      [|auto].
    intros _. unfold ConfigSpec_add. eauto. }
  intros deviceChange HdeviceChange.
  apply ConfigSpec_add_Ok_inv in HdeviceChange as [Hdevices Hadd].
  cbn zeta.
  eapply performs_bind.
  { instantiate (1 := fun extraConfig =>
                        exists entries,
                          entries ≡ₚ guestInfoEntries params /\
                          extraConfig
                            = (fixedExtraConfig params ++ map guestInfoOption entries)%list).
    unfold guestInfoEntries.
    destruct (GuestInfo params) as [guestInfo|].
    - apply (performs_with_trace _
               (fun h => appendGuestInfo (rangeOrder w h guestInfo) (fixedExtraConfig params))).
      intros h.
      eapply performs_weaken;
        [apply (appendGuestInfo_performs (lookupsSucceed w))|intros Hw; exact Hw|].
      intros out ->. exists (rangeOrder w h guestInfo). split; [apply rangeOrder_perm|reflexivity].
    - apply performs_ret. exists []. split; [reflexivity|]. now rewrite app_nil_r. }
  intros extraConfig (entries & Hperm & ->).
  eapply performs_bind; [apply performs_getFinder|intros finder _].
  eapply performs_bind; [apply performs_debugf|intros _ _].
  eapply performs_bind;
    [apply performs_call; intros (_ & _ & _ & Hds) h; apply Hds|intros ds _].
  apply performs_ret.
  exists backing, disk, entries. cbn [DeviceChange ExtraConfig].
  split; [exact Hdevices|]. split; [exact Hadd|]. split; [exact Hdisk|].
  split; [exact Hperm|]. now rewrite <- app_assoc.
Qed.

(** Without a finder and without a client nothing is built. *)
Lemma createConfigSpec_not_ready (w : World) params st cs st' :
  ~ ready st -> createConfigSpec w params st <> (Ok cs, st').
Proof.
  intros Hn. destruct (getFinder_not_ready w st Hn) as [st1 Hp].
  unfold createConfigSpec, addEthernet, bind. rewrite Hp. discriminate.
Qed.

Lemma addDisk_not_ready (w : World) devices params st ds st' :
  ~ ready st -> addDisk w devices params st <> (Ok ds, st').
Proof.
  intros Hn. destruct (getFinder_not_ready w st Hn) as [st1 Hp].
  unfold addDisk, bind. rewrite Hp. discriminate.
Qed.

Lemma createConfigSpec_Ok_inv (w : World) params st cs st' :
  createConfigSpec w params st = (Ok cs, st') -> builtFor params cs.
Proof.
  intros Hrun. destruct (ready_dec st) as [Hready|Hn].
  - destruct (createConfigSpec_performs w params st Hready) as (_ & _ & HR).
    apply HR. now rewrite Hrun.
  - now destruct (createConfigSpec_not_ready w params st cs st' Hn).
Qed.

(** *** The config spec *)

(** C2: when every topology lookup succeeds, [createConfigSpec] on a
    session that can produce a finder returns a config spec; and the
    device changes of any config spec it returns are, in this order, one
    vmxnet3 ethernet card, one SCSI controller, one disk and one USB
    controller, all to be added, where the disk carries the key of that
    SCSI controller as its controller key and its backing is
    thin-provisioned and in independent_nonpersistent mode. *)
Theorem C2_devices_of_createConfigSpec (w : World)
    (params : VirtualMachineCreationParams) (st : State) :
  (lookupsSucceed w -> ready st ->
     exists cs st', createConfigSpec w params st = (Ok cs, st')) /\
  (forall cs st',
      createConfigSpec w params st = (Ok cs, st') ->
      exists backing disk,
        map SpecDevice (DeviceChange cs)
          = [ EthernetCard Vmxnet3 (newEthernetCard backing);
              SCSIController LsiLogic newSCSIController;
              Disk disk;
              USBController newUSBController ] /\
        Forall (fun spec => Operation spec = "add") (DeviceChange cs) /\
        ControllerKey (diskDevice disk)
          = Key (controllerDevice (scsiController newSCSIController)) /\
        exists diskBacking,
          Backing (diskDevice disk) = Some (DiskFlatVer2 diskBacking) /\
          ThinProvisioned diskBacking = Some true /\
          DiskMode diskBacking = VirtualDiskModeIndependent_nonpersistent).
Proof.
  split.
  - intros Hw Hready.
    destruct (createConfigSpec_performs w params st Hready) as (_ & Hsome & _).
    destruct (Hsome Hw) as [cs Hcs].
    exists cs, (snd (createConfigSpec w params st)). now apply run_Ok.
  - intros cs st' Hrun.
    destruct (createConfigSpec_Ok_inv w params st cs st' Hrun)
      as (backing & disk & entries & Hdevices & Hadd & [Hkey Hbacking] & _).
    exists backing, disk. auto.
Qed.

Lemma lookupsSucceed_calmWorld : lookupsSucceed calmWorld.
Proof. repeat split; intros; eexists; reflexivity. Qed.

Lemma ready_connected_calmWorld : ready (connected calmWorld).
Proof. right. discriminate. Qed.

Lemma C2_devices_of_createConfigSpec_witness :
  lookupsSucceed calmWorld /\ ready (connected calmWorld) /\
  exists cs st' backing disk,
    createConfigSpec calmWorld sampleParams (connected calmWorld) = (Ok cs, st') /\
    map SpecDevice (DeviceChange cs) = builtDevices backing disk.
Proof.
  split; [exact lookupsSucceed_calmWorld|]. split; [exact ready_connected_calmWorld|].
  destruct (C2_devices_of_createConfigSpec calmWorld sampleParams (connected calmWorld))
    as [Hreturns Hdevices].
  destruct (Hreturns lookupsSucceed_calmWorld ready_connected_calmWorld) as (cs & st' & Hrun).
  destruct (Hdevices cs st' Hrun) as (backing & disk & Hshape & _).
  exists cs, st', backing, disk. split; [exact Hrun|exact Hshape].
Defined.

Lemma countKey_app key l1 l2 :
  countKey key (l1 ++ l2) = (countKey key l1 + countKey key l2)%nat.
Proof. unfold countKey. now rewrite List.filter_app, length_app. Qed.

Lemma countKey_guestInfo entries :
  countKey "ethernet0.pciSlotNumber" (map guestInfoOption entries) = 0%nat.
Proof. induction entries as [|[k v] rest IH]; [reflexivity|exact IH]. Qed.

(** C5: the extra configuration of any config spec that
    [createConfigSpec] returns is the three fixed properties
    guestinfo.vmkite-buildkite-agent-token, guestinfo.vmkite-name and
    guestinfo.vmkite-vmdk, then one property guestinfo.<key> for each
    entry of [GuestInfo] (each entry once, in the order the runtime
    ranges over the map), then the property ethernet0.pciSlotNumber,
    which occurs exactly once; 4 + |GuestInfo| properties in all. *)
Theorem C5_extra_configuration (w : World) (params : VirtualMachineCreationParams)
    (st st' : State) (cs : VirtualMachineConfigSpec) :
  createConfigSpec w params st = (Ok cs, st') ->
  (exists entries,
      entries ≡ₚ guestInfoEntries params /\
      ExtraConfig cs
        = ([ {| OptKey := "guestinfo.vmkite-buildkite-agent-token";
                OptValue := BuildkiteAgentToken params |};
             {| OptKey := "guestinfo.vmkite-name"; OptValue := Name params |};
             {| OptKey := "guestinfo.vmkite-vmdk"; OptValue := SrcDiskPath params |} ]
           ++ map (fun entry => {| OptKey := "guestinfo." ++ fst entry;
                                   OptValue := snd entry |}) entries
           ++ [ {| OptKey := "ethernet0.pciSlotNumber"; OptValue := "32" |} ])%list) /\
  countKey "ethernet0.pciSlotNumber" (ExtraConfig cs) = 1%nat /\
  length (ExtraConfig cs) = (4 + guestInfoSize params)%nat.
Proof.
  intros Hrun.
  destruct (createConfigSpec_Ok_inv w params st cs st' Hrun)
    as (backing & disk & entries & _ & _ & _ & Hperm & Hextra).
  split; [exists entries; split; [exact Hperm|exact Hextra]|].
  rewrite Hextra. split.
  - now rewrite !countKey_app, countKey_guestInfo.
  - rewrite !length_app, length_map, Hperm. cbn [length fixedExtraConfig].
    unfold guestInfoEntries, guestInfoSize.
    destruct (GuestInfo params) as [m|]; [rewrite length_map_to_list|cbn [length]]; lia.
Qed.

Lemma C5_extra_configuration_witness :
  exists cs st',
    createConfigSpec calmWorld sampleParams (connected calmWorld) = (Ok cs, st') /\
    length (ExtraConfig cs) = 5%nat.
Proof.
  destruct (createConfigSpec_performs calmWorld sampleParams (connected calmWorld)
              ready_connected_calmWorld) as (_ & Hsome & _).
  destruct (Hsome lookupsSucceed_calmWorld) as [cs Hcs].
  apply run_Ok in Hcs.
  eexists cs, _. split; [exact Hcs|].
  exact (proj2 (proj2 (C5_extra_configuration calmWorld sampleParams _ _ cs Hcs))).
Defined.

(** C6: on a device list without a SCSI controller [addDisk] never
    returns a device list: from a session that can produce a finder it
    returns an error, and when the finder and the datastore lookup
    succeed that error is the failed controller lookup, "no available
    SCSI controller".  Whenever [addDisk] does return a device list, it
    is the given list followed by one disk, and the controller key of
    that disk is the key of a SCSI controller of the given list. *)
Theorem C6_addDisk_needs_controller (w : World) (devices : VirtualDeviceList)
    (params : VirtualMachineCreationParams) (st : State) :
  (noSCSIController devices ->
     (forall ds st', addDisk w devices params st <> (Ok ds, st')) /\
     (ready st -> exists e, fst (addDisk w devices params st) = Err e) /\
     (forall f st1 datastore,
         getFinder w st = (Ok f, st1) ->
         FindDatastore w
           (trace st1 ++ [logLine "finder.Datastore(%s)" [ArgString (SrcDiskDataStore params)]])
           f (SrcDiskDataStore params) = inr datastore ->
         fst (addDisk w devices params st) = Err (errors_New "no available SCSI controller"))) /\
  (forall ds st',
      addDisk w devices params st = (Ok ds, st') ->
      exists t c disk,
        In (SCSIController t c) devices /\
        ds = (devices ++ [Disk disk])%list /\
        ControllerKey (diskDevice disk) = Key (controllerDevice (scsiController c))).
Proof.
  assert (Hinv : forall ds st',
             addDisk w devices params st = (Ok ds, st') ->
             exists c disk,
               PickSCSIController devices = Some c /\
               ds = (devices ++ [Disk disk])%list /\ attachedDisk c disk).
  { intros ds st' Hrun. destruct (ready_dec st) as [Hready|Hn].
    - destruct (addDisk_performs w devices params st Hready) as (_ & _ & HR).
      apply HR. now rewrite Hrun.
    - now destruct (addDisk_not_ready w devices params st ds st' Hn). }
  split.
  - intros Hnone. pose proof (PickSCSIController_none devices Hnone) as Hpick.
    split; [|split].
    + intros ds st' Hrun. destruct (Hinv ds st' Hrun) as (c & _ & Hc & _). congruence.
    + intros Hready. unfold addDisk, bind at 1.
      destruct (performs_getFinder w st Hready) as (Hready1 & _ & _).
      destruct (getFinder w st) as [[f|e|p] st1] eqn:Hg; cbn [fst snd] in *.
      * unfold bind, debugf, emit, call. cbn [sess trace].
        destruct (FindDatastore w _ f _); [eauto|].
        unfold liftR, FindDiskController_scsi. rewrite Hpick. eauto.
      * eauto.
      * destruct (ready_dec st) as [_|Hn]; [|contradiction].
        destruct (finder (sess st)) as [f0|] eqn:Hf.
        { rewrite (getFinder_cached w st f0 Hf) in Hg. discriminate. }
        destruct (client (sess st)) as [c|] eqn:Hc.
        { rewrite (getFinder_fresh w st c Hf Hc) in Hg.
          destruct (DefaultDatacenter w _ _); discriminate. }
        destruct Hready as [H|H]; congruence.
    + intros f st1 datastore Hg Hds. unfold addDisk.
      rewrite (bind_run_Ok _ _ _ _ _ Hg).
      unfold bind, debugf, emit, call. cbn [sess trace]. unfold logLine in Hds. rewrite Hds.
      unfold liftR, FindDiskController_scsi. now rewrite Hpick.
  - intros ds st' Hrun. destruct (Hinv ds st' Hrun) as (c & disk & Hc & -> & Hkey & _).
    destruct (PickSCSIController_Some devices c Hc) as [t Ht].
    exists t, c, disk. auto.
Qed.

Lemma C6_addDisk_needs_controller_witness :
  fst (addDisk calmWorld [EthernetCard Vmxnet3 (newEthernetCard
                                                 (VirtualEthernetCardNetworkBackingInfo "VM Network"))]
               sampleParams (connected calmWorld))
    = Err (errors_New "no available SCSI controller") /\
  exists ds st' disk,
    addDisk calmWorld [SCSIController LsiLogic newSCSIController] sampleParams
            (connected calmWorld) = (Ok ds, st') /\
    ds = [SCSIController LsiLogic newSCSIController; Disk disk] /\
    ControllerKey (diskDevice disk) = -201.
Proof.
  split.
  - destruct (C6_addDisk_needs_controller calmWorld
                [EthernetCard Vmxnet3 (newEthernetCard
                                         (VirtualEthernetCardNetworkBackingInfo "VM Network"))]
                sampleParams (connected calmWorld)) as [Hnone _].
    destruct Hnone as (_ & _ & Herr); [repeat constructor|].
    apply (Herr sampleFinder (cached calmWorld)
                {| DatastoreRef := ref "Datastore" "datastore-3"; Datastore_Name := "images" |});
      vm_compute; reflexivity.
  - destruct (C6_addDisk_needs_controller calmWorld
                [SCSIController LsiLogic newSCSIController]
                sampleParams (connected calmWorld)) as [_ Hsome].
    destruct (addDisk_performs calmWorld [SCSIController LsiLogic newSCSIController]
                sampleParams (connected calmWorld) ready_connected_calmWorld)
      as (_ & Hreturns & _).
    destruct Hreturns as [ds Hds].
    { split; [exact lookupsSucceed_calmWorld|].
      exists newSCSIController, 0. split; reflexivity. }
    apply run_Ok in Hds.
    destruct (Hsome ds _ Hds) as (t & c & disk & Hin & Heq & Hkey).
    eexists ds, _, disk. split; [exact Hds|]. split; [exact Heq|].
    destruct Hin as [Hin|[]]. inversion Hin; subst. exact Hkey.
Defined.

End VsphereProofs.


(** ** Package buildkite: further properties *)
Module BuildkiteMore.
Import gobuildkite Buildkite BuildkiteSpec BuildkiteMoreSpec.
Import BuildkiteProofs.

(** *** The decoder *)

Lemma ruleValues_app (key : string) (l1 l2 : list string) :
  ruleValues key (l1 ++ l2) = (ruleValues key l1 ++ ruleValues key l2)%list.
Proof. apply omap_app. Qed.

Lemma ruleValues_foreign (key : string) (rules : list string) :
  key = "vmkite-vmdk" \/ key = "vmkite-guestid" ->
  Forall foreign rules -> ruleValues key rules = [].
Proof.
  intros Hkey. induction 1 as [|r rules [Hv Hg] _ IH]; [reflexivity|].
  rewrite ruleValues_cons. destruct Hkey as [-> | ->]; [rewrite Hv|rewrite Hg]; exact IH.
Qed.

Lemma ruleValue_encoded (key key' value : string) :
  hasByte "=" key = false ->
  ruleValue key' (key ++ String "=" value)
    = if String.eqb key key' then Some value else None.
Proof. intros Hkey. unfold ruleValue. now rewrite (SplitN_2_app key value "=" Hkey). Qed.

Lemma metadata_eq (m1 m2 : VmkiteMetadata) :
  VMDK m1 = VMDK m2 -> GuestID m1 = GuestID m2 -> m1 = m2.
Proof. destruct m1, m2; cbn; congruence. Qed.

Lemma parse_fields (rules : list string) :
  VMDK (parseAgentQueryRules rules) = lastValue "vmkite-vmdk" rules /\
  GuestID (parseAgentQueryRules rules) = lastValue "vmkite-guestid" rules.
Proof. unfold parseAgentQueryRules, lastValue. apply fold_parseRule_fields. Qed.

(** X1: decoding inverts the encoding of an intent as two rules: the
    rules [vmkite-vmdk=v] and [vmkite-guestid=g], in this order and
    surrounded by any rules that give no value to either key, decode to
    the metadata with disk image [v] and guest identity [g], whatever
    bytes [v] and [g] contain. *)
Theorem X1_decode_encode (v g : string) (before middle after : list string) :
  Forall foreign before -> Forall foreign middle -> Forall foreign after ->
  parseAgentQueryRules
    (before ++ ("vmkite-vmdk" ++ String "=" v) :: middle
            ++ ("vmkite-guestid" ++ String "=" g) :: after)
    = {| VMDK := v; GuestID := g |}.
Proof.
  intros Hb Hm Ha.
  destruct (parse_fields (before ++ ("vmkite-vmdk" ++ String "=" v) :: middle
                                 ++ ("vmkite-guestid" ++ String "=" g) :: after))
    as [Hv Hg].
  apply metadata_eq; cbn [VMDK GuestID].
  - rewrite Hv. unfold lastValue.
    rewrite ruleValues_app, ruleValues_cons, ruleValues_app, ruleValues_cons.
    rewrite (ruleValue_encoded "vmkite-vmdk" "vmkite-vmdk" v eq_refl),
            (ruleValue_encoded "vmkite-guestid" "vmkite-vmdk" g eq_refl).
    rewrite !(ruleValues_foreign "vmkite-vmdk") by (assumption || now left).
    reflexivity.
  - rewrite Hg. unfold lastValue.
    rewrite ruleValues_app, ruleValues_cons, ruleValues_app, ruleValues_cons.
    rewrite (ruleValue_encoded "vmkite-vmdk" "vmkite-guestid" v eq_refl),
            (ruleValue_encoded "vmkite-guestid" "vmkite-guestid" g eq_refl).
    rewrite !(ruleValues_foreign "vmkite-guestid") by (assumption || now right).
    reflexivity.
Qed.

Lemma X1_decode_encode_witness :
  parseAgentQueryRules
    ["queue=mac"; "vmkite-vmdk=[ds] a=b.vmdk"; "vmkite-guestid=darwin19_64Guest"; "xcode"]
    = {| VMDK := "[ds] a=b.vmdk"; GuestID := "darwin19_64Guest" |}.
Proof.
  apply (X1_decode_encode "[ds] a=b.vmdk" "darwin19_64Guest" ["queue=mac"] [] ["xcode"]).
  - repeat constructor.
  - constructor.
  - repeat constructor.
Defined.

Lemma short_Permutation {A} (l l' : list A) :
  (length l <= 1)%nat -> l ≡ₚ l' -> l = l'.
Proof.
  destruct l as [|x [|y l]]; cbn [length]; intros Hlen Hperm; [| |lia].
  - now apply Permutation_nil_l in Hperm.
  - now apply Permutation_singleton_l in Hperm.
Qed.

(** X2: when each recognized key is given a value by at most one rule,
    the order of the rules does not matter: every permutation of the rule
    list decodes to the same metadata. *)
Theorem X2_order_irrelevant_without_duplicates (rules rules' : list string) :
  atMostOnce "vmkite-vmdk" rules -> atMostOnce "vmkite-guestid" rules ->
  rules ≡ₚ rules' ->
  parseAgentQueryRules rules' = parseAgentQueryRules rules.
Proof.
  intros Hv Hg Hperm.
  destruct (parse_fields rules) as [Hv1 Hg1]. destruct (parse_fields rules') as [Hv2 Hg2].
  apply metadata_eq.
  - rewrite Hv1, Hv2. unfold lastValue.
    now rewrite <- (short_Permutation _ (ruleValues "vmkite-vmdk" rules') Hv)
      by (unfold ruleValues; now rewrite Hperm).
  - rewrite Hg1, Hg2. unfold lastValue.
    now rewrite <- (short_Permutation _ (ruleValues "vmkite-guestid" rules') Hg)
      by (unfold ruleValues; now rewrite Hperm).
Qed.

Lemma X2_order_irrelevant_without_duplicates_witness :
  parseAgentQueryRules ["vmkite-guestid=g"; "queue=mac"; "vmkite-vmdk=d"]
    = parseAgentQueryRules ["vmkite-vmdk=d"; "vmkite-guestid=g"; "queue=mac"].
Proof.
  apply (X2_order_irrelevant_without_duplicates
           ["vmkite-vmdk=d"; "vmkite-guestid=g"; "queue=mac"]
           ["vmkite-guestid=g"; "queue=mac"; "vmkite-vmdk=d"]).
  - unfold atMostOnce. vm_compute. lia.
  - unfold atMostOnce. vm_compute. lia.
  - change ([ "vmkite-vmdk=d"; "vmkite-guestid=g"; "queue=mac" ]
              ≡ₚ ["vmkite-guestid=g"; "queue=mac"] ++ ["vmkite-vmdk=d"]).
    apply (Permutation_cons_append ["vmkite-guestid=g"; "queue=mac"] "vmkite-vmdk=d").
Defined.

(** *** Listing *)

Lemma appendBuildJobs_exact (build : Build) (bjobs : list Job) (jobs : list VmkiteJob) :
  Forall (fun job => complete (decode job) = true -> is_Some (vmkiteJobOf build job)) bjobs ->
  appendBuildJobs build bjobs jobs
    = Ok (jobs ++ omap (fun job => if complete (decode job)
                                   then vmkiteJobOf build job else None) bjobs)%list.
Proof.
  intros Hall. revert jobs.
  induction Hall as [|job rest Hjob _ IH]; intros jobs; [now rewrite app_nil_r|].
  cbn [appendBuildJobs omap list_omap].
  change (parseAgentQueryRules (AgentQueryRules job)) with (decode job).
  change (negb (String.eqb (GuestID (decode job)) "") &&
          negb (String.eqb (VMDK (decode job)) "")) with (complete (decode job)).
  destruct (complete (decode job)); [|apply IH].
  destruct (Hjob eq_refl) as [j Hj]. rewrite Hj.
  unfold vmkiteJobOf in Hj.
  destruct (JobID job) as [id|]; [|discriminate].
  destruct (Number build) as [number|]; [|discriminate].
  destruct (BuildPipeline build) as [pipeline|]; [|discriminate].
  destruct (Slug pipeline) as [slug|] eqn:Hslug; [|discriminate].
  inversion Hj; subst j. cbn [deref rbind]. rewrite Hslug. cbn [deref rbind].
  rewrite IH, <- app_assoc. reflexivity.
Qed.

Lemma appendBuilds_exact (builds : list Build) (jobs : list VmkiteJob) :
  Forall listable builds ->
  appendBuilds builds jobs = Ok (jobs ++ flat_map listedOf builds)%list.
Proof.
  intros Hall. revert jobs.
  induction Hall as [|build rest Hbuild _ IH]; intros jobs; [now rewrite app_nil_r|].
  cbn [appendBuilds flat_map]. rewrite (appendBuildJobs_exact build _ jobs Hbuild).
  cbn [rbind]. rewrite IH, <- app_assoc. reflexivity.
Qed.

(** X3: when the listing succeeds and every job with complete metadata
    has its identifier, build number and pipeline slug set, [VmkiteJobs]
    returns, build by build and job by job in the order of the listing,
    one job for each build job with complete metadata, carrying that job's
    identifier, the build number in decimal, the pipeline slug and the
    decoded metadata.  Jobs with incomplete metadata are skipped without
    reading their identifier. *)
Theorem X3_VmkiteJobs_lists_in_order (bk : Session) (builds : list Build) :
  Builds_ListByOrg (client bk) (Org bk) {| OptState := ["scheduled"; "running"] |} = Ok builds ->
  Forall listable builds ->
  snd (VmkiteJobs bk) = Ok (flat_map listedOf builds).
Proof.
  intros Hlist Hall. unfold VmkiteJobs. cbn [snd]. rewrite Hlist. cbn [rbind].
  now rewrite (appendBuilds_exact builds [] Hall).
Qed.

Lemma listable_sampleBuild : Forall listable [sampleBuild].
Proof.
  repeat constructor; intros H; try discriminate H. eexists; reflexivity.
Qed.

Lemma X3_VmkiteJobs_lists_in_order_witness :
  snd (VmkiteJobs sampleSession) = Ok [sampleVmkiteJob "j1"].
Proof.
  exact (X3_VmkiteJobs_lists_in_order sampleSession [sampleBuild] eq_refl listable_sampleBuild).
Defined.

(** *** Completion *)

Lemma scanJobs_true_inv (job : VmkiteJob) (bjobs : list Job) :
  scanJobs bjobs job = Ok true ->
  exists pre bj post state,
    bjobs = (pre ++ bj :: post)%list /\
    Forall (otherJob job) pre /\
    JobID bj = Some (ID job) /\
    State bj = Some state /\
    active state = false.
Proof.
  induction bjobs as [|buildJob rest IH]; cbn [scanJobs]; [discriminate|].
  destruct (JobID buildJob) as [id|] eqn:Hid; cbn [deref rbind]; [|discriminate].
  destruct (String.eqb id (ID job)) eqn:Heq.
  - apply String.eqb_eq in Heq. subst id.
    destruct (State buildJob) as [state|] eqn:Hstate; cbn [deref rbind]; [|discriminate].
    destruct (String.eqb state "scheduled" || String.eqb state "running") eqn:Hactive;
      [discriminate|].
    intros _. exists [], buildJob, rest, state. repeat split; auto.
  - intros H. destruct (IH H) as (pre & bj & post & state & -> & Hpre & Hbj & Hstate & Hact).
    exists (buildJob :: pre), bj, post, state. repeat split; auto.
    constructor; [|assumption]. exists id. split; [assumption|now apply String.eqb_neq].
Qed.

(** X4: [IsFinished] answers true only when the re-fetch succeeded and
    the first job of the re-fetched build that has the job's identifier
    is in a state other than scheduled and running; it never reports a job
    finished on a failed re-fetch or for an identifier the build lacks. *)
Theorem X4_IsFinished_true_only_if (bk : Session) (job : VmkiteJob) :
  snd (IsFinished bk job) = Ok true ->
  exists build pre bj post state,
    Builds_Get (client bk) (Org bk) (Pipeline job) (BuildNumber job) = Ok build /\
    Jobs build = (pre ++ bj :: post)%list /\
    Forall (otherJob job) pre /\
    JobID bj = Some (ID job) /\
    State bj = Some state /\
    state <> "scheduled" /\ state <> "running".
Proof.
  unfold IsFinished. cbn [snd]. intros H.
  apply rbind_Ok_inv in H as (build & Hget & Hscan).
  apply scanJobs_true_inv in Hscan
    as (pre & bj & post & state & Hjobs & Hpre & Hbj & Hstate & Hact).
  exists build, pre, bj, post, state.
  apply orb_false_iff in Hact as [H1 H2]. apply String.eqb_neq in H1, H2.
  repeat split; auto.
Qed.

Lemma X4_IsFinished_true_only_if_witness :
  snd (IsFinished sampleSession (sampleVmkiteJob "j2")) = Ok true /\
  exists build pre bj post state,
    Builds_Get (client sampleSession) (Org sampleSession)
               (Pipeline (sampleVmkiteJob "j2")) (BuildNumber (sampleVmkiteJob "j2")) = Ok build /\
    Jobs build = (pre ++ bj :: post)%list /\
    Forall (otherJob (sampleVmkiteJob "j2")) pre /\
    JobID bj = Some "j2" /\
    State bj = Some state /\
    state <> "scheduled" /\ state <> "running".
Proof.
  split; [reflexivity|].
  exact (X4_IsFinished_true_only_if sampleSession (sampleVmkiteJob "j2") eq_refl).
Defined.

Lemma scanJobs_returns (job : VmkiteJob) (bjobs : list Job) :
  Forall (fun bj => is_Some (JobID bj) /\ is_Some (State bj)) bjobs ->
  exists b, scanJobs bjobs job = Ok b.
Proof.
  induction 1 as [|bj rest [[id Hid] [state Hstate]] _ IH]; cbn [scanJobs]; [eauto|].
  rewrite Hid. cbn [deref rbind]. destruct (String.eqb id (ID job)); [|exact IH].
  rewrite Hstate. cbn [deref rbind]. destruct (_ || _); eauto.
Qed.

(** X5: [IsFinished] returns an error exactly when the re-fetch of the
    build fails, and then it is the error of the re-fetch: if the re-fetch
    succeeds with a build whose jobs all carry an identifier and a state,
    [IsFinished] returns an answer. *)
Theorem X5_IsFinished_error_is_refetch_error (bk : Session) (job : VmkiteJob) :
  (forall e,
      Builds_Get (client bk) (Org bk) (Pipeline job) (BuildNumber job) = Err e ->
      snd (IsFinished bk job) = Err e) /\
  (forall build,
      Builds_Get (client bk) (Org bk) (Pipeline job) (BuildNumber job) = Ok build ->
      Forall (fun bj => is_Some (JobID bj) /\ is_Some (State bj)) (Jobs build) ->
      exists b, snd (IsFinished bk job) = Ok b).
Proof.
  unfold IsFinished. cbn [snd]. split.
  - intros e ->. reflexivity.
  - intros build -> Hall. cbn [rbind]. now apply scanJobs_returns.
Qed.

Lemma X5_IsFinished_error_is_refetch_error_witness :
  exists b, snd (IsFinished sampleSession (sampleVmkiteJob "j9")) = Ok b.
Proof.
  apply (proj2 (X5_IsFinished_error_is_refetch_error sampleSession (sampleVmkiteJob "j9"))
               sampleBuild eq_refl).
  repeat constructor; eexists; reflexivity.
Defined.

Lemma NoDup_otherJob (job : VmkiteJob) (pre : list Job) (bj : Job) (post : list Job) :
  Forall (fun j => is_Some (JobID j)) (pre ++ bj :: post) ->
  NoDup (map JobID (pre ++ bj :: post)) ->
  JobID bj = Some (ID job) ->
  Forall (otherJob job) pre.
Proof.
  intros Hids Hnodup Hbj. apply List.Forall_forall. intros j Hj.
  apply Forall_app in Hids as [Hpre _].
  rewrite List.Forall_forall in Hpre. destruct (Hpre j Hj) as [id Hid].
  exists id. split; [assumption|]. intros ->.
  rewrite map_app in Hnodup. cbn [map] in Hnodup.
  apply NoDup_app in Hnodup as (_ & Hdisj & _).
  apply (Hdisj (JobID j)).
  - apply list_elem_of_In, in_map, Hj.
  - rewrite Hid, <- Hbj. left.
Qed.

(** X6: listing and completion compose.  Take a build whose jobs carry
    pairwise different identifiers, and the [VmkiteJob] made of one of its
    jobs.  If re-fetching by that job's pipeline and build number returns
    the build again, [IsFinished] answers from that very job: false while
    its state is scheduled or running, true otherwise. *)
Theorem X6_listed_job_is_tracked (bk : Session) (build : Build) (bj : Job)
    (job : VmkiteJob) (state : string) :
  In bj (Jobs build) ->
  vmkiteJobOf build bj = Some job ->
  identified build ->
  NoDup (map JobID (Jobs build)) ->
  State bj = Some state ->
  Builds_Get (client bk) (Org bk) (Pipeline job) (BuildNumber job) = Ok build ->
  snd (IsFinished bk job) = Ok (negb (active state)).
Proof.
  intros Hin Hjob Hids Hnodup Hstate Hget.
  assert (Hid : JobID bj = Some (ID job)).
  { unfold vmkiteJobOf in Hjob.
    destruct (JobID bj); [|discriminate]. destruct (Number build); [|discriminate].
    destruct (BuildPipeline build) as [pl|]; [|discriminate].
    destruct (Slug pl); [|discriminate]. now inversion Hjob. }
  apply in_split in Hin as (pre & post & Hjobs).
  unfold identified in Hids. rewrite Hjobs in Hids, Hnodup.
  pose proof (NoDup_otherJob job pre bj post Hids Hnodup Hid) as Hpre.
  unfold IsFinished. cbn [snd]. rewrite Hget. cbn [rbind]. rewrite Hjobs.
  rewrite (scanJobs_skip job pre _ Hpre). cbn [scanJobs].
  rewrite Hid. cbn [deref rbind]. rewrite String.eqb_refl, Hstate. cbn [deref rbind].
  unfold active. now destruct (_ || _).
Qed.

Lemma X6_listed_job_is_tracked_witness :
  snd (IsFinished sampleSession (sampleVmkiteJob "j1")) = Ok false.
Proof.
  apply (X6_listed_job_is_tracked sampleSession sampleBuild
           (sampleJob "j1" "scheduled"
              ["vmkite-vmdk=/images/macos.vmdk"; "vmkite-guestid=darwin19_64Guest";
               "other=ignored"])
           (sampleVmkiteJob "j1") "scheduled").
  - now left.
  - reflexivity.
  - repeat constructor; eexists; reflexivity.
  - cbn. apply NoDup_cons. split; [|apply NoDup_singleton].
    intros H. apply list_elem_of_singleton in H. discriminate.
  - reflexivity.
  - reflexivity.
Defined.

(** *** The earlier revision *)

Lemma vmdkFromAgentQueryRules_first (rules : list string) :
  BuildkiteEarlier.vmdkFromAgentQueryRules rules = firstValue "vmkite-vmdk" rules.
Proof.
  unfold firstValue. induction rules as [|r rules IH]; [reflexivity|].
  cbn [BuildkiteEarlier.vmdkFromAgentQueryRules]. rewrite ruleValues_cons. unfold ruleValue.
  destruct (SplitN r "=" 2) as [|key [|value [|x l]]]; try exact IH.
  destruct (String.eqb key "vmkite-vmdk"); [reflexivity|exact IH].
Qed.

(** X7: the earlier decoder returns the value of the first rule whose key
    is vmkite-vmdk, and the empty string when there is none: it stops at
    the first match, so on duplicate keys the first occurrence wins and
    nothing after it is read. *)
Theorem X7_earlier_decoder_first_wins (before after : list string) (v : string) :
  ruleValues "vmkite-vmdk" before = [] ->
  BuildkiteEarlier.vmdkFromAgentQueryRules (before ++ ("vmkite-vmdk" ++ String "=" v) :: after)
    = v /\
  BuildkiteEarlier.vmdkFromAgentQueryRules before = "".
Proof.
  intros Hbefore. rewrite !vmdkFromAgentQueryRules_first. unfold firstValue.
  rewrite ruleValues_app, ruleValues_cons, Hbefore.
  rewrite (ruleValue_encoded "vmkite-vmdk" "vmkite-vmdk" v eq_refl). split; reflexivity.
Qed.

Lemma X7_earlier_decoder_first_wins_witness :
  BuildkiteEarlier.vmdkFromAgentQueryRules
    ["queue=mac"; "vmkite-vmdk=a"; "vmkite-vmdk=b"] = "a".
Proof.
  exact (proj1 (X7_earlier_decoder_first_wins ["queue=mac"] ["vmkite-vmdk=b"] "a" eq_refl)).
Defined.

Lemma first_is_last (rules : list string) :
  atMostOnce "vmkite-vmdk" rules ->
  BuildkiteEarlier.vmdkFromAgentQueryRules rules = VMDK (parseAgentQueryRules rules).
Proof.
  intros Hone. rewrite vmdkFromAgentQueryRules_first, (proj1 (parse_fields rules)).
  unfold firstValue, lastValue. unfold atMostOnce in Hone.
  destruct (ruleValues "vmkite-vmdk" rules) as [|x [|y l]]; cbn [length] in Hone;
    [reflexivity|reflexivity|lia].
Qed.

(** X8: the two revisions decode the disk image alike on every rule list
    in which at most one rule gives vmkite-vmdk a value; they can differ
    only where the key is repeated, the earlier one keeping the first value
    and the later one the last. *)
Theorem X8_revisions_agree_without_duplicates (rules : list string) :
  atMostOnce "vmkite-vmdk" rules ->
  BuildkiteEarlier.vmdkFromAgentQueryRules rules = VMDK (parseAgentQueryRules rules).
Proof. apply first_is_last. Qed.

Lemma X8_revisions_agree_without_duplicates_witness :
  BuildkiteEarlier.vmdkFromAgentQueryRules ["vmkite-guestid=g"; "vmkite-vmdk=d"]
    = VMDK (parseAgentQueryRules ["vmkite-guestid=g"; "vmkite-vmdk=d"]).
Proof.
  apply X8_revisions_agree_without_duplicates. unfold atMostOnce. vm_compute. lia.
Defined.

Lemma earlier_appendBuildJobs_Ok (bjobs : list Job) (jobs out : list BuildkiteEarlier.VmkiteJob) :
  BuildkiteEarlier.appendBuildJobs bjobs jobs = Ok out ->
  exists new,
    out = (jobs ++ new)%list /\
    map BuildkiteEarlier.VMDK new
      = List.filter (fun vmdk => negb (String.eqb vmdk ""))
          (map (fun job => firstValue "vmkite-vmdk" (AgentQueryRules job)) bjobs).
Proof.
  revert jobs; induction bjobs as [|job rest IH]; intros jobs H.
  - inversion H; subst. exists []. now rewrite app_nil_r.
  - cbn [BuildkiteEarlier.appendBuildJobs] in H. cbn [map List.filter].
    rewrite vmdkFromAgentQueryRules_first in H.
    destruct (negb (String.eqb (firstValue "vmkite-vmdk" (AgentQueryRules job)) "")).
    + apply rbind_Ok_inv in H as (id & _ & H).
      apply IH in H as (new & -> & Hnew).
      eexists (_ :: new). rewrite <- app_assoc. split; [reflexivity|].
      cbn [map BuildkiteEarlier.VMDK]. now rewrite Hnew.
    + now apply IH.
Qed.

Lemma earlier_appendBuilds_Ok (builds : list Build) (jobs out : list BuildkiteEarlier.VmkiteJob) :
  BuildkiteEarlier.appendBuilds builds jobs = Ok out ->
  exists new,
    out = (jobs ++ new)%list /\
    map BuildkiteEarlier.VMDK new
      = List.filter (fun vmdk => negb (String.eqb vmdk ""))
          (map (fun job => firstValue "vmkite-vmdk" (AgentQueryRules job))
               (flat_map Jobs builds)).
Proof.
  revert jobs; induction builds as [|build rest IH]; intros jobs H.
  - inversion H; subst. exists []. now rewrite app_nil_r.
  - cbn [BuildkiteEarlier.appendBuilds] in H. apply rbind_Ok_inv in H as (mid & Hmid & H).
    apply earlier_appendBuildJobs_Ok in Hmid as (new1 & -> & Hnew1).
    apply IH in H as (new2 & -> & Hnew2).
    exists (new1 ++ new2)%list. rewrite <- app_assoc. split; [reflexivity|].
    cbn [flat_map]. now rewrite !map_app, List.filter_app, Hnew1, Hnew2.
Qed.

(** X9: the earlier [VmkiteJobs] refuses an empty API token before asking
    Buildkite anything: it returns the token error and logs nothing.  With
    a token, the jobs it returns are those whose rules give vmkite-vmdk a
    non-empty first value, in the order of the listing, each with that
    value as its disk image. *)
Theorem X9_earlier_VmkiteJobs (NewClient : TokenAuthTransport -> Client)
    (bk : BuildkiteEarlier.Session) :
  (BuildkiteEarlier.ApiToken bk = "" ->
     BuildkiteEarlier.VmkiteJobs NewClient bk
       = ([], Err (errors_New "Invalid token, empty string supplied"))) /\
  (forall jobs,
      snd (BuildkiteEarlier.VmkiteJobs NewClient bk) = Ok jobs ->
      BuildkiteEarlier.ApiToken bk <> "" /\
      Forall (fun j => BuildkiteEarlier.VMDK j <> "") jobs /\
      exists builds,
        Builds_ListByOrg
          (NewClient {| APIToken := BuildkiteEarlier.ApiToken bk; Debug := false |})
          (BuildkiteEarlier.Org bk) {| OptState := ["scheduled"; "running"] |} = Ok builds /\
        map BuildkiteEarlier.VMDK jobs
          = List.filter (fun vmdk => negb (String.eqb vmdk ""))
              (map (fun job => firstValue "vmkite-vmdk" (AgentQueryRules job))
                   (flat_map Jobs builds))).
Proof.
  unfold BuildkiteEarlier.VmkiteJobs, NewTokenConfig. split.
  - intros ->. reflexivity.
  - intros jobs. destruct (String.eqb (BuildkiteEarlier.ApiToken bk) "") eqn:Htoken;
      cbn [snd]; [discriminate|].
    intros H. apply String.eqb_neq in Htoken. split; [assumption|].
    apply rbind_Ok_inv in H as (builds & Hlist & H).
    apply earlier_appendBuilds_Ok in H as (new & -> & Hnew). cbn [app] in *.
    split; [|now exists builds].
    assert (Hall : Forall (fun vmdk => negb (String.eqb vmdk "") = true)
                          (map BuildkiteEarlier.VMDK new)).
    { rewrite Hnew. apply List.Forall_forall. intros m Hm.
      now apply List.filter_In in Hm. }
    clear Hnew. induction new as [|j new IH]; [constructor|].
    cbn [map] in Hall. inversion Hall; subst.
    constructor; [|now apply IH].
    now apply String.eqb_neq, negb_true_iff.
Qed.

Lemma X9_earlier_VmkiteJobs_witness :
  BuildkiteEarlier.VmkiteJobs sampleNewClient
    {| BuildkiteEarlier.ApiToken := ""; BuildkiteEarlier.Org := "acme" |}
    = ([], Err (errors_New "Invalid token, empty string supplied")) /\
  Forall (fun j => BuildkiteEarlier.VMDK j <> "")
         [ {| BuildkiteEarlier.ID := "j1"; BuildkiteEarlier.VMDK := "/images/macos.vmdk" |};
           {| BuildkiteEarlier.ID := "j2"; BuildkiteEarlier.VMDK := "/images/macos.vmdk" |} ].
Proof.
  split.
  - exact (proj1 (X9_earlier_VmkiteJobs sampleNewClient
                    {| BuildkiteEarlier.ApiToken := ""; BuildkiteEarlier.Org := "acme" |})
                 eq_refl).
  - exact (proj1 (proj2 (proj2 (X9_earlier_VmkiteJobs sampleNewClient
                    {| BuildkiteEarlier.ApiToken := "t0ken"; BuildkiteEarlier.Org := "acme" |})
                 _ eq_refl))).
Defined.

(** *** The two revisions side by side *)

Lemma joint_appendBuildJobs (build : Build) (bjobs : list Job)
    (later : list VmkiteJob) (earlier : list BuildkiteEarlier.VmkiteJob) :
  (exists n, Number build = Some n) ->
  (exists p slug, BuildPipeline build = Some p /\ Slug p = Some slug) ->
  Forall (fun job => exists id, JobID job = Some id) bjobs ->
  Forall (fun job => atMostOnce "vmkite-vmdk" (AgentQueryRules job)) bjobs ->
  map laterPair later `sublist_of` map earlierPair earlier ->
  exists later' earlier',
    appendBuildJobs build bjobs later = Ok later' /\
    BuildkiteEarlier.appendBuildJobs bjobs earlier = Ok earlier' /\
    map laterPair later' `sublist_of` map earlierPair earlier'.
Proof.
  intros [n Hn] (pl & slug & Hp & Hslug) Hids. revert later earlier.
  induction Hids as [|job rest [id Hid] _ IH]; intros later earlier Hone Hsub.
  - exists later, earlier. auto.
  - inversion Hone as [|? ? Hjob Hrest]; subst.
    cbn [appendBuildJobs BuildkiteEarlier.appendBuildJobs].
    rewrite (first_is_last _ Hjob).
    change (parseAgentQueryRules (AgentQueryRules job)) with (decode job).
    rewrite Hid, Hn, Hp. cbn [deref rbind]. rewrite Hslug. cbn [deref rbind].
    destruct (negb (String.eqb (VMDK (decode job)) "")) eqn:Hvmdk.
    + destruct (negb (String.eqb (GuestID (decode job)) "")); cbn [andb].
      * apply IH; [assumption|]. rewrite !map_app. now apply sublist_app.
      * apply IH; [assumption|]. rewrite map_app. now apply sublist_inserts_r.
    + rewrite andb_false_r. now apply IH.
Qed.

Lemma joint_appendBuilds (builds : list Build)
    (later : list VmkiteJob) (earlier : list BuildkiteEarlier.VmkiteJob) :
  Forall populated builds ->
  Forall (fun job => atMostOnce "vmkite-vmdk" (AgentQueryRules job)) (flat_map Jobs builds) ->
  map laterPair later `sublist_of` map earlierPair earlier ->
  exists later' earlier',
    appendBuilds builds later = Ok later' /\
    BuildkiteEarlier.appendBuilds builds earlier = Ok earlier' /\
    map laterPair later' `sublist_of` map earlierPair earlier'.
Proof.
  intros Hpop. revert later earlier.
  induction Hpop as [|build rest (Hn & Hp & Hids) _ IH]; intros later earlier Hone Hsub.
  - exists later, earlier. auto.
  - cbn [flat_map] in Hone. apply Forall_app in Hone as [Hhere Hrest].
    destruct (joint_appendBuildJobs build (Jobs build) later earlier Hn Hp Hids Hhere Hsub)
      as (later1 & earlier1 & HL & HE & Hsub1).
    cbn [appendBuilds BuildkiteEarlier.appendBuilds]. rewrite HL, HE. cbn [rbind].
    now apply IH.
Qed.

(** X19: the later revision lists no job that the earlier one would not.
    Take a token accepted by the later [NewSession], a listing whose
    builds and jobs have their pointers set, and rules that give
    vmkite-vmdk a value at most once per job.  Then both revisions return
    a list, and the identifiers with their disk images listed by the later
    one form a sublist, in order, of those listed by the earlier one: the
    later one only leaves out the jobs without a guest identity. *)
Theorem X19_later_lists_sublist_of_earlier (NewClient : TokenAuthTransport -> Client)
    (org apiToken : string) (bk : Session) (builds : list Build) :
  NewSession NewClient org apiToken = Ok bk ->
  Builds_ListByOrg (NewClient {| APIToken := apiToken; Debug := false |}) org
                   {| OptState := ["scheduled"; "running"] |} = Ok builds ->
  Forall populated builds ->
  Forall (fun job => atMostOnce "vmkite-vmdk" (AgentQueryRules job)) (flat_map Jobs builds) ->
  exists later earlier,
    snd (VmkiteJobs bk) = Ok later /\
    snd (BuildkiteEarlier.VmkiteJobs NewClient
           {| BuildkiteEarlier.ApiToken := apiToken; BuildkiteEarlier.Org := org |}) = Ok earlier /\
    map laterPair later `sublist_of` map earlierPair earlier.
Proof.
  intros Hnew Hlist Hpop Hone.
  unfold NewSession, NewTokenConfig in Hnew.
  unfold BuildkiteEarlier.VmkiteJobs, NewTokenConfig. cbn [BuildkiteEarlier.ApiToken].
  destruct (String.eqb apiToken ""); [discriminate|].
  cbn [rbind] in Hnew. inversion Hnew; subst bk. clear Hnew.
  unfold VmkiteJobs. cbn [snd Org client BuildkiteEarlier.Org]. rewrite Hlist. cbn [rbind].
  apply (joint_appendBuilds builds [] [] Hpop Hone). constructor.
Qed.

Lemma X19_later_lists_sublist_of_earlier_witness :
  exists later earlier,
    snd (VmkiteJobs {| Org := "acme";
                       client := sampleNewClient {| APIToken := "t0ken"; Debug := false |} |})
      = Ok later /\
    snd (BuildkiteEarlier.VmkiteJobs sampleNewClient
           {| BuildkiteEarlier.ApiToken := "t0ken"; BuildkiteEarlier.Org := "acme" |})
      = Ok earlier /\
    map laterPair later `sublist_of` map earlierPair earlier.
Proof.
  apply (X19_later_lists_sublist_of_earlier sampleNewClient "acme" "t0ken" _ [sampleBuild]).
  - reflexivity.
  - reflexivity.
  - constructor; [|constructor].
    split; [exists 17; reflexivity|].
    split; [eexists _, _; split; reflexivity|].
    repeat constructor; eexists; reflexivity.
  - repeat constructor; unfold atMostOnce; vm_compute; lia.
Defined.

End BuildkiteMore.


(** ** Package vsphere: further properties *)
Module VsphereMore.
Import types object Vsphere VsphereSpec VsphereMoreSpec.
Import VsphereProofs.

(** *** Invariants of the state *)

(** [I] survives every event but a resolution of the default
    datacenter. *)
Definition appendClosed (I : State -> Prop) : Prop :=
  forall st e, I st -> isResolve e = false ->
               I {| sess := sess st; trace := trace st ++ [e] |}.

Definition keeps {A} (I : State -> Prop) (m : M A) : Prop :=
  triple I m (fun _ st => I st).

Lemma keeps_ret {A} I (a : A) : keeps I (ret a).
Proof. intros st H. exact H. Qed.

Lemma keeps_liftR {A} I (r : result A) : keeps I (liftR r).
Proof. intros st H. exact H. Qed.

Lemma keeps_fail {A} I (e : error) : keeps I (@fail A e).
Proof. intros st H. exact H. Qed.

Lemma keeps_getSession I : keeps I getSession.
Proof. intros st H. exact H. Qed.

Lemma keeps_bind {A B} I (m : M A) (k : A -> M B) :
  keeps I m -> (forall a, keeps I (k a)) -> keeps I (bind m k).
Proof.
  intros Hm Hk. apply (triple_bind _ (fun _ st => I st) _ m k Hm); auto.
Qed.

Lemma keeps_debugf I format args : appendClosed I -> keeps I (debugf format args).
Proof. intros HI st H. cbn. now apply HI. Qed.

Lemma keeps_call {A} I (c : Call) (answer : list Event -> remote_error + A) :
  appendClosed I -> isResolve (Called c) = false -> keeps I (call c answer).
Proof.
  intros HI Hc st H. unfold call. destruct (answer (trace st)); cbn; now apply HI.
Qed.

Lemma keeps_try {A} I (m : M A) : keeps I m -> keeps I (try m).
Proof.
  intros Hm st H. specialize (Hm st H). unfold try.
  destruct (m st) as [[a|e|p] st1]; exact Hm.
Qed.

Lemma keeps_with_trace {A} I (m : list Event -> M A) :
  (forall h, keeps I (m h)) -> keeps I (fun st => m (trace st) st).
Proof. intros Hm st H. exact (Hm (trace st) st H). Qed.

Ltac keeps_steps HI HgF :=
  repeat first
    [ apply keeps_ret
    | apply keeps_liftR
    | apply keeps_fail
    | apply keeps_getSession
    | exact HgF
    | apply keeps_debugf; exact HI
    | apply keeps_call; [exact HI|reflexivity]
    | apply keeps_bind; [|intro] ].

Section Keeps.
Variable w : World.
Variable I : State -> Prop.

Lemma keeps_addEthernet devices label :
  appendClosed I -> keeps I (getFinder w) -> keeps I (addEthernet w devices label).
Proof.
  intros HI HgF. unfold addEthernet. keeps_steps HI HgF.
Qed.

Lemma keeps_addSCSI devices : keeps I (addSCSI devices).
Proof. unfold addSCSI. apply keeps_bind; [apply keeps_liftR|intro; apply keeps_ret]. Qed.

Lemma keeps_addDisk devices params :
  appendClosed I -> keeps I (getFinder w) -> keeps I (addDisk w devices params).
Proof.
  intros HI HgF. unfold addDisk. keeps_steps HI HgF.
  all: match goal with |- keeps _ (match ?d with _ => _ end) => destruct d as [[| |]|] end;
    keeps_steps HI HgF.
Qed.

Lemma keeps_appendGuestInfo entries extraConfig :
  appendClosed I -> keeps I (appendGuestInfo entries extraConfig).
Proof.
  intros HI. revert extraConfig; induction entries as [|[key val] rest IH]; intros extraConfig;
    cbn [appendGuestInfo]; [apply keeps_ret|].
  apply keeps_bind; [apply keeps_debugf; exact HI|intros _; apply IH].
Qed.

Lemma keeps_createConfigSpec params :
  appendClosed I -> keeps I (getFinder w) -> keeps I (createConfigSpec w params).
Proof.
  intros HI HgF. unfold createConfigSpec.
  apply keeps_bind; [now apply keeps_addEthernet|intros devices1].
  apply keeps_bind; [apply keeps_addSCSI|intros devices2].
  apply keeps_bind; [now apply keeps_addDisk|intros devices3].
  apply keeps_bind; [apply keeps_ret|intros devices4].
  apply keeps_bind; [apply keeps_liftR|intros deviceChange].
  apply keeps_bind.
  - destruct (GuestInfo params) as [guestInfo|]; [|apply keeps_ret].
    apply (keeps_with_trace I (fun h => appendGuestInfo (rangeOrder w h guestInfo) _)).
    intros h. now apply keeps_appendGuestInfo.
  - intros extraConfig. keeps_steps HI HgF.
Qed.

Lemma keeps_VirtualMachine path :
  appendClosed I -> keeps I (getFinder w) -> keeps I (VirtualMachine_ w path).
Proof. intros HI HgF. unfold VirtualMachine_. keeps_steps HI HgF. Qed.

Lemma keeps_vmFolder : appendClosed I -> keeps I (vmFolder w).
Proof.
  intros HI. unfold vmFolder. apply keeps_bind; [apply keeps_getSession|intros vs].
  destruct (datacenter vs); [|apply keeps_fail].
  apply keeps_bind; [apply keeps_call; [exact HI|reflexivity]|intro; apply keeps_ret].
Qed.

Lemma keeps_CreateVM params :
  appendClosed I -> keeps I (getFinder w) -> keeps I (CreateVM w params).
Proof.
  intros HI HgF. unfold CreateVM.
  apply keeps_bind; [exact HgF|intros finder].
  apply keeps_bind; [now apply keeps_vmFolder|intros folder].
  repeat first
    [ apply keeps_ret
    | apply keeps_debugf; exact HI
    | apply keeps_call; [exact HI|reflexivity]
    | now apply keeps_createConfigSpec
    | now apply keeps_VirtualMachine
    | apply keeps_bind; [|intro] ].
Qed.

Lemma keeps_login cp : appendClosed I -> keeps I (login w cp).
Proof. intros HI. unfold login. keeps_steps HI HI. Qed.

Lemma keeps_keepAliveHandler cp : appendClosed I -> keeps I (keepAliveHandler w cp).
Proof.
  intros HI. unfold keepAliveHandler.
  apply keeps_bind; [apply keeps_try, keeps_call; [exact HI|reflexivity]|intros [err|[]]];
    [|apply keeps_ret].
  apply keeps_bind; [apply keeps_debugf; exact HI|intros _].
  apply keeps_bind; [|intros _; apply keeps_ret].
  destruct (isNotAuthenticated err); [|apply keeps_ret].
  apply keeps_bind; [apply keeps_try; now apply keeps_login|intros [err'|[]]];
    apply keeps_debugf; exact HI.
Qed.

End Keeps.

(** *** The cached finder *)

Lemma scoped_appendClosed : appendClosed (fun st => scoped (sess st)).
Proof. intros st e H _. exact H. Qed.

Lemma getFinder_keeps_scoped (w : World) : keeps (fun st => scoped (sess st)) (getFinder w).
Proof.
  intros st H. destruct (finder (sess st)) as [f0|] eqn:Hf.
  - now rewrite (getFinder_cached w st f0 Hf).
  - destruct (client (sess st)) as [c|] eqn:Hc.
    + rewrite (getFinder_fresh w st c Hf Hc). cbn zeta.
      destruct (DefaultDatacenter w _ _) as [e|dc]; cbn [snd sess]; [exact H|].
      intros f Hf'. cbn [finder] in Hf'. inversion Hf'; subst f.
      exists c, dc. auto.
    + destruct (getFinder_not_ready w st) as [st1 Hp].
      { intros [Hr|Hr]; congruence. }
      unfold getFinder, bind, getSession. rewrite Hf.
      unfold debugf, emit, liftR. cbn [sess trace]. rewrite Hc. exact H.
Qed.

(** X10: in every state a caller can bring a session to, a cached
    finder is the finder made on the session's own client and scoped to
    the session's cached datacenter; in particular a session with a finder
    has a client and a datacenter. *)
Theorem X10_cached_finder_is_scoped (w : World) (st : State) :
  reachable w st -> scoped (sess st).
Proof.
  induction 1 as [history cp|st cp _ IH|st path _ IH|st params _ IH|st events _ IH].
  - intros f Hf. now rewrite NewSession_no_finder in Hf.
  - exact (keeps_keepAliveHandler w _ cp scoped_appendClosed st IH).
  - exact (keeps_VirtualMachine w _ path scoped_appendClosed (getFinder_keeps_scoped w) st IH).
  - exact (keeps_CreateVM w _ params scoped_appendClosed (getFinder_keeps_scoped w) st IH).
  - exact IH.
Qed.

Lemma X10_cached_finder_is_scoped_witness :
  scoped (sess (snd (CreateVM calmWorld sampleParams (connected calmWorld)))) /\
  finder (sess (snd (CreateVM calmWorld sampleParams (connected calmWorld))))
    = Some sampleFinder.
Proof.
  split; [|vm_compute; reflexivity].
  apply (X10_cached_finder_is_scoped calmWorld).
  apply reach_CreateVM. unfold connected. apply reach_NewSession.
Defined.

Lemma resolutions_snoc (events : list Event) (e : Event) :
  isResolve e = false -> resolutions (events ++ [e]) = resolutions events.
Proof.
  intros He. unfold resolutions. rewrite List.filter_app, length_app. cbn [List.filter].
  rewrite He. cbn [length]. lia.
Qed.

Lemma unchangedSince_appendClosed st0 : appendClosed (unchangedSince st0).
Proof.
  intros st e [Hs Hr] He. split; [exact Hs|]. cbn [trace]. now rewrite resolutions_snoc.
Qed.

Lemma getFinder_keeps_unchangedSince (w : World) st0 f :
  finder (sess st0) = Some f -> keeps (unchangedSince st0) (getFinder w).
Proof.
  intros Hf st [Hs Hr]. rewrite (getFinder_cached w st f); [now split|]. now rewrite Hs.
Qed.

(** X11: the topology cache is filled once.  On a session that has a
    cached finder, [createConfigSpec], [VirtualMachine], [CreateVM] and
    the keepalive handler leave every session field as it was and do not
    resolve the default datacenter again, whatever the control plane
    answers. *)
Theorem X11_cache_is_filled_once (w : World) (st : State) (f : Finder)
    (params : VirtualMachineCreationParams) (path : string) (cp : ConnectionParams) :
  finder (sess st) = Some f ->
  unchangedSince st (snd (createConfigSpec w params st)) /\
  unchangedSince st (snd (VirtualMachine_ w path st)) /\
  unchangedSince st (snd (CreateVM w params st)) /\
  unchangedSince st (snd (keepAliveHandler w cp st)).
Proof.
  intros Hf.
  pose proof (unchangedSince_appendClosed st) as HI.
  pose proof (getFinder_keeps_unchangedSince w st f Hf) as HgF.
  assert (H0 : unchangedSince st st) by now split.
  split; [exact (keeps_createConfigSpec w _ params HI HgF st H0)|].
  split; [exact (keeps_VirtualMachine w _ path HI HgF st H0)|].
  split; [exact (keeps_CreateVM w _ params HI HgF st H0)|].
  exact (keeps_keepAliveHandler w _ cp HI st H0).
Qed.

Lemma X11_cache_is_filled_once_witness :
  sess (snd (CreateVM calmWorld sampleParams (cached calmWorld))) = sess (cached calmWorld) /\
  resolutions (trace (snd (CreateVM calmWorld sampleParams (cached calmWorld)))) = 1%nat.
Proof.
  destruct (X11_cache_is_filled_once calmWorld (cached calmWorld) sampleFinder sampleParams
              "/dc/vm/vmkite-1" sampleConnection eq_refl) as (_ & _ & [Hs Hr] & _).
  split; [exact Hs|]. rewrite Hr. reflexivity.
Defined.

(** *** Outcomes

    From a ready state, [m] ends in a ready state; it returns a value
    whenever [S] holds; and its outcome is a value satisfying [R] or an
    error reported by the control plane. *)

Definition runs {A} (S : Prop) (m : M A) (R : A -> Prop) : Prop :=
  triple ready m
    (fun r st => ready st /\ (S -> exists a, r = Ok a) /\
                 ((exists a, r = Ok a /\ R a) \/ exists e, r = Err (Remote e))).

Lemma runs_bind {A B} (S : Prop) (m : M A) (k : A -> M B) (R1 : A -> Prop) (R : B -> Prop) :
  runs S m R1 -> (forall a, R1 a -> runs S (k a) R) -> runs S (bind m k) R.
Proof.
  intros Hm Hk st Hst. destruct (Hm st Hst) as (Hready & Hsome & Hout). unfold bind.
  destruct (m st) as [[a|e|p] st1]; cbn [fst snd] in *.
  - destruct Hout as [(a' & Ha & HR)|(e & He)]; [|discriminate].
    inversion Ha; subst a'. apply (Hk a HR st1 Hready).
  - split; [assumption|]. split.
    + intros HS. destruct (Hsome HS) as [a Ha]. discriminate.
    + destruct Hout as [(a' & Ha & _)|(e' & He)]; [discriminate|].
      right. exists e'. congruence.
  - destruct Hout as [(a' & Ha & _)|(e' & He)]; discriminate.
Qed.

Lemma runs_weaken {A} (S S' : Prop) (m : M A) (R R' : A -> Prop) :
  runs S m R -> (S' -> S) -> (forall a, R a -> R' a) -> runs S' m R'.
Proof.
  intros Hm HS HR st Hst. destruct (Hm st Hst) as (Hready & Hsome & Hout).
  split; [assumption|]. split; [auto|].
  destruct Hout as [(a & Ha & Hra)|He]; [left; eauto|now right].
Qed.

Lemma runs_ret {A} (S : Prop) (a : A) (R : A -> Prop) : R a -> runs S (ret a) R.
Proof. intros HR st Hst. cbn. split; [assumption|]. split; [eauto|left; eauto]. Qed.

Lemma runs_Ok {A} (S : Prop) (r : result A) (a : A) (R : A -> Prop) :
  r = Ok a -> R a -> runs S (liftR r) R.
Proof. intros -> HR. now apply runs_ret. Qed.

Lemma runs_bind_Ok {A B} (S : Prop) (a : A) (k : A -> M B) (R : B -> Prop) :
  runs S (k a) R -> runs S (bind (liftR (Ok a)) k) R.
Proof. intros H st Hst. exact (H st Hst). Qed.

Lemma runs_debugf (S : Prop) format args : runs S (debugf format args) (fun _ => True).
Proof. intros st Hst. cbn. split; [assumption|]. split; [eauto|left; eauto]. Qed.

Lemma runs_call {A} (S : Prop) (c : Call) (answer : list Event -> remote_error + A) :
  (S -> forall h, exists a, answer h = inr a) ->
  runs S (call c answer) (fun a => exists h, answer h = inr a).
Proof.
  intros Hans st Hst. unfold call.
  destruct (answer (trace st)) as [e|a] eqn:Ha; cbn; (split; [assumption|]); split.
  - intros HS. destruct (Hans HS (trace st)) as [a Ha']. congruence.
  - right. eauto.
  - eauto.
  - left. eauto.
Qed.

Lemma runs_with_trace {A} (S : Prop) (m : list Event -> M A) (R : A -> Prop) :
  (forall h, runs S (m h) R) -> runs S (fun st => m (trace st) st) R.
Proof. intros Hm st Hst. exact (Hm (trace st) st Hst). Qed.

Lemma runs_getFinder (w : World) : runs (lookupsSucceed w) (getFinder w) (fun _ => True).
Proof.
  intros st Hst. destruct (performs_getFinder w st Hst) as (Hready & Hsome & _).
  split; [assumption|]. split; [assumption|].
  destruct (finder (sess st)) as [f0|] eqn:Hf.
  - rewrite (getFinder_cached w st f0 Hf). left. eauto.
  - destruct (client (sess st)) as [c|] eqn:Hc.
    + rewrite (getFinder_fresh w st c Hf Hc). cbn zeta.
      destruct (DefaultDatacenter w _ _) as [e|dc]; cbn [fst]; [right|left]; eauto.
    + destruct Hst as [H|H]; congruence.
Qed.

Lemma Ext_vmdk (name : string) : Ext (name ++ ".vmdk") = ".vmdk".
Proof.
  induction name as [|c name IH]; [reflexivity|].
  change (String c name ++ ".vmdk") with (String c (name ++ ".vmdk")). cbn [Ext].
  assert (H : hasDotOrSeparator (name ++ ".vmdk") = true).
  { clear IH. induction name as [|c' name IH]; [reflexivity|].
    change (String c' name ++ ".vmdk") with (String c' (name ++ ".vmdk")).
    cbn [hasDotOrSeparator]. rewrite IH. now rewrite !orb_true_r. }
  now rewrite H.
Qed.

Lemma CreateDisk_built backing ds name :
  CreateDisk [EthernetCard Vmxnet3 (newEthernetCard backing);
              SCSIController LsiLogic newSCSIController] newSCSIController ds name
    = Ok {| diskDevice :=
              {| Key := -1;
                 Backing := Some (DiskFlatVer2
                                    (mkFlatVer2 (vmdkName name) (Some ds) "persistent"
                                                (Some true) None));
                 ControllerKey := -201;
                 UnitNumber := Some 0 |};
            CapacityInKB := 0 |}.
Proof. reflexivity. Qed.

Section Runs.
Variable w : World.

Lemma runs_addEthernet devices label :
  runs (lookupsSucceed w) (addEthernet w devices label)
    (fun ds => exists network backing hN hB fN,
         FindNetwork w hN fN ("*" ++ label) = inr network /\
         EthernetCardBackingInfo w hB network = inr backing /\
         ds = (devices ++ [EthernetCard Vmxnet3 (newEthernetCard backing)])%list).
Proof.
  unfold addEthernet.
  eapply runs_bind; [apply runs_getFinder|intros finder _]. cbn zeta.
  eapply runs_bind; [apply runs_debugf|intros _ _].
  eapply runs_bind;
    [apply runs_call; intros (_ & Hnet & _) h; apply Hnet|intros network [hN HN]].
  eapply runs_bind;
    [apply runs_call; intros (_ & _ & Hback & _) h; apply Hback|intros backing [hB HB]].
  rewrite CreateEthernetCard_vmxnet3. apply runs_bind_Ok.
  apply runs_ret. exists network, backing, hN, hB, finder. auto.
Qed.

Lemma runs_addSCSI (S : Prop) devices :
  runs S (addSCSI devices)
    (fun ds => ds = (devices ++ [SCSIController LsiLogic newSCSIController])%list).
Proof.
  unfold addSCSI. rewrite CreateSCSIController_scsi. apply runs_bind_Ok. now apply runs_ret.
Qed.

Lemma runs_addDisk backing params :
  let devices := [EthernetCard Vmxnet3 (newEthernetCard backing);
                  SCSIController LsiLogic newSCSIController] in
  runs (lookupsSucceed w) (addDisk w devices params)
    (fun ds => exists src hS fS,
         FindDatastore w hS fS (SrcDiskDataStore params) = inr src /\
         ds = (devices ++ [Disk (builtDisk src params)])%list).
Proof.
  intros devices. unfold addDisk.
  eapply runs_bind; [apply runs_getFinder|intros finder _].
  eapply runs_bind; [apply runs_debugf|intros _ _].
  eapply runs_bind;
    [apply runs_call; intros (_ & _ & _ & Hds) h; apply Hds|intros src [hS HS]].
  change (FindDiskController_scsi devices) with (Ok newSCSIController).
  apply runs_bind_Ok. subst devices. rewrite CreateDisk_built.
  apply runs_bind_Ok. apply runs_ret. exists src, hS, finder. split; [exact HS|reflexivity].
Qed.

Lemma runs_addUSB (S : Prop) devices :
  runs S (addUSB devices)
    (fun ds => ds = (devices ++ [USBController newUSBController])%list).
Proof. unfold addUSB. now apply runs_ret. Qed.

Lemma runs_appendGuestInfo (S : Prop) entries extraConfig :
  runs S (appendGuestInfo entries extraConfig)
    (fun out => out = (extraConfig ++ map guestInfoOption entries)%list).
Proof.
  revert extraConfig; induction entries as [|[key val] rest IH]; intros extraConfig;
    cbn [appendGuestInfo].
  - apply runs_ret. now rewrite app_nil_r.
  - eapply runs_bind; [apply runs_debugf|intros _ _].
    eapply runs_weaken; [apply IH|tauto|].
    intros out ->. rewrite <- app_assoc. reflexivity.
Qed.

Lemma attachedDisk_builtDisk src params : attachedDisk newSCSIController (builtDisk src params).
Proof. split; [reflexivity|]. eexists. split; [reflexivity|]. split; reflexivity. Qed.

Lemma runs_createConfigSpec params :
  runs (lookupsSucceed w) (createConfigSpec w params)
    (fun cs => builtFor params cs /\ sourcedFor w params cs).
Proof.
  unfold createConfigSpec.
  eapply runs_bind; [apply runs_addEthernet|].
  intros devices1 (network & backing & hN & hB & fN & HN & HB & ->).
  eapply runs_bind; [apply runs_addSCSI|intros devices2 ->].
  cbn [app].
  eapply runs_bind; [apply runs_addDisk|].
  intros devices3 (src & hS & fS & HS & ->). cbn [app].
  eapply runs_bind; [apply runs_addUSB|intros devices4 ->].
  cbn [app].
  change (ConfigSpec_add [EthernetCard Vmxnet3 (newEthernetCard backing);
                          SCSIController LsiLogic newSCSIController;
                          Disk (builtDisk src params);
                          USBController newUSBController])
    with (ConfigSpec_add (builtDevices backing (builtDisk src params))).
  destruct (ConfigSpec_add_Ok_inv (builtDevices backing (builtDisk src params))
              _ eq_refl) as [Hdevices Hadd].
  unfold ConfigSpec_add at 1. apply runs_bind_Ok.
  cbn zeta.
  eapply runs_bind.
  { instantiate (1 := fun extraConfig =>
                        exists entries,
                          entries ≡ₚ guestInfoEntries params /\
                          extraConfig
                            = (fixedExtraConfig params ++ map guestInfoOption entries)%list).
    unfold guestInfoEntries.
    destruct (GuestInfo params) as [guestInfo|].
    - apply (runs_with_trace _
               (fun h => appendGuestInfo (rangeOrder w h guestInfo) (fixedExtraConfig params))).
      intros h.
      eapply runs_weaken;
        [apply (runs_appendGuestInfo (lookupsSucceed w))|intros Hw; exact Hw|].
      intros out ->. exists (rangeOrder w h guestInfo). split; [apply rangeOrder_perm|reflexivity].
    - apply runs_ret. exists []. split; [reflexivity|]. now rewrite app_nil_r. }
  intros extraConfig (entries & Hperm & ->).
  eapply runs_bind; [apply runs_getFinder|intros finder _].
  eapply runs_bind; [apply runs_debugf|intros _ _].
  eapply runs_bind;
    [apply runs_call; intros (_ & _ & _ & Hds) h; apply Hds|intros ds [hD HD]].
  apply runs_ret. split.
  - exists backing, (builtDisk src params), entries. cbn [DeviceChange ExtraConfig].
    split; [exact Hdevices|]. split; [exact Hadd|].
    split; [apply attachedDisk_builtDisk|].
    split; [exact Hperm|]. now rewrite <- app_assoc.
  - exists network, backing, src, ds, hN, hB, hS, hD, fN, fS, finder.
    cbn [DeviceChange]. repeat split; auto.
Qed.

Lemma runs_VirtualMachine path :
  runs (allSucceed w) (VirtualMachine_ w path)
    (fun vm => exists hV fV,
         FindVirtualMachine w hV fV path = inr (mo vm) /\
         VMName vm = object.VMName (mo vm)).
Proof.
  unfold VirtualMachine_.
  eapply runs_bind;
    [apply (runs_weaken _ _ _ _ (fun _ => True) (runs_getFinder w)); [now intros [H _]|auto]
    |intros finder _].
  eapply runs_bind; [apply runs_debugf|intros _ _].
  eapply runs_bind;
    [apply runs_call; intros (_ & _ & _ & _ & _ & _ & Hvm) h; apply Hvm|intros vm [hV HV]].
  apply runs_ret. exists hV, finder. split; [exact HV|reflexivity].
Qed.

End Runs.

(** *** CreateVM *)

(** [CreateVM] once the finder and the folder are at hand. *)
Lemma CreateVM_tail_runs (w : World) params finder folder :
  runs (allSucceed w)
    (debugf "finder.ClusterComputeResource(%s)" [ArgString (ClusterPath params)] ;;;
     cluster <- call (Call_ClusterComputeResource finder (ClusterPath params))
                     (fun h => FindClusterComputeResource w h finder (ClusterPath params)) ;;
     debugf "cluster.ResourcePool()" [] ;;;
     resourcePool <- call (Call_ResourcePool cluster) (fun h => ClusterResourcePool w h cluster) ;;
     configSpec <- createConfigSpec w params ;;
     debugf "folder.CreateVM %s on %s" [ArgString (Name params); ArgObject] ;;;
     task <- call (Call_CreateVM folder configSpec resourcePool)
                  (fun h => Folder_CreateVM w h folder configSpec resourcePool) ;;
     debugf "waiting for CreateVM %v" [ArgObject] ;;;
     call (Call_TaskWait task) (fun h => Task_Wait w h task) ;;;
     vm <- VirtualMachine_ w (InventoryPath folder ++ "/" ++ Name params) ;;
     ret vm)
    (fun vm => exists cluster pool cs task hC hP hS hW hV fV,
         FindClusterComputeResource w hC finder (ClusterPath params) = inr cluster /\
         ClusterResourcePool w hP cluster = inr pool /\
         builtFor params cs /\
         types.Name cs = Name params /\
         Folder_CreateVM w hS folder cs pool = inr task /\
         Task_Wait w hW task = inr tt /\
         FindVirtualMachine w hV fV (InventoryPath folder ++ "/" ++ Name params) = inr (mo vm) /\
         VMName vm = object.VMName (mo vm)).
Proof.
  eapply runs_bind; [apply runs_debugf|intros _ _].
  eapply runs_bind;
    [apply runs_call; intros (_ & _ & Hc & _) h; apply Hc|intros cluster [hC HC]].
  eapply runs_bind; [apply runs_debugf|intros _ _].
  eapply runs_bind;
    [apply runs_call; intros (_ & _ & _ & Hp & _) h; apply Hp|intros pool [hP HP]].
  eapply runs_bind.
  { eapply runs_weaken; [apply runs_createConfigSpec|now intros [H _]|intros cs Hcs; exact Hcs]. }
  intros cs [Hbuilt (? & ? & ? & ? & ? & ? & ? & ? & ? & ? & ? & _ & _ & _ & _ & _ & Hconf)].
  eapply runs_bind; [apply runs_debugf|intros _ _].
  eapply runs_bind;
    [apply runs_call; intros (_ & _ & _ & _ & Hs & _) h; apply Hs|intros task [hS HS]].
  eapply runs_bind; [apply runs_debugf|intros _ _].
  eapply runs_bind.
  { apply runs_call. intros (_ & _ & _ & _ & _ & Hw & _) h. exists tt. apply Hw. }
  intros [] [hW HW].
  eapply runs_bind; [apply runs_VirtualMachine|intros vm (hV & fV & HV & Hname)].
  apply runs_ret.
  exists cluster, pool, cs, task, hC, hP, hS, hW, hV, fV.
  destruct Hconf as (_ & _ & Hn & _). repeat split; auto.
Qed.

(** [CreateVM] from a ready session that caches finder and datacenter
    together. *)
Lemma CreateVM_outcome (w : World) params st :
  ready st -> cachedTogether (sess st) ->
  ready (snd (CreateVM w params st)) /\
  (allSucceed w -> exists vm, fst (CreateVM w params st) = Ok vm) /\
  ((exists vm, fst (CreateVM w params st) = Ok vm /\ createdFor w params vm) \/
   exists e, fst (CreateVM w params st) = Err (Remote e)).
Proof.
  intros Hready Hwf. unfold CreateVM.
  destruct (runs_getFinder w st Hready) as (Hready1 & Hsome1 & Hout1).
  destruct (getFinder w st) as [[finder|e|p] st1] eqn:Hg; cbn [fst snd] in *.
  - destruct (getFinder_Ok_inv w st finder st1 Hwf Hg) as [_ [dc Hdc]].
    rewrite !(bind_run_Ok _ _ _ _ _ Hg).
    pose proof (vmFolder_loaded w st1 dc Hdc) as Hfolder.
    destruct (Folders w (trace st1) dc) as [e|folders] eqn:HF.
    + rewrite !(bind_run_Err _ _ _ _ _ Hfolder). cbn [fst snd].
      split; [exact Hready1|]. split; [|right; eauto].
      intros (_ & Hfolders & _). destruct (Hfolders (trace st1) dc) as [x Hx]. congruence.
    + rewrite !(bind_run_Ok _ _ _ _ _ Hfolder).
      destruct (CreateVM_tail_runs w params finder (VmFolder folders)
                  {| sess := sess st1; trace := trace st1 ++ [Called (Call_Folders dc)] |}
                  Hready1) as (Hready2 & Hsome2 & Hout2).
      split; [exact Hready2|]. split; [exact Hsome2|].
      destruct Hout2 as [(vm & Hvm & Hcreated)|He]; [left|now right].
      exists vm. split; [exact Hvm|].
      destruct Hcreated as (cluster & pool & cs & task & hC & hP & hS & hW & hV & fV & H).
      exists dc, folders, cluster, pool, cs, task, (trace st1), hC, hP, hS, hW, hV, finder, fV.
      split; [exact HF|exact H].
  - rewrite !(bind_run_Err _ _ _ _ _ Hg). cbn [fst snd].
    split; [exact Hready1|]. split.
    + intros (Hl & _). destruct (Hsome1 Hl) as [a Ha]. discriminate.
    + destruct Hout1 as [(a & Ha & _)|(e' & He)]; [discriminate|]. right. exists e'. congruence.
  - destruct Hout1 as [(a & Ha & _)|(e' & He)]; discriminate.
Qed.

(** Sessions whose [NewSession] succeeded stay ready. *)
Lemma ready_appendClosed : appendClosed ready.
Proof. intros st e H _. exact H. Qed.

Lemma getFinder_keeps_ready (w : World) : keeps ready (getFinder w).
Proof. intros st H. exact (proj1 (performs_getFinder w st H)). Qed.

Lemma NewSession_Ok_client (w : World) history cp :
  fst (NewSession w history cp) = Ok tt ->
  client (sess (snd (NewSession w history cp))) = Some (clientFor cp).
Proof.
  unfold NewSession, connect. destruct (url_Parse w _); [discriminate|].
  unfold bind, call. cbn [sess trace].
  destruct (vim25_NewClient w _ _ _); [discriminate|].
  unfold getSession, putSession, login, bind, getSession, liftR, call. cbn [sess trace client deref].
  destruct (Login w _ _ _); [discriminate|]. reflexivity.
Qed.

Lemma live_ready (w : World) st : live w st -> ready st.
Proof.
  induction 1 as [history cp Hok|st cp _ IH|st path _ IH|st params _ IH|st events _ IH].
  - right. rewrite (NewSession_Ok_client w history cp Hok). discriminate.
  - exact (keeps_keepAliveHandler w _ cp ready_appendClosed st IH).
  - exact (keeps_VirtualMachine w _ path ready_appendClosed (getFinder_keeps_ready w) st IH).
  - exact (keeps_CreateVM w _ params ready_appendClosed (getFinder_keeps_ready w) st IH).
  - exact IH.
Qed.

Lemma live_reachable (w : World) st : live w st -> reachable w st.
Proof. induction 1; now constructor. Qed.

Lemma outcome_valueOrRemoteError {A} (r : result A) (R : A -> Prop) :
  (exists a, r = Ok a /\ R a) \/ (exists e, r = Err (Remote e)) -> valueOrRemoteError r.
Proof. intros [(a & Ha & _)|He]; [left; eauto|now right]. Qed.

(** X12: on a session whose [NewSession] returned without error,
    whatever has been done with it since, [CreateVM], [VirtualMachine]
    and [createConfigSpec] never panic and never fail with an error of
    their own making: each returns a value or an error reported by a
    remote call.  In particular the controller lookup and the type
    assertions of the device steps cannot fail there. *)
Theorem X12_live_session_fails_only_remotely (w : World) (st : State)
    (params : VirtualMachineCreationParams) (path : string) :
  live w st ->
  valueOrRemoteError (fst (CreateVM w params st)) /\
  valueOrRemoteError (fst (VirtualMachine_ w path st)) /\
  valueOrRemoteError (fst (createConfigSpec w params st)).
Proof.
  intros Hlive. pose proof (live_ready w st Hlive) as Hready.
  pose proof (reachable_cachedTogether w st (live_reachable w st Hlive)) as Hwf.
  split; [|split].
  - destruct (CreateVM_outcome w params st Hready Hwf) as (_ & _ & Hout).
    exact (outcome_valueOrRemoteError _ _ Hout).
  - destruct (runs_VirtualMachine w path st Hready) as (_ & _ & Hout).
    exact (outcome_valueOrRemoteError _ _ Hout).
  - destruct (runs_createConfigSpec w params st Hready) as (_ & _ & Hout).
    exact (outcome_valueOrRemoteError _ _ Hout).
Qed.

Lemma live_connected_calmWorld : live calmWorld (connected calmWorld).
Proof. unfold connected. apply live_NewSession. reflexivity. Qed.

Lemma X12_live_session_fails_only_remotely_witness :
  live calmWorld (connected calmWorld) /\
  valueOrRemoteError (fst (CreateVM calmWorld sampleParams (connected calmWorld))).
Proof.
  split; [exact live_connected_calmWorld|].
  exact (proj1 (X12_live_session_fails_only_remotely calmWorld (connected calmWorld)
                  sampleParams "/dc/vm/vmkite-1" live_connected_calmWorld)).
Defined.

(** X13: every part of a config spec that [createConfigSpec] returns
    comes from [params] and the lookups made for them: the card is backed
    by what the network found under the path "*" followed by the network
    label reports as its backing; the disk is unit 0 of the new
    controller, on the datastore found for SrcDiskDataStore, with the file
    name made of that datastore's name and SrcDiskPath; guest id, memory,
    name and CPU topology are those of [params]; nested virtualization and
    the ICH7M and SMC devices are switched on; and the machine's files go
    to the datastore found for DatastoreName. *)
Theorem X13_config_spec_is_sourced (w : World) (params : VirtualMachineCreationParams)
    (st st' : State) (cs : VirtualMachineConfigSpec) :
  createConfigSpec w params st = (Ok cs, st') -> sourcedFor w params cs.
Proof.
  intros Hrun. destruct (ready_dec st) as [Hready|Hn].
  - destruct (runs_createConfigSpec w params st Hready) as (_ & _ & Hout).
    rewrite Hrun in Hout. cbn [fst] in Hout.
    destruct Hout as [(cs' & Hcs & _ & Hsourced)|(e & He)]; [|discriminate].
    now inversion Hcs; subst cs'.
  - now destruct (createConfigSpec_not_ready w params st cs st' Hn).
Qed.

Lemma X13_config_spec_is_sourced_witness :
  exists cs, fst (createConfigSpec calmWorld sampleParams (connected calmWorld)) = Ok cs /\
             sourcedFor calmWorld sampleParams cs.
Proof.
  destruct (runs_createConfigSpec calmWorld sampleParams (connected calmWorld)
              ready_connected_calmWorld) as (_ & Hsome & _).
  destruct (Hsome lookupsSucceed_calmWorld) as [cs Hcs].
  exists cs. split; [exact Hcs|].
  exact (X13_config_spec_is_sourced calmWorld sampleParams _ _ cs (run_Ok _ _ _ Hcs)).
Defined.



Lemma cachedTogether_connected_calmWorld : cachedTogether (sess (connected calmWorld)).
Proof. intros Hf. exfalso. apply Hf. reflexivity. Qed.

Lemma allSucceed_calmWorld : allSucceed calmWorld.
Proof.
  split; [exact lookupsSucceed_calmWorld|].
  repeat split; intros; try (eexists; reflexivity).
Qed.


(** X15: when every remote call succeeds, [CreateVM] on a session that
    has a client or a finder, and caches finder and datacenter together,
    returns a handle. *)
Theorem X15_CreateVM_succeeds_when_calls_do (w : World)
    (params : VirtualMachineCreationParams) (st : State) :
  allSucceed w -> ready st -> cachedTogether (sess st) ->
  exists vm st', CreateVM w params st = (Ok vm, st').
Proof.
  intros Hw Hready Hwf.
  destruct (CreateVM_outcome w params st Hready Hwf) as (_ & Hsome & _).
  destruct (Hsome Hw) as [vm Hvm].
  exists vm, (snd (CreateVM w params st)). now apply run_Ok.
Qed.

Lemma X15_CreateVM_succeeds_when_calls_do_witness :
  exists vm st', CreateVM calmWorld sampleParams (connected calmWorld) = (Ok vm, st').
Proof.
  exact (X15_CreateVM_succeeds_when_calls_do calmWorld sampleParams (connected calmWorld)
           allSucceed_calmWorld ready_connected_calmWorld cachedTogether_connected_calmWorld).
Defined.

(** *** NewSession *)

(** X16: [NewSession] makes at most two remote calls, the creation of
    the client and then one login with the user and password given.  When
    the URL made of the host does not parse it returns that error and
    calls nothing; when the client cannot be created it returns that error
    without logging in; in both cases the session has no client.  Once the
    client is created the session keeps it, whether the login succeeds or
    not, and the result is that of the login.  The datacenter and the
    finder are never set. *)
Theorem X16_NewSession_outcomes (w : World) (history : list Event) (cp : ConnectionParams) :
  let u := "https://" ++ Host cp ++ "/sdk" in
  let created := (history ++ [Called (Call_NewClient u (Insecure cp))])%list in
  (forall err,
      url_Parse w u = Some err ->
      NewSession w history cp = (Err err, {| sess := freshSession; trace := history |})) /\
  (forall e,
      url_Parse w u = None ->
      vim25_NewClient w history u (Insecure cp) = inl e ->
      NewSession w history cp = (Err (Remote e), {| sess := freshSession; trace := created |})) /\
  (url_Parse w u = None ->
   vim25_NewClient w history u (Insecure cp) = inr tt ->
   NewSession w history cp
     = (match Login w created (User cp) (Pass cp) with
        | inr _ => Ok tt
        | inl e => Err (Remote e)
        end,
        {| sess := {| client := Some (clientFor cp); datacenter := None; finder := None |};
           trace := (created ++ [Called (Call_Login (User cp) (Pass cp))])%list |})).
Proof.
  intros u created. unfold NewSession, connect. fold u. split; [|split].
  - intros err ->. reflexivity.
  - intros e -> Hnew. unfold bind, call. cbn [sess trace]. now rewrite Hnew.
  - intros -> Hnew. unfold bind, call. cbn [sess trace]. rewrite Hnew.
    unfold getSession, putSession, login, bind, getSession, liftR, call.
    cbn [sess trace client deref]. fold created.
    destruct (Login w created (User cp) (Pass cp)) as [e|[]]; reflexivity.
Qed.

Lemma X16_NewSession_outcomes_witness :
  NewSession lockedOutWorld [] sampleConnection
    = (Err (Remote (SoapFault (OtherFault "InvalidLogin"))),
       {| sess := {| client := Some sampleClient; datacenter := None; finder := None |};
          trace := [Called (Call_NewClient "https://vcenter.example/sdk" true);
                    Called (Call_Login "builder" "secret")] |}).
Proof.
  exact (proj2 (proj2 (X16_NewSession_outcomes lockedOutWorld [] sampleConnection))
               eq_refl eq_refl).
Defined.

(** *** The device steps on any list *)

Lemma addEthernet_not_ready (w : World) devices label st ds st' :
  ~ ready st -> addEthernet w devices label st <> (Ok ds, st').
Proof.
  intros Hn. destruct (getFinder_not_ready w st Hn) as [st1 Hp].
  unfold addEthernet, bind. rewrite Hp. discriminate.
Qed.

(** X17: the network, controller and USB steps each append exactly one
    device to whatever list they are given and leave the devices before it
    as they were.  The device [addEthernet] appends is a vmxnet3 card with
    a generated address, backed by what the network found under the path
    "*" followed by the label reports.  [addSCSI] and [addUSB] cannot fail
    and change neither session nor trace; the controller [addSCSI] appends
    does not depend on the list, so it has key -201 and bus 0 even when
    the list holds such a controller already. *)
Theorem X17_steps_append_one_device (w : World) (devices : VirtualDeviceList)
    (label : string) (st : State) :
  (forall ds st',
      addEthernet w devices label st = (Ok ds, st') ->
      exists network backing hN hB fN,
        FindNetwork w hN fN ("*" ++ label) = inr network /\
        EthernetCardBackingInfo w hB network = inr backing /\
        ds = (devices ++ [EthernetCard Vmxnet3
                            {| cardDevice := {| Key := -1; Backing := Some backing;
                                                ControllerKey := 0; UnitNumber := None |};
                               AddressType := VirtualEthernetCardMacTypeGenerated |}])%list) /\
  addSCSI devices st
    = (Ok (devices ++ [SCSIController LsiLogic newSCSIController])%list, st) /\
  addUSB devices st
    = (Ok (devices ++ [USBController
                         {| usbController := zeroVirtualController;
                            AutoConnectDevices := Some true;
                            EhciEnabled := Some true |}])%list, st).
Proof.
  split; [|split; reflexivity].
  intros ds st' Hrun. destruct (ready_dec st) as [Hready|Hn].
  - destruct (runs_addEthernet w devices label st Hready) as (_ & _ & Hout).
    rewrite Hrun in Hout. cbn [fst] in Hout.
    destruct Hout as [(ds' & Hds & HR)|(e & He)]; [|discriminate].
    now inversion Hds; subst ds'.
  - now destruct (addEthernet_not_ready w devices label st ds st' Hn).
Qed.

Lemma X17_steps_append_one_device_witness :
  exists ds st',
    addEthernet calmWorld [SCSIController LsiLogic newSCSIController] "builds"
                (connected calmWorld) = (Ok ds, st') /\
    ds = [SCSIController LsiLogic newSCSIController;
          EthernetCard Vmxnet3 (newEthernetCard (VirtualEthernetCardNetworkBackingInfo "VM Network"))].
Proof.
  destruct (runs_addEthernet calmWorld [SCSIController LsiLogic newSCSIController] "builds"
              (connected calmWorld) ready_connected_calmWorld) as (_ & Hsome & _).
  destruct (Hsome lookupsSucceed_calmWorld) as [ds Hds]. apply run_Ok in Hds.
  destruct (proj1 (X17_steps_append_one_device calmWorld
                     [SCSIController LsiLogic newSCSIController] "builds"
                     (connected calmWorld)) ds _ Hds)
    as (network & backing & hN & hB & fN & _ & HB & Heq).
  eexists ds, _. split; [exact Hds|].
  inversion HB; subst backing. exact Heq.
Defined.

(** *** vmFolder *)

Lemma nothingCached_appendClosed : appendClosed (fun st => nothingCached (sess st)).
Proof. intros st e H _. exact H. Qed.

Lemma getFinder_keeps_nothingCached (w : World) :
  keeps (fun st => nothingCached (sess st)) (getFinder w).
Proof.
  intros st H. destruct (finder (sess st)) as [f0|] eqn:Hf.
  - now rewrite (getFinder_cached w st f0 Hf).
  - destruct (client (sess st)) as [c|] eqn:Hc.
    + rewrite (getFinder_fresh w st c Hf Hc). cbn zeta.
      destruct (DefaultDatacenter w _ _) as [e|dc]; cbn [snd sess]; [exact H|].
      intros Hf'. discriminate.
    + unfold getFinder, bind, getSession. rewrite Hf.
      unfold debugf, emit, liftR. cbn [sess trace]. rewrite Hc. exact H.
Qed.

Lemma NewSession_no_datacenter (w : World) history cp :
  datacenter (sess (snd (NewSession w history cp))) = None.
Proof.
  unfold NewSession, connect. destruct (url_Parse w _); [reflexivity|].
  unfold bind, call. cbn [sess trace].
  destruct (vim25_NewClient w _ _ _); [reflexivity|].
  unfold getSession, putSession, login, bind, getSession, liftR, call. cbn [sess trace client deref].
  destruct (Login w _ _ _); reflexivity.
Qed.

Lemma reachable_nothingCached (w : World) st : reachable w st -> nothingCached (sess st).
Proof.
  induction 1 as [history cp|st cp _ IH|st path _ IH|st params _ IH|st events _ IH].
  - intros _. apply NewSession_no_datacenter.
  - exact (keeps_keepAliveHandler w _ cp nothingCached_appendClosed st IH).
  - exact (keeps_VirtualMachine w _ path nothingCached_appendClosed
             (getFinder_keeps_nothingCached w) st IH).
  - exact (keeps_CreateVM w _ params nothingCached_appendClosed
             (getFinder_keeps_nothingCached w) st IH).
  - exact IH.
Qed.

(** X18: [vmFolder] never loads the datacenter itself.  In every state
    a caller can bring a session to, as long as no finder has been cached
    (no [getFinder] has succeeded yet), [vmFolder] fails with "datacenter
    not loaded" without calling the control plane and without changing
    the session. *)
Theorem X18_vmFolder_needs_getFinder (w : World) (st : State) :
  reachable w st -> finder (sess st) = None ->
  vmFolder w st = (Err (errors_New "datacenter not loaded"), st).
Proof.
  intros Hreach Hf. pose proof (reachable_nothingCached w st Hreach Hf) as Hdc.
  unfold vmFolder, bind, getSession. now rewrite Hdc.
Qed.

Lemma X18_vmFolder_needs_getFinder_witness :
  vmFolder calmWorld (connected calmWorld)
    = (Err (errors_New "datacenter not loaded"), connected calmWorld).
Proof.
  apply X18_vmFolder_needs_getFinder; [|reflexivity].
  unfold connected. apply reach_NewSession.
Defined.

End VsphereMore.
